(** * DBusServer: the listener / server-lifecycle core of dbus/dbus-server.c

    A shallow embedding of [dbus/dbus-server.c].  Every C function of the
    file becomes a computation in a small monad that threads the state the
    function works on, records the calls that leave the file (lock
    operations, calls through function pointers, warnings) and can stop on
    a failed [_dbus_assert] or on a lock that is already taken. *)

From Stdlib Require Import ZArith List Ascii String Bool Lia.
From Stdlib.Strings Require Import Byte.
From ExtLib Require Import Structures.Monad.
Import ListNotations.
Import MonadNotation.
Local Open Scope monad_scope.
Local Open Scope Z_scope.

(** ** Build configuration

    The preprocessor symbols the file is conditional on.  [DBUS_DISABLE_ASSERT]
    does not occur in the file itself: it is the switch that turns
    [_dbus_assert] into a no-op. *)

Record BuildConfig : Type := mkBuildConfig {
  DBUS_HAVE_ATOMIC_INT : bool;
  DBUS_DISABLE_CHECKS : bool;
  DBUS_DISABLE_ASSERT : bool;
  DBUS_BUILD_TESTS : bool
}.

(** ** Values *)

(** Object pointers and function pointers are machine addresses; [NULL]
    is [None] wherever a pointer may be null. *)
Definition Ptr : Type := Z.
Definition FnPtr : Type := Z.

(** [dbus_bool_t] as passed through an argument list. *)
Definition TRUE : Z := 1.
Definition FALSE : Z := 0.
Definition of_bool (b : bool) : Z := if b then TRUE else FALSE.

(** [DBusError]: a name and a message; an error location that is clear
    is [None]. *)
Record DBusError : Type := mkDBusError {
  name : string;
  message : string
}.

(** [DBusAddressEntry]: one [method:key=value,...] segment. *)
Record DBusAddressEntry : Type := mkDBusAddressEntry {
  method : string;
  params : list (string * string)
}.

Definition dbus_address_entry_get_method (entry : DBusAddressEntry) : string :=
  method entry.

(** ** Executions *)

Inductive Fault : Type :=
| AssertionFailed   (* a [_dbus_assert] did not hold *)
| Deadlock          (* the server lock was taken while already held *)
| NullPointer       (* a NULL pointer was called or dereferenced *)
| NoReturn.         (* the function called out to did not come back *)

(** What a function does that is visible outside this file.  [EvRef]
    and [EvUnref] carry the new reference count; [EvCall] keeps the state
    in which the call was made. *)
Inductive Event (S : Type) : Type :=
| EvLock
| EvUnlock
| EvRef (value : Z)
| EvUnref (value : Z)
| EvCall (f : FnPtr) (args : list Z) (before : S)
| EvListen (j : nat) (entry : DBusAddressEntry)
| EvCheckFailed (what : string).

Arguments EvLock {S}.
Arguments EvUnlock {S}.
Arguments EvRef {S} value.
Arguments EvUnref {S} value.
Arguments EvCall {S} f args before.
Arguments EvListen {S} j entry.
Arguments EvCheckFailed {S} what.

Inductive Run (S A : Type) : Type :=
| Done (t : list (Event S)) (a : A) (s : S)
| Stuck (t : list (Event S)) (f : Fault).

Arguments Done {S A} t a s.
Arguments Stuck {S A} t f.

Definition Exec (S A : Type) : Type := S -> Run S A.

Definition after {S A : Type} (t : list (Event S)) (r : Run S A) : Run S A :=
  match r with
  | Done t' a s => Done (t ++ t') a s
  | Stuck t' f => Stuck (t ++ t') f
  end.

Definition exec_ret {S A : Type} (a : A) : Exec S A :=
  fun s => Done [] a s.

Definition exec_bind {S A B : Type} (m : Exec S A) (k : A -> Exec S B) : Exec S B :=
  fun s =>
    match m s with
    | Done t a s' => after t (k a s')
    | Stuck t f => Stuck t f
    end.

#[export] Instance Monad_Exec (S : Type) : Monad (Exec S) :=
  {| ret := @exec_ret S; bind := @exec_bind S |}.

Definition trace {S A : Type} (r : Run S A) : list (Event S) :=
  match r with
  | Done t _ _ => t
  | Stuck t _ => t
  end.

Definition emit {S : Type} (e : Event S) : Exec S unit := fun s => Done [e] tt s.
Definition stuck {S A : Type} (f : Fault) : Exec S A := fun _ => Stuck [] f.

Section Checks.
Variable cfg : BuildConfig.
Context {S : Type}.

(** Modelled from the spec: the macro [_dbus_assert] of dbus-internals.h,
    which is not among the sources.  A failed assertion is a fatal
    programming error in a build with assertions and is ignored in a
    build without them. *)
Definition _dbus_assert (condition : bool) : Exec S unit :=
  if DBUS_DISABLE_ASSERT cfg then ret tt
  else if condition then ret tt
  else stuck AssertionFailed.

(** Modelled from the spec: the macros [_dbus_return_val_if_fail] and
    [_dbus_return_if_fail] of dbus-internals.h.  Unless checks are
    compiled out, a failed condition warns and fails the call safely by
    leaving the function with [val]; otherwise the rest of the function
    runs. *)
Definition _dbus_return_val_if_fail {A : Type}
  (condition : bool) (what : string) (val : A) (body : Exec S A) : Exec S A :=
  if DBUS_DISABLE_CHECKS cfg then body
  else if condition then body
  else (emit (EvCheckFailed what) ;; ret val).

(** Modelled from the spec: [_dbus_warn_check_failed (format, ...)] of
    dbus-internals.c reports the failed check; the call goes on. *)
Definition _dbus_warn_check_failed (what : string) : Exec S unit :=
  emit (EvCheckFailed what).

End Checks.

(** ** Errors

    dbus-errors.c is not among the sources.  An error is a
    machine-readable kind and a human-readable message; an error location
    is either clear or holds one error. *)

(** Modelled from the spec: [dbus_error_is_set] of dbus-errors.c. *)
Definition dbus_error_is_set (error : option DBusError) : bool :=
  match error with Some _ => true | None => false end.

(** [error && dbus_error_is_set (error)] for an error location that may
    be a NULL pointer. *)
Definition error_is_set_at (error : option (option DBusError)) : bool :=
  match error with
  | Some e => dbus_error_is_set e
  | None => false
  end.

(** Modelled from the spec: [dbus_move_error (src, dest)] of
    dbus-errors.c.  [src] is left clear; a NULL [dest] only frees [src].
    The result is the new content of [src] and of [dest]. *)
Definition dbus_move_error (src : option DBusError) (dest : option (option DBusError))
  : option DBusError * option (option DBusError) :=
  match dest with
  | Some _ => (None, Some src)
  | None => (None, None)
  end.

(** Modelled from the spec: [dbus_set_error (error, name, format, ...)]
    of dbus-errors.c, the message already formatted.  Nothing happens for
    a NULL location. *)
Definition dbus_set_error (error : option (option DBusError)) (nm msg : string)
  : option (option DBusError) :=
  match error with
  | Some _ => Some (Some (mkDBusError nm msg))
  | None => None
  end.

(** ** [dbus_server_listen] *)

(** What a transport's listen function reports.  The enumeration is
    [DBusServerListenResult]; each value carries what the function leaves
    in [*server_p] and in the error it is given, which is what the
    assertions after each call check.  So the listen functions of this
    embedding are the ones that keep that contract: a function that
    answers OK and leaves no server, say, is not among them. *)
Inductive DBusServerListenResult : Type :=
| DBUS_SERVER_LISTEN_NOT_HANDLED
| DBUS_SERVER_LISTEN_OK (server : Ptr)
| DBUS_SERVER_LISTEN_BAD_ADDRESS (tmp_error : DBusError)
| DBUS_SERVER_LISTEN_DID_NOT_CONNECT (tmp_error : DBusError).

Definition ListenFunc (Ext : Type) : Type :=
  DBusAddressEntry -> Ext -> DBusServerListenResult * Ext.

(** The collaborators of [dbus_server_listen]: the address parser and
    the transports, acting on the state [Ext] of the outside world. *)
Class Transports (Ext : Type) : Type := {
  DBUS_ERROR_BAD_ADDRESS : string;
  dbus_parse_address : string -> Ext -> (DBusError + list DBusAddressEntry) * Ext;
  _dbus_server_listen_socket : ListenFunc Ext;
  _dbus_server_listen_platform_specific : ListenFunc Ext;
  _dbus_server_listen_debug_pipe : ListenFunc Ext
}.

(** The local variables of [dbus_server_listen] that the loop updates;
    [error] is the caller's location ([None] for a NULL pointer). *)
Record ListenFrame : Type := mkListenFrame {
  server : option Ptr;
  error : option (option DBusError);
  first_connect_error : option DBusError;
  handled_once : bool
}.

(** How a loop is left: by running to its end or by [goto out]. *)
Inductive LoopExit : Type := FallThrough | GotoOut.

Section Listen.
Variable cfg : BuildConfig.
Context {Ext : Type} `{Transports Ext}.

Definition listen_funcs : list (ListenFunc Ext) :=
  _dbus_server_listen_socket
    :: _dbus_server_listen_platform_specific
    :: (if DBUS_BUILD_TESTS cfg then [_dbus_server_listen_debug_pipe] else []).

(** Modelled from the spec: the macros [_DBUS_ASSERT_ERROR_IS_CLEAR] and
    [_DBUS_ASSERT_ERROR_IS_SET] of dbus-internals.h; a NULL location
    passes both. *)
Definition _DBUS_ASSERT_ERROR_IS_CLEAR (error : option (option DBusError)) : Exec Ext unit :=
  _dbus_assert cfg (negb (error_is_set_at error)).

Definition _DBUS_ASSERT_ERROR_IS_SET (error : option (option DBusError)) : Exec Ext unit :=
  _dbus_assert cfg (match error with None => true | Some e => dbus_error_is_set e end).

Definition call_listen_func (j : nat) (func : ListenFunc Ext) (entry : DBusAddressEntry)
  : Exec Ext DBusServerListenResult :=
  fun w => let (result, w') := func entry w in Done [EvListen j entry] result w'.

(** The body of the inner loop: one call of [listen_funcs[j].func]. *)
Definition listen_attempt (j : nat) (func : ListenFunc Ext) (entry : DBusAddressEntry)
  (l : ListenFrame) : Exec Ext (LoopExit * ListenFrame) :=
  result <- call_listen_func j func entry ;;
  match result with
  | DBUS_SERVER_LISTEN_OK new_server =>
      let l :=
        mkListenFrame (Some new_server) (error l) (first_connect_error l) (handled_once l) in
      _dbus_assert cfg (match server l with Some _ => true | None => false end) ;;
      _DBUS_ASSERT_ERROR_IS_CLEAR (Some None) ;;
      ret (GotoOut, mkListenFrame (server l) (error l) (first_connect_error l) true)
  | DBUS_SERVER_LISTEN_BAD_ADDRESS tmp_error =>
      _dbus_assert cfg (match server l with Some _ => false | None => true end) ;;
      _DBUS_ASSERT_ERROR_IS_SET (Some (Some tmp_error)) ;;
      let (_, error') := dbus_move_error (Some tmp_error) (error l) in
      ret (GotoOut, mkListenFrame (server l) error' (first_connect_error l) true)
  | DBUS_SERVER_LISTEN_NOT_HANDLED =>
      _dbus_assert cfg (match server l with Some _ => false | None => true end) ;;
      _DBUS_ASSERT_ERROR_IS_CLEAR (Some None) ;;
      (* keep trying addresses *)
      ret (FallThrough, l)
  | DBUS_SERVER_LISTEN_DID_NOT_CONNECT tmp_error =>
      _dbus_assert cfg (match server l with Some _ => false | None => true end) ;;
      _DBUS_ASSERT_ERROR_IS_SET (Some (Some tmp_error)) ;;
      let first_connect_error' :=
        if negb (dbus_error_is_set (first_connect_error l))
        then (* dbus_move_error (&tmp_error, &first_connect_error) *) Some tmp_error
        else (* dbus_error_free (&tmp_error) *) first_connect_error l in
      (* keep trying addresses *)
      ret (FallThrough, mkListenFrame (server l) (error l) first_connect_error' true)
  end.

(** [for (j = 0; j < _DBUS_N_ELEMENTS (listen_funcs); ++j)], from [j] on. *)
Fixpoint try_listen_funcs (funcs : list (ListenFunc Ext)) (j : nat)
  (entry : DBusAddressEntry) (l : ListenFrame) : Exec Ext (LoopExit * ListenFrame) :=
  match funcs with
  | [] => ret (FallThrough, l)
  | func :: funcs' =>
      r <- listen_attempt j func entry l ;;
      match r with
      | (GotoOut, l') => ret (GotoOut, l')
      | (FallThrough, l') => try_listen_funcs funcs' (S j) entry l'
      end
  end.

(** [for (i = 0; i < len; i++)], over the entries still to try. *)
Fixpoint try_entries (entries : list DBusAddressEntry) (l : ListenFrame)
  : Exec Ext (LoopExit * ListenFrame) :=
  match entries with
  | [] => ret (FallThrough, l)
  | entry :: entries' =>
      r <- try_listen_funcs listen_funcs 0 entry l ;;
      match r with
      | (GotoOut, l') => ret (GotoOut, l')
      | (FallThrough, l') =>
          _dbus_assert cfg (match server l' with Some _ => false | None => true end) ;;
          _DBUS_ASSERT_ERROR_IS_CLEAR (error l') ;;
          try_entries entries' l'
      end
  end.

(** From the label [out] to the end of the function.  The result is the
    returned server and the final content of the caller's error. *)
Definition listen_out (address : string) (entries : list DBusAddressEntry)
  (l : ListenFrame) : Exec Ext (option Ptr * option (option DBusError)) :=
  error1 <-
    (if negb (handled_once l) then
       _DBUS_ASSERT_ERROR_IS_CLEAR (error l) ;;
       match entries with
       | entry0 :: _ =>
           ret (dbus_set_error (error l) DBUS_ERROR_BAD_ADDRESS
                  ("Unknown address type '" ++ dbus_address_entry_get_method entry0 ++ "'")%string)
       | [] =>
           ret (dbus_set_error (error l) DBUS_ERROR_BAD_ADDRESS
                  ("Empty address '" ++ address ++ "'")%string)
       end
     else ret (error l)) ;;
  (* dbus_address_entries_free (entries) *)
  match server l with
  | None =>
      _dbus_assert cfg
        (match error1 with None => true | Some _ => false end
         || dbus_error_is_set (first_connect_error l)
         || error_is_set_at error1) ;;
      moved <-
        (if error_is_set_at error1 then
           (* already set the error *)
           ret (first_connect_error l, error1)
         else
           _dbus_assert cfg
             (match error1 with None => true | Some _ => false end
              || dbus_error_is_set (first_connect_error l)) ;;
           ret (dbus_move_error (first_connect_error l) error1)) ;;
      let (first_connect_error2, error2) :=
        moved : option DBusError * option (option DBusError) in
      _DBUS_ASSERT_ERROR_IS_CLEAR (Some first_connect_error2) ;; (* be sure we freed it *)
      _DBUS_ASSERT_ERROR_IS_SET error2 ;;
      ret (None, error2)
  | Some the_server =>
      _DBUS_ASSERT_ERROR_IS_CLEAR error1 ;;
      ret (Some the_server, error1)
  end.

Definition call_parse_address (address : string)
  : Exec Ext (DBusError + list DBusAddressEntry) :=
  fun w => let (r, w') := dbus_parse_address address w in Done [] r w'.

Definition dbus_server_listen (address : option string) (error : option (option DBusError))
  : Exec Ext (option Ptr * option (option DBusError)) :=
  _dbus_return_val_if_fail cfg
    (match address with Some _ => true | None => false end) "address != NULL" (None, error)
    (_dbus_return_val_if_fail cfg
       (negb (error_is_set_at error)) "error == NULL || !dbus_error_is_set (error)" (None, error)
       (match address with
        | None => stuck NullPointer
        | Some address =>
            parsed <- call_parse_address address ;;
            match parsed with
            | inl parse_error =>
                (* the parser has set [error]; return NULL *)
                ret (None, snd (dbus_move_error (Some parse_error) error))
            | inr entries =>
                r <- try_entries entries (mkListenFrame None error None false) ;;
                listen_out address entries (snd r)
            end
        end)).

End Listen.

(** ** The server object *)

(** [DBusServerVTable]: the transport's implementation of the base class. *)
Record DBusServerVTable : Type := mkDBusServerVTable {
  finalize : option FnPtr;
  disconnect : option FnPtr
}.

(** [DBusGUID]: the bytes of the server's identifier. *)
Definition DBusGUID : Type := list Byte.byte.

(** [DBusDataSlotList]: per slot, the stored pointer and its destructor. *)
Definition DBusDataSlotList : Type := list (Ptr * option FnPtr).

(** [struct DBusServer].  [refcount] is [refcount.value]; [have_server_lock]
    tells whether the server's lock is held. *)
Record DBusServer : Type := mkDBusServer {
  refcount : Z;
  vtable : DBusServerVTable;
  mutex : option Ptr;
  guid : DBusGUID;
  guid_hex : string;
  watches : option Ptr;
  timeouts : option Ptr;
  address : option string;
  new_connection_function : option FnPtr;
  new_connection_data : Ptr;
  new_connection_free_data_function : option FnPtr;
  auth_mechanisms : option (list string);
  slot_list : DBusDataSlotList;
  disconnected : bool;
  have_server_lock : bool
}.

Definition set_refcount (v : Z) (s : DBusServer) : DBusServer :=
  mkDBusServer v (vtable s) (mutex s) (guid s) (guid_hex s) (watches s) (timeouts s)
    (address s) (new_connection_function s) (new_connection_data s)
    (new_connection_free_data_function s) (auth_mechanisms s) (slot_list s)
    (disconnected s) (have_server_lock s).

Definition set_vtable (v : DBusServerVTable) (s : DBusServer) : DBusServer :=
  mkDBusServer (refcount s) v (mutex s) (guid s) (guid_hex s) (watches s) (timeouts s)
    (address s) (new_connection_function s) (new_connection_data s)
    (new_connection_free_data_function s) (auth_mechanisms s) (slot_list s)
    (disconnected s) (have_server_lock s).

Definition set_mutex (v : option Ptr) (s : DBusServer) : DBusServer :=
  mkDBusServer (refcount s) (vtable s) v (guid s) (guid_hex s) (watches s) (timeouts s)
    (address s) (new_connection_function s) (new_connection_data s)
    (new_connection_free_data_function s) (auth_mechanisms s) (slot_list s)
    (disconnected s) (have_server_lock s).

Definition set_guid (v : DBusGUID) (s : DBusServer) : DBusServer :=
  mkDBusServer (refcount s) (vtable s) (mutex s) v (guid_hex s) (watches s)
    (timeouts s) (address s) (new_connection_function s) (new_connection_data s)
    (new_connection_free_data_function s) (auth_mechanisms s) (slot_list s)
    (disconnected s) (have_server_lock s).

Definition set_guid_hex (v : string) (s : DBusServer) : DBusServer :=
  mkDBusServer (refcount s) (vtable s) (mutex s) (guid s) v (watches s) (timeouts s)
    (address s) (new_connection_function s) (new_connection_data s)
    (new_connection_free_data_function s) (auth_mechanisms s) (slot_list s)
    (disconnected s) (have_server_lock s).

Definition set_watches (v : option Ptr) (s : DBusServer) : DBusServer :=
  mkDBusServer (refcount s) (vtable s) (mutex s) (guid s) (guid_hex s) v (timeouts s)
    (address s) (new_connection_function s) (new_connection_data s)
    (new_connection_free_data_function s) (auth_mechanisms s) (slot_list s)
    (disconnected s) (have_server_lock s).

Definition set_timeouts (v : option Ptr) (s : DBusServer) : DBusServer :=
  mkDBusServer (refcount s) (vtable s) (mutex s) (guid s) (guid_hex s) (watches s) v
    (address s) (new_connection_function s) (new_connection_data s)
    (new_connection_free_data_function s) (auth_mechanisms s) (slot_list s)
    (disconnected s) (have_server_lock s).

Definition set_address (v : option string) (s : DBusServer) : DBusServer :=
  mkDBusServer (refcount s) (vtable s) (mutex s) (guid s) (guid_hex s) (watches s)
    (timeouts s) v (new_connection_function s) (new_connection_data s)
    (new_connection_free_data_function s) (auth_mechanisms s) (slot_list s)
    (disconnected s) (have_server_lock s).

Definition set_new_connection_function (v : option FnPtr) (s : DBusServer) : DBusServer :=
  mkDBusServer (refcount s) (vtable s) (mutex s) (guid s) (guid_hex s) (watches s)
    (timeouts s) (address s) v (new_connection_data s)
    (new_connection_free_data_function s) (auth_mechanisms s) (slot_list s)
    (disconnected s) (have_server_lock s).

Definition set_new_connection_data (v : Ptr) (s : DBusServer) : DBusServer :=
  mkDBusServer (refcount s) (vtable s) (mutex s) (guid s) (guid_hex s) (watches s)
    (timeouts s) (address s) (new_connection_function s) v
    (new_connection_free_data_function s) (auth_mechanisms s) (slot_list s)
    (disconnected s) (have_server_lock s).

Definition set_new_connection_free_data_function (v : option FnPtr) (s : DBusServer)
  : DBusServer :=
  mkDBusServer (refcount s) (vtable s) (mutex s) (guid s) (guid_hex s) (watches s)
    (timeouts s) (address s) (new_connection_function s) (new_connection_data s) v
    (auth_mechanisms s) (slot_list s) (disconnected s) (have_server_lock s).

Definition set_auth_mechanisms (v : option (list string)) (s : DBusServer) : DBusServer :=
  mkDBusServer (refcount s) (vtable s) (mutex s) (guid s) (guid_hex s) (watches s)
    (timeouts s) (address s) (new_connection_function s) (new_connection_data s)
    (new_connection_free_data_function s) v (slot_list s) (disconnected s)
    (have_server_lock s).

Definition set_slot_list (v : DBusDataSlotList) (s : DBusServer) : DBusServer :=
  mkDBusServer (refcount s) (vtable s) (mutex s) (guid s) (guid_hex s) (watches s)
    (timeouts s) (address s) (new_connection_function s) (new_connection_data s)
    (new_connection_free_data_function s) (auth_mechanisms s) v (disconnected s)
    (have_server_lock s).

Definition set_disconnected (v : bool) (s : DBusServer) : DBusServer :=
  mkDBusServer (refcount s) (vtable s) (mutex s) (guid s) (guid_hex s) (watches s)
    (timeouts s) (address s) (new_connection_function s) (new_connection_data s)
    (new_connection_free_data_function s) (auth_mechanisms s) (slot_list s) v
    (have_server_lock s).

Definition set_have_server_lock (v : bool) (s : DBusServer) : DBusServer :=
  mkDBusServer (refcount s) (vtable s) (mutex s) (guid s) (guid_hex s) (watches s)
    (timeouts s) (address s) (new_connection_function s) (new_connection_data s)
    (new_connection_free_data_function s) (auth_mechanisms s) (slot_list s)
    (disconnected s) v.

(** [dbus_int32_t] arithmetic on the reference count. *)
Definition wrap_int32 (z : Z) : Z := (z + 2 ^ 31) mod 2 ^ 32 - 2 ^ 31.

(** The state the server functions run in: the server object and the
    rest of the world (registries, application data, the allocator). *)
Record World (Ext : Type) : Type := mkWorld {
  srv : DBusServer;
  ext : Ext
}.

Arguments mkWorld {Ext} srv ext.
Arguments srv {Ext} w.
Arguments ext {Ext} w.

(** The collaborators of the server functions.  [invoke f args w] is what
    calling the code at address [f] does: it may touch the whole world,
    the server included, and [None] means that the call does not come
    back.  The functions of dbus-watch.c, dbus-timeout.c and
    dbus-dataslot.c that run application code are reached through their
    addresses as well. *)
Class Collaborators (Ext : Type) : Type := {
  invoke : FnPtr -> list Z -> World Ext -> option (Z * World Ext);
  dbus_malloc : Ext -> bool * Ext;
  _dbus_generate_uuid : Ext -> DBusGUID * Ext;
  _dbus_string_hex_encode : DBusGUID -> string;
  _dbus_mutex_new : Ext -> option Ptr * Ext;
  _dbus_watch_list_new : Ext -> option Ptr * Ext;
  _dbus_timeout_list_new : Ext -> option Ptr * Ext;
  _dbus_data_slot_list_set :
    DBusDataSlotList -> Z -> Ptr -> option FnPtr -> Ext ->
    option (DBusDataSlotList * option FnPtr * Ptr) * Ext;
  _dbus_data_slot_list_get : DBusDataSlotList -> Z -> Ext -> Ptr;
  _dbus_data_slot_list_free : FnPtr;
  _dbus_watch_list_add_watch : FnPtr;
  _dbus_watch_list_remove_watch : FnPtr;
  _dbus_watch_list_toggle_watch : FnPtr;
  _dbus_watch_list_set_functions : FnPtr;
  _dbus_watch_list_free : FnPtr;
  _dbus_timeout_list_add_timeout : FnPtr;
  _dbus_timeout_list_remove_timeout : FnPtr;
  _dbus_timeout_list_toggle_timeout : FnPtr;
  _dbus_timeout_list_set_functions : FnPtr;
  _dbus_timeout_list_free : FnPtr
}.

(** [dest] with the bytes of [source] from [start] on inserted at
    [insert_at]. *)
Definition string_insert (source : string) (start : nat) (dest : string) (insert_at : nat)
  : string :=
  (substring 0 insert_at dest
   ++ substring start (String.length source - start) source
   ++ substring insert_at (String.length dest - insert_at) dest)%string.

(** A pointer argument that may be NULL. *)
Definition ptr_arg (p : option Z) : Z :=
  match p with Some a => a | None => 0 end.

(** The functions of the file.  The [server] they are given is the
    server of the world they run in, so the checks [server != NULL] hold
    and are left out; everything else follows the C text statement by
    statement, [#ifdef] branches included. *)
Section Server.
Variable cfg : BuildConfig.
Context {Ext : Type} `{Collaborators Ext}.

Definition server_get {A : Type} (f : DBusServer -> A) : Exec (World Ext) A :=
  fun w => Done [] (f (srv w)) w.

Definition server_set (f : DBusServer -> DBusServer) : Exec (World Ext) unit :=
  fun w => Done [] tt (mkWorld (f (srv w)) (ext w)).

(** A step of a collaborator that only touches the outside world. *)
Definition outside {A : Type} (f : Ext -> A * Ext) : Exec (World Ext) A :=
  fun w => let (a, e) := f (ext w) in Done [] a (mkWorld (srv w) e).

(** A call that leaves the file: through a function pointer, or into a
    library function that runs application code.  [args] are the
    arguments other than the server itself. *)
Definition call_out (f : option FnPtr) (args : list Z) : Exec (World Ext) Z :=
  fun w =>
    match f with
    | None => Stuck [] NullPointer
    | Some fp =>
        match invoke fp args w with
        | Some (r, w') => Done [EvCall fp args w] r w'
        | None => Stuck [EvCall fp args w] NoReturn
        end
    end.

(** Modelled from the spec: the macros [SERVER_LOCK], [SERVER_UNLOCK] and
    [HAVE_LOCK_CHECK] of dbus-server-protected.h, which is not among the
    sources.  One mutex per server object guards its fields: [SERVER_LOCK]
    takes it and cannot proceed while it is held, [SERVER_UNLOCK] releases
    it, and the checks compare [have_server_lock] with what the caller
    expects. *)
Definition SERVER_LOCK : Exec (World Ext) unit :=
  held <- server_get have_server_lock ;;
  if held then stuck Deadlock
  else (emit EvLock ;; server_set (set_have_server_lock true)).

Definition SERVER_UNLOCK : Exec (World Ext) unit :=
  held <- server_get have_server_lock ;;
  (if DBUS_DISABLE_CHECKS cfg then ret tt else _dbus_assert cfg held) ;;
  emit EvUnlock ;;
  server_set (set_have_server_lock false).

Definition HAVE_LOCK_CHECK : Exec (World Ext) unit :=
  held <- server_get have_server_lock ;;
  if DBUS_DISABLE_CHECKS cfg then ret tt else _dbus_assert cfg held.

(** Modelled from the spec: [_dbus_atomic_inc] and [_dbus_atomic_dec] of
    dbus-sysdeps.c on [server->refcount]; both return the value before
    the operation. *)
Definition _dbus_atomic_inc : Exec (World Ext) Z :=
  old <- server_get refcount ;;
  server_set (set_refcount (wrap_int32 (old + 1))) ;;
  emit (EvRef (wrap_int32 (old + 1))) ;;
  ret old.

Definition _dbus_atomic_dec : Exec (World Ext) Z :=
  old <- server_get refcount ;;
  server_set (set_refcount (wrap_int32 (old - 1))) ;;
  emit (EvUnref (wrap_int32 (old - 1))) ;;
  ret old.

(** [server->refcount.value += 1] and [server->refcount.value -= 1]. *)
Definition refcount_inc : Exec (World Ext) unit :=
  old <- server_get refcount ;;
  server_set (set_refcount (wrap_int32 (old + 1))) ;;
  emit (EvRef (wrap_int32 (old + 1))).

Definition refcount_dec : Exec (World Ext) unit :=
  old <- server_get refcount ;;
  server_set (set_refcount (wrap_int32 (old - 1))) ;;
  emit (EvUnref (wrap_int32 (old - 1))).

(** *** DBusString and allocation

    dbus-string.c and dbus-memory.c are not among the sources.  Every
    operation that needs memory asks the allocator once and, when there
    is none, fails and changes nothing. *)

(** Modelled from the spec: [_dbus_string_init] of dbus-string.c; the new
    string is empty. *)
Definition _dbus_string_init : Exec (World Ext) (option string) :=
  ok <- outside dbus_malloc ;;
  ret (if ok then Some EmptyString else None).

(** Modelled from the spec: [_dbus_string_get_length] of dbus-string.c. *)
Definition _dbus_string_get_length (str : string) : nat := String.length str.

(** Modelled from the spec: [_dbus_string_copy (source, start, dest,
    insert_at)] of dbus-string.c.  The result is the new content of
    [dest], which is [dest] with [source] from [start] on inserted at
    [insert_at], or [None] when there is no memory. *)
Definition _dbus_string_copy (source : string) (start : nat) (dest : string) (insert_at : nat)
  : Exec (World Ext) (option string) :=
  ok <- outside dbus_malloc ;;
  ret (if ok then Some (string_insert source start dest insert_at) else None).

(** Modelled from the spec: [_dbus_string_append] of dbus-string.c. *)
Definition _dbus_string_append (str : string) (buffer : string)
  : Exec (World Ext) (option string) :=
  ok <- outside dbus_malloc ;;
  ret (if ok then Some (str ++ buffer)%string else None).

(** Modelled from the spec: [_dbus_string_steal_data (str, &data)] of
    dbus-string.c; [data] stays NULL on failure. *)
Definition _dbus_string_steal_data (str : string) : Exec (World Ext) (option string) :=
  ok <- outside dbus_malloc ;;
  ret (if ok then Some str else None).

(** Modelled from the spec: [_dbus_uuid_encode (&uuid, encoded)] of
    dbus-internals.c appends the hex form of [uuid] to [encoded]. *)
Definition _dbus_uuid_encode (uuid : DBusGUID) (encoded : string)
  : Exec (World Ext) (option string) :=
  ok <- outside dbus_malloc ;;
  ret (if ok then Some (encoded ++ _dbus_string_hex_encode uuid)%string else None).

(** Modelled from the spec: [_dbus_strdup] of dbus-internals.c; the copy
    of NULL is NULL. *)
Definition _dbus_strdup (str : option string) : Exec (World Ext) (option string) :=
  match str with
  | None => ret None
  | Some s =>
      ok <- outside dbus_malloc ;;
      ret (if ok then Some s else None)
  end.

(** Modelled from the spec: [_dbus_dup_string_array] of dbus-internals.c. *)
Definition _dbus_dup_string_array (array : list string)
  : Exec (World Ext) (option (list string)) :=
  ok <- outside dbus_malloc ;;
  ret (if ok then Some array else None).

(** *** Construction *)

Definition copy_address_with_guid_appended (address guid_hex : string)
  : Exec (World Ext) (option string) :=
  init <- _dbus_string_init ;;
  match init with
  | None => ret None
  | Some with_guid =>
      c1 <- _dbus_string_copy address 0 with_guid (_dbus_string_get_length with_guid) ;;
      match c1 with
      | None => (* _dbus_string_free (&with_guid) *) ret None
      | Some with_guid =>
          c2 <- _dbus_string_append with_guid ",guid=" ;;
          match c2 with
          | None => ret None
          | Some with_guid =>
              c3 <- _dbus_string_copy guid_hex 0 with_guid (_dbus_string_get_length with_guid) ;;
              match c3 with
              | None => ret None
              | Some with_guid =>
                  retval <- _dbus_string_steal_data with_guid ;;
                  (* _dbus_string_free (&with_guid) *)
                  ret retval (* may be NULL if steal_data failed *)
              end
          end
      end
  end.

(** The label [failed] of [_dbus_server_init_base].  The two registry
    functions are the ones [_dbus_server_finalize_base] calls, and are
    calls out here as they are there. *)
Definition init_base_failed : Exec (World Ext) bool :=
  (* _dbus_mutex_free_at_location (&server->mutex) *)
  server_set (set_mutex None) ;;
  wl <- server_get watches ;;
  (match wl with
   | Some the_watches =>
       call_out (Some _dbus_watch_list_free) [the_watches] ;;
       server_set (set_watches None)
   | None => ret tt
   end) ;;
  tl <- server_get timeouts ;;
  (match tl with
   | Some the_timeouts =>
       call_out (Some _dbus_timeout_list_free) [the_timeouts] ;;
       server_set (set_timeouts None)
   | None => ret tt
   end) ;;
  a <- server_get address ;;
  (match a with
   | Some _ => (* dbus_free *) server_set (set_address None)
   | None => ret tt
   end) ;;
  (* _dbus_string_free (&server->guid_hex) *)
  server_set (set_guid_hex EmptyString) ;;
  ret false.

Definition _dbus_server_init_base (the_vtable : DBusServerVTable) (the_address : string)
  : Exec (World Ext) bool :=
  server_set (set_vtable the_vtable) ;;
  server_set (set_refcount 1) ;;
  server_set (set_address None) ;;
  server_set (set_watches None) ;;
  server_set (set_timeouts None) ;;
  init <- _dbus_string_init ;;
  match init with
  | None => ret false
  | Some empty =>
      server_set (set_guid_hex empty) ;;
      uuid <- outside _dbus_generate_uuid ;;
      server_set (set_guid uuid) ;;
      encoded <- _dbus_uuid_encode uuid empty ;;
      match encoded with
      | None => init_base_failed
      | Some hex =>
          server_set (set_guid_hex hex) ;;
          copy <- copy_address_with_guid_appended the_address hex ;;
          server_set (set_address copy) ;;
          match copy with
          | None => init_base_failed
          | Some _ =>
              m <- outside _dbus_mutex_new ;;
              server_set (set_mutex m) ;;
              match m with
              | None => init_base_failed
              | Some _ =>
                  wl <- outside _dbus_watch_list_new ;;
                  server_set (set_watches wl) ;;
                  match wl with
                  | None => init_base_failed
                  | Some _ =>
                      tl <- outside _dbus_timeout_list_new ;;
                      server_set (set_timeouts tl) ;;
                      match tl with
                      | None => init_base_failed
                      | Some _ =>
                          (* _dbus_data_slot_list_init (&server->slot_list) *)
                          server_set (set_slot_list []) ;;
                          ret true
                      end
                  end
              end
          end
      end
  end.

(** *** Reference counting *)

(** [dbus_server_ref]; the result tells whether [server] (and not NULL)
    is returned. *)
Definition dbus_server_ref : Exec (World Ext) bool :=
  rc <- server_get refcount ;;
  _dbus_return_val_if_fail cfg (0 <? rc) "server->refcount.value > 0" false
    ((if DBUS_HAVE_ATOMIC_INT cfg then
        _dbus_atomic_inc ;; ret tt
      else
        SERVER_LOCK ;;
        rc <- server_get refcount ;;
        _dbus_assert cfg (0 <? rc) ;;
        refcount_inc ;;
        SERVER_UNLOCK) ;;
     ret true).

(** The assertion that [server->vtable->finalize] is not NULL, and the
    call through it. *)
Definition call_finalize : Exec (World Ext) unit :=
  vt <- server_get vtable ;;
  _dbus_assert cfg (match finalize vt with Some _ => true | None => false end) ;;
  call_out (finalize vt) [] ;;
  ret tt.

Definition dbus_server_unref : Exec (World Ext) unit :=
  rc <- server_get refcount ;;
  _dbus_return_val_if_fail cfg (0 <? rc) "server->refcount.value > 0" tt
    (last_unref <-
       (if DBUS_HAVE_ATOMIC_INT cfg then
          old <- _dbus_atomic_dec ;;
          ret (old =? 1)
        else
          SERVER_LOCK ;;
          rc <- server_get refcount ;;
          _dbus_assert cfg (0 <? rc) ;;
          refcount_dec ;;
          rc' <- server_get refcount ;;
          SERVER_UNLOCK ;;
          ret (rc' =? 0)) ;;
     if last_unref : bool then
       (* lock not held! *)
       d <- server_get disconnected ;;
       _dbus_assert cfg d ;;
       call_finalize
     else ret tt).

Definition _dbus_server_ref_unlocked : Exec (World Ext) unit :=
  rc <- server_get refcount ;;
  _dbus_assert cfg (0 <? rc) ;;
  HAVE_LOCK_CHECK ;;
  if DBUS_HAVE_ATOMIC_INT cfg then
    _dbus_atomic_inc ;; ret tt
  else
    rc <- server_get refcount ;;
    _dbus_assert cfg (0 <? rc) ;;
    refcount_inc.

Definition _dbus_server_unref_unlocked : Exec (World Ext) unit :=
  rc <- server_get refcount ;;
  _dbus_assert cfg (0 <? rc) ;;
  HAVE_LOCK_CHECK ;;
  last_unref <-
    (if DBUS_HAVE_ATOMIC_INT cfg then
       old <- _dbus_atomic_dec ;;
       ret (old =? 1)
     else
       rc <- server_get refcount ;;
       _dbus_assert cfg (0 <? rc) ;;
       refcount_dec ;;
       rc' <- server_get refcount ;;
       ret (rc' =? 0)) ;;
  if last_unref : bool then
    d <- server_get disconnected ;;
    _dbus_assert cfg d ;;
    SERVER_UNLOCK ;;
    call_finalize
  else ret tt.

(** *** Watches and timeouts *)

Definition protected_change_watch (watch : Ptr)
  (add_function remove_function toggle_function : option FnPtr) (enabled : bool)
  : Exec (World Ext) Z :=
  HAVE_LOCK_CHECK ;;
  the_watches <- server_get watches ;;
  match the_watches with
  | Some wl =>
      server_set (set_watches None) ;;
      _dbus_server_ref_unlocked ;;
      SERVER_UNLOCK ;;
      retval <-
        match add_function with
        | Some _ => call_out add_function [wl; watch]
        | None =>
            match remove_function with
            | Some _ => call_out remove_function [wl; watch] ;; ret TRUE
            | None => call_out toggle_function [wl; watch; of_bool enabled] ;; ret TRUE
            end
        end ;;
      SERVER_LOCK ;;
      server_set (set_watches (Some wl)) ;;
      _dbus_server_unref_unlocked ;;
      ret retval
  | None => ret FALSE
  end.

Definition _dbus_server_add_watch (watch : Ptr) : Exec (World Ext) Z :=
  HAVE_LOCK_CHECK ;;
  protected_change_watch watch (Some _dbus_watch_list_add_watch) None None false.

Definition _dbus_server_remove_watch (watch : Ptr) : Exec (World Ext) unit :=
  HAVE_LOCK_CHECK ;;
  protected_change_watch watch None (Some _dbus_watch_list_remove_watch) None false ;;
  ret tt.

Definition _dbus_server_toggle_watch (watch : option Ptr) (enabled : bool)
  : Exec (World Ext) unit :=
  _dbus_assert cfg (match watch with Some _ => true | None => false end) ;;
  HAVE_LOCK_CHECK ;;
  protected_change_watch (ptr_arg watch) None None (Some _dbus_watch_list_toggle_watch) enabled ;;
  ret tt.

Definition protected_change_timeout (timeout : Ptr)
  (add_function remove_function toggle_function : option FnPtr) (enabled : bool)
  : Exec (World Ext) Z :=
  HAVE_LOCK_CHECK ;;
  the_timeouts <- server_get timeouts ;;
  match the_timeouts with
  | Some tl =>
      server_set (set_timeouts None) ;;
      _dbus_server_ref_unlocked ;;
      SERVER_UNLOCK ;;
      retval <-
        match add_function with
        | Some _ => call_out add_function [tl; timeout]
        | None =>
            match remove_function with
            | Some _ => call_out remove_function [tl; timeout] ;; ret TRUE
            | None => call_out toggle_function [tl; timeout; of_bool enabled] ;; ret TRUE
            end
        end ;;
      SERVER_LOCK ;;
      server_set (set_timeouts (Some tl)) ;;
      _dbus_server_unref_unlocked ;;
      ret retval
  | None => ret FALSE
  end.

Definition _dbus_server_add_timeout (timeout : Ptr) : Exec (World Ext) Z :=
  protected_change_timeout timeout (Some _dbus_timeout_list_add_timeout) None None false.

Definition _dbus_server_remove_timeout (timeout : Ptr) : Exec (World Ext) unit :=
  protected_change_timeout timeout None (Some _dbus_timeout_list_remove_timeout) None false ;;
  ret tt.

Definition _dbus_server_toggle_timeout (timeout : Ptr) (enabled : bool)
  : Exec (World Ext) unit :=
  protected_change_timeout timeout None None (Some _dbus_timeout_list_toggle_timeout) enabled ;;
  ret tt.

(** *** The public operations *)

Definition dbus_server_disconnect : Exec (World Ext) unit :=
  rc <- server_get refcount ;;
  _dbus_return_val_if_fail cfg (0 <? rc) "server->refcount.value > 0" tt
    (SERVER_LOCK ;;
     _dbus_server_ref_unlocked ;;
     vt <- server_get vtable ;;
     _dbus_assert cfg (match disconnect vt with Some _ => true | None => false end) ;;
     d <- server_get disconnected ;;
     (if negb d then
        (* this has to be first so recursive calls to disconnect don't happen *)
        server_set (set_disconnected true) ;;
        call_out (disconnect vt) [] ;;
        ret tt
      else ret tt) ;;
     SERVER_UNLOCK ;;
     dbus_server_unref).

Definition dbus_server_get_is_connected : Exec (World Ext) bool :=
  SERVER_LOCK ;;
  d <- server_get disconnected ;;
  SERVER_UNLOCK ;;
  ret (negb d).

Definition dbus_server_get_address : Exec (World Ext) (option string) :=
  SERVER_LOCK ;;
  a <- server_get address ;;
  retval <- _dbus_strdup a ;;
  SERVER_UNLOCK ;;
  ret retval.

Definition dbus_server_set_new_connection_function
  (function : option FnPtr) (data : Ptr) (free_data_function : option FnPtr)
  : Exec (World Ext) unit :=
  SERVER_LOCK ;;
  old_free_function <- server_get new_connection_free_data_function ;;
  old_data <- server_get new_connection_data ;;
  server_set (set_new_connection_function function) ;;
  server_set (set_new_connection_data data) ;;
  server_set (set_new_connection_free_data_function free_data_function) ;;
  SERVER_UNLOCK ;;
  match old_free_function with
  | Some _ => call_out old_free_function [old_data] ;; ret tt
  | None => ret tt
  end.

Definition dbus_server_set_watch_functions
  (add_function remove_function toggled_function : option FnPtr)
  (data : Ptr) (free_data_function : option FnPtr) : Exec (World Ext) Z :=
  SERVER_LOCK ;;
  the_watches <- server_get watches ;;
  server_set (set_watches None) ;;
  result <-
    match the_watches with
    | Some wl =>
        SERVER_UNLOCK ;;
        r <- call_out (Some _dbus_watch_list_set_functions)
               [wl; ptr_arg add_function; ptr_arg remove_function;
                ptr_arg toggled_function; data; ptr_arg free_data_function] ;;
        SERVER_LOCK ;;
        ret r
    | None =>
        _dbus_warn_check_failed "Re-entrant call to dbus_server_set_watch_functions" ;;
        ret FALSE
    end ;;
  server_set (set_watches the_watches) ;;
  SERVER_UNLOCK ;;
  ret result.

Definition dbus_server_set_timeout_functions
  (add_function remove_function toggled_function : option FnPtr)
  (data : Ptr) (free_data_function : option FnPtr) : Exec (World Ext) Z :=
  SERVER_LOCK ;;
  the_timeouts <- server_get timeouts ;;
  server_set (set_timeouts None) ;;
  result <-
    match the_timeouts with
    | Some tl =>
        SERVER_UNLOCK ;;
        r <- call_out (Some _dbus_timeout_list_set_functions)
               [tl; ptr_arg add_function; ptr_arg remove_function;
                ptr_arg toggled_function; data; ptr_arg free_data_function] ;;
        SERVER_LOCK ;;
        ret r
    | None =>
        _dbus_warn_check_failed "Re-entrant call to dbus_server_set_timeout_functions" ;;
        ret FALSE
    end ;;
  server_set (set_timeouts the_timeouts) ;;
  SERVER_UNLOCK ;;
  ret result.

Definition dbus_server_set_auth_mechanisms (mechanisms : option (list string))
  : Exec (World Ext) bool :=
  let install (copy : option (list string)) : Exec (World Ext) bool :=
    (* dbus_free_string_array (server->auth_mechanisms) *)
    server_set (set_auth_mechanisms copy) ;;
    SERVER_UNLOCK ;;
    ret true in
  SERVER_LOCK ;;
  match mechanisms with
  | Some array =>
      copy <- _dbus_dup_string_array array ;;
      match copy with
      | None => ret false
      | Some _ => install copy
      end
  | None => install None
  end.

Definition dbus_server_set_data (slot : Z) (data : Ptr) (free_data_func : option FnPtr)
  : Exec (World Ext) bool :=
  SERVER_LOCK ;;
  sl <- server_get slot_list ;;
  r <- outside (_dbus_data_slot_list_set sl slot data free_data_func) ;;
  (match r with
   | Some (sl', _, _) => server_set (set_slot_list sl')
   | None => ret tt
   end) ;;
  SERVER_UNLOCK ;;
  match r with
  | Some (_, old_free_func, old_data) =>
      (* Do the actual free outside the server lock *)
      (match old_free_func with
       | Some _ => call_out old_free_func [old_data] ;; ret tt
       | None => ret tt
       end) ;;
      ret true
  | None => ret false
  end.

Definition dbus_server_get_data (slot : Z) : Exec (World Ext) Ptr :=
  SERVER_LOCK ;;
  sl <- server_get slot_list ;;
  res <- outside (fun e => (_dbus_data_slot_list_get sl slot e, e)) ;;
  SERVER_UNLOCK ;;
  ret res.

(** *** Finalization *)

Definition _dbus_server_finalize_base : Exec (World Ext) unit :=
  (* We don't have the lock, but nobody should be accessing
     concurrently since they don't have a ref *)
  held <- server_get have_server_lock ;;
  (if DBUS_DISABLE_CHECKS cfg then ret tt else _dbus_assert cfg (negb held)) ;;
  d <- server_get disconnected ;;
  _dbus_assert cfg d ;;
  (* calls out to application code... *)
  call_out (Some _dbus_data_slot_list_free) [] ;;
  dbus_server_set_new_connection_function None 0 None ;;
  wl <- server_get watches ;;
  call_out (Some _dbus_watch_list_free) [ptr_arg wl] ;;
  tl <- server_get timeouts ;;
  call_out (Some _dbus_timeout_list_free) [ptr_arg tl] ;;
  (* _dbus_mutex_free_at_location, dbus_free (server->address),
     dbus_free_string_array, _dbus_string_free *)
  ret tt.

End Server.

(** ** Vocabulary for the statements *)

(** One call of a listen function: its index in [listen_funcs], the
    function and the entry it is given. *)
Definition Attempt (Ext : Type) : Type := (nat * ListenFunc Ext * DBusAddressEntry)%type.

Fixpoint number_from {A : Type} (j : nat) (l : list A) : list (nat * A) :=
  match l with
  | [] => []
  | x :: l' => (j, x) :: number_from (S j) l'
  end.

(** The calls a complete scan makes, in scan order: entry by entry, and
    for each entry the table from its first function to its last. *)
Definition attempts (cfg : BuildConfig) {Ext : Type} `{Transports Ext}
  (entries : list DBusAddressEntry) : list (Attempt Ext) :=
  flat_map (fun entry => map (fun jf => (fst jf, snd jf, entry))
                             (number_from 0 (listen_funcs cfg))) entries.

(** What the listen functions answer when called one after the other. *)
Fixpoint replay {Ext : Type} (atts : list (Attempt Ext)) (w : Ext)
  : list DBusServerListenResult * Ext :=
  match atts with
  | [] => ([], w)
  | (_, func, entry) :: rest =>
      let (r, w') := func entry w in
      let (rs, w'') := replay rest w' in
      (r :: rs, w'')
  end.

Definition listen_events {Ext : Type} (atts : list (Attempt Ext)) : list (Event Ext) :=
  map (fun a : Attempt Ext => EvListen (fst (fst a)) (snd a)) atts.

(** Answers after which the scan goes on. *)
Definition keeps_trying (r : DBusServerListenResult) : bool :=
  match r with
  | DBUS_SERVER_LISTEN_NOT_HANDLED | DBUS_SERVER_LISTEN_DID_NOT_CONNECT _ => true
  | DBUS_SERVER_LISTEN_OK _ | DBUS_SERVER_LISTEN_BAD_ADDRESS _ => false
  end.

Definition not_handled (r : DBusServerListenResult) : bool :=
  match r with
  | DBUS_SERVER_LISTEN_NOT_HANDLED => true
  | _ => false
  end.

(** The error of the first did-not-connect answer. *)
Fixpoint first_did_not_connect (rs : list DBusServerListenResult) : option DBusError :=
  match rs with
  | [] => None
  | DBUS_SERVER_LISTEN_DID_NOT_CONNECT e :: _ => Some e
  | _ :: rs' => first_did_not_connect rs'
  end.

(** The frame after a run of answers that all keep the scan going. *)
Definition frame_after (rs : list DBusServerListenResult) (l : ListenFrame) : ListenFrame :=
  mkListenFrame (server l) (error l)
    (match first_connect_error l with
     | Some e => Some e
     | None => first_did_not_connect rs
     end)
    (handled_once l || negb (forallb not_handled rs)).

(** The two loops as one loop over the calls in scan order. *)
Fixpoint try_attempts (cfg : BuildConfig) {Ext : Type} (atts : list (Attempt Ext))
  (l : ListenFrame) : Exec Ext (LoopExit * ListenFrame) :=
  match atts with
  | [] => ret (FallThrough, l)
  | (j, func, entry) :: rest =>
      r <- listen_attempt cfg j func entry l ;;
      match r with
      | (GotoOut, l') => ret (GotoOut, l')
      | (FallThrough, l') => try_attempts cfg rest l'
      end
  end.

(** Between two entries the loop expects no server and a clear error. *)
Definition between_entries (l : ListenFrame) : Prop :=
  server l = None /\ error_is_set_at (error l) = false.

(** The calls that leave the file during an execution, in order, each
    with the state it was made in. *)
Fixpoint calls {S : Type} (t : list (Event S)) : list (FnPtr * list Z * S) :=
  match t with
  | [] => []
  | EvCall f args before :: t' => (f, args, before) :: calls t'
  | _ :: t' => calls t'
  end.

(** Every call in the trace is made between an unlock and the next lock,
    the lock being [held] or not when the trace starts, and in a state
    in which the server's lock is not held. *)
Fixpoint calls_outside_lock {Ext : Type} (held : bool) (t : list (Event (World Ext))) : bool :=
  match t with
  | [] => true
  | EvLock :: t' => calls_outside_lock true t'
  | EvUnlock :: t' => calls_outside_lock false t'
  | EvCall _ _ before :: t' =>
      negb held && negb (have_server_lock (srv before)) && calls_outside_lock held t'
  | _ :: t' => calls_outside_lock held t'
  end.

(** The trace never touches the reference count. *)
Definition leaves_refcount_alone {S : Type} (t : list (Event S)) : bool :=
  forallb (fun e => match e with EvRef _ | EvUnref _ => false | _ => true end) t.




(** The allocator grants [n] requests in a row, from the state [e] on;
    the result is the state it is left in. *)
Fixpoint allocations {Ext : Type} `{Collaborators Ext} (n : nat) (e : Ext) : option Ext :=
  match n with
  | O => Some e
  | S n' =>
      let (ok, e') := dbus_malloc e in
      if ok : bool then allocations n' e' else None
  end.

(** The operations on a constructed server. *)
Inductive ServerCall : Type :=
| call_dbus_server_ref
| call_dbus_server_unref
| call__dbus_server_ref_unlocked
| call__dbus_server_unref_unlocked
| call_dbus_server_disconnect
| call_dbus_server_get_is_connected
| call_dbus_server_get_address
| call_dbus_server_set_new_connection_function
    (function : option FnPtr) (data : Ptr) (free_data_function : option FnPtr)
| call_dbus_server_set_watch_functions
    (add_function remove_function toggled_function : option FnPtr)
    (data : Ptr) (free_data_function : option FnPtr)
| call_dbus_server_set_timeout_functions
    (add_function remove_function toggled_function : option FnPtr)
    (data : Ptr) (free_data_function : option FnPtr)
| call_dbus_server_set_auth_mechanisms (mechanisms : option (list string))
| call_dbus_server_set_data (slot : Z) (data : Ptr) (free_data_func : option FnPtr)
| call_dbus_server_get_data (slot : Z)
| call__dbus_server_add_watch (watch : Ptr)
| call__dbus_server_remove_watch (watch : Ptr)
| call__dbus_server_toggle_watch (watch : option Ptr) (enabled : bool)
| call__dbus_server_add_timeout (timeout : Ptr)
| call__dbus_server_remove_timeout (timeout : Ptr)
| call__dbus_server_toggle_timeout (timeout : Ptr) (enabled : bool).

Definition run_call (cfg : BuildConfig) {Ext : Type} `{Collaborators Ext}
  (c : ServerCall) : Exec (World Ext) unit :=
  match c with
  | call_dbus_server_ref => dbus_server_ref cfg ;; ret tt
  | call_dbus_server_unref => dbus_server_unref cfg
  | call__dbus_server_ref_unlocked => _dbus_server_ref_unlocked cfg
  | call__dbus_server_unref_unlocked => _dbus_server_unref_unlocked cfg
  | call_dbus_server_disconnect => dbus_server_disconnect cfg
  | call_dbus_server_get_is_connected => dbus_server_get_is_connected cfg ;; ret tt
  | call_dbus_server_get_address => dbus_server_get_address cfg ;; ret tt
  | call_dbus_server_set_new_connection_function f d fr =>
      dbus_server_set_new_connection_function cfg f d fr
  | call_dbus_server_set_watch_functions a r t d fr =>
      dbus_server_set_watch_functions cfg a r t d fr ;; ret tt
  | call_dbus_server_set_timeout_functions a r t d fr =>
      dbus_server_set_timeout_functions cfg a r t d fr ;; ret tt
  | call_dbus_server_set_auth_mechanisms m => dbus_server_set_auth_mechanisms cfg m ;; ret tt
  | call_dbus_server_set_data slot d fr => dbus_server_set_data cfg slot d fr ;; ret tt
  | call_dbus_server_get_data slot => dbus_server_get_data cfg slot ;; ret tt
  | call__dbus_server_add_watch watch => _dbus_server_add_watch cfg watch ;; ret tt
  | call__dbus_server_remove_watch watch => _dbus_server_remove_watch cfg watch
  | call__dbus_server_toggle_watch watch enabled => _dbus_server_toggle_watch cfg watch enabled
  | call__dbus_server_add_timeout timeout => _dbus_server_add_timeout cfg timeout ;; ret tt
  | call__dbus_server_remove_timeout timeout => _dbus_server_remove_timeout cfg timeout
  | call__dbus_server_toggle_timeout timeout enabled =>
      _dbus_server_toggle_timeout cfg timeout enabled
  end.

(** The function [protected_change_watch] and [protected_change_timeout]
    call among the three they are given, its arguments, and the value
    they return for what it returned. *)
Definition chosen_function (add_function remove_function toggle_function : option FnPtr)
  : option FnPtr :=
  match add_function with
  | Some _ => add_function
  | None =>
      match remove_function with
      | Some _ => remove_function
      | None => toggle_function
      end
  end.

Definition chosen_args (add_function remove_function : option FnPtr)
  (registry item : Ptr) (enabled : bool) : list Z :=
  match add_function, remove_function with
  | None, None => [registry; item; of_bool enabled]
  | _, _ => [registry; item]
  end.

Definition chosen_result (add_function : option FnPtr) (r : Z) : Z :=
  match add_function with
  | Some _ => r
  | None => TRUE
  end.

(** A sequence of operations, one after the other. *)
Fixpoint run_calls (cfg : BuildConfig) {Ext : Type} `{Collaborators Ext}
  (cs : list ServerCall) : Exec (World Ext) unit :=
  match cs with
  | [] => ret tt
  | c :: cs' => run_call cfg c ;; run_calls cfg cs'
  end.

(** ** A small world to run [dbus_server_listen] in

    The outside world is the number of listen calls made so far.  The
    socket transport knows [tcp]: it wants a [port], and port 80 is
    taken; the platform transport knows [unix]; the debug pipe knows
    [debug-pipe]. *)

Section ExampleTransports.
Local Open Scope string_scope.

Definition lookup_param (key : string) (entry : DBusAddressEntry) : option string :=
  option_map snd (find (fun kv => String.eqb (fst kv) key) (params entry)).

Definition example_listen_socket : ListenFunc nat :=
  fun entry w =>
    if String.eqb (method entry) "tcp" then
      match lookup_param "port" entry with
      | None =>
          (DBUS_SERVER_LISTEN_BAD_ADDRESS
             (mkDBusError "org.freedesktop.DBus.Error.BadAddress" "Must specify port"), S w)
      | Some port =>
          if String.eqb port "80" then
            (DBUS_SERVER_LISTEN_DID_NOT_CONNECT
               (mkDBusError "org.freedesktop.DBus.Error.AddressInUse"
                  "Failed to bind socket: Address already in use"), S w)
          else (DBUS_SERVER_LISTEN_OK 1000, S w)
      end
    else (DBUS_SERVER_LISTEN_NOT_HANDLED, S w).

Definition example_listen_platform_specific : ListenFunc nat :=
  fun entry w =>
    if String.eqb (method entry) "unix" then (DBUS_SERVER_LISTEN_OK 2000, S w)
    else (DBUS_SERVER_LISTEN_NOT_HANDLED, S w).

Definition example_listen_debug_pipe : ListenFunc nat :=
  fun entry w =>
    if String.eqb (method entry) "debug-pipe" then (DBUS_SERVER_LISTEN_OK 3000, S w)
    else (DBUS_SERVER_LISTEN_NOT_HANDLED, S w).

Definition tcp_port_80 : DBusAddressEntry := mkDBusAddressEntry "tcp" [("port", "80")].
Definition tcp_no_port : DBusAddressEntry := mkDBusAddressEntry "tcp" [("host", "localhost")].
Definition tcp_port_1234 : DBusAddressEntry := mkDBusAddressEntry "tcp" [("port", "1234")].
Definition bogus_entry : DBusAddressEntry := mkDBusAddressEntry "bogus" [("foo", "bar")].

(** A parser that knows a handful of addresses and rejects the rest. *)
Definition example_parse_address (address : string) (w : nat)
  : (DBusError + list DBusAddressEntry) * nat :=
  if String.eqb address "" then (inr [], w)
  else if String.eqb address "bogus:foo=bar" then (inr [bogus_entry], w)
  else if String.eqb address "tcp:port=1234" then (inr [tcp_port_1234], w)
  else if String.eqb address "tcp:port=80;tcp:port=1234" then
    (inr [tcp_port_80; tcp_port_1234], w)
  else if String.eqb address "tcp:port=80;tcp:host=localhost" then
    (inr [tcp_port_80; tcp_no_port], w)
  else
    (inl (mkDBusError "org.freedesktop.DBus.Error.BadAddress"
            "Address does not contain a colon"), w).

End ExampleTransports.

#[export] Instance example_transports : Transports nat := {|
  DBUS_ERROR_BAD_ADDRESS := "org.freedesktop.DBus.Error.BadAddress"%string;
  dbus_parse_address := example_parse_address;
  _dbus_server_listen_socket := example_listen_socket;
  _dbus_server_listen_platform_specific := example_listen_platform_specific;
  _dbus_server_listen_debug_pipe := example_listen_debug_pipe
|}.

(** Checks and assertions compiled in; no atomic integers, no test code. *)
Definition checked_build : BuildConfig := mkBuildConfig false false false false.

(** Checks and assertions compiled out. *)
Definition release_build : BuildConfig := mkBuildConfig true true true false.

(** ** A small world to run the server functions in

    The outside world is the list of the outcomes of the allocations to
    come; once the list is used up, allocations succeed.  Whatever is
    called out to returns TRUE and leaves the world as it is. *)

Definition example_malloc (plan : list bool) : bool * list bool :=
  match plan with
  | [] => (true, [])
  | ok :: plan' => (ok, plan')
  end.

Definition example_new (p : Ptr) (plan : list bool) : option Ptr * list bool :=
  let (ok, plan') := example_malloc plan in
  (if ok then Some p else None, plan').

Definition hex_digit (n : nat) : Ascii.ascii :=
  nth n (list_ascii_of_string "0123456789abcdef"%string) "0"%char.

Fixpoint example_hex_encode (bytes : list Byte.byte) : string :=
  match bytes with
  | [] => EmptyString
  | b :: bytes' =>
      String (hex_digit (Byte.to_nat b / 16))
        (String (hex_digit (Byte.to_nat b mod 16)) (example_hex_encode bytes'))
  end.

Definition example_guid : DBusGUID :=
  [x00; x11; x22; x33; x44; x55; x66; x77; x88; x99; xaa; xbb; xcc; xdd; xee; xff].

Fixpoint replace_nth {A : Type} (n : nat) (x pad : A) (l : list A) : list A :=
  match n, l with
  | O, [] => [x]
  | O, _ :: l' => x :: l'
  | S n', [] => pad :: replace_nth n' x pad []
  | S n', y :: l' => y :: replace_nth n' x pad l'
  end.

Definition example_slot_list_set (slots : DBusDataSlotList) (slot : Z) (data : Ptr)
  (free_data_func : option FnPtr) (plan : list bool)
  : option (DBusDataSlotList * option FnPtr * Ptr) * list bool :=
  let (ok, plan') := example_malloc plan in
  if ok then
    let old := nth (Z.to_nat slot) slots (0, None) in
    (Some (replace_nth (Z.to_nat slot) (data, free_data_func) (0, None) slots,
           snd old, fst old), plan')
  else (None, plan').

Definition example_slot_list_get (slots : DBusDataSlotList) (slot : Z) (plan : list bool)
  : Ptr :=
  fst (nth (Z.to_nat slot) slots (0, None)).

Definition example_invoke (f : FnPtr) (args : list Z) (w : World (list bool))
  : option (Z * World (list bool)) :=
  Some (TRUE, w).

Definition example_collaborators : Collaborators (list bool) := {|
  invoke := example_invoke;
  dbus_malloc := example_malloc;
  _dbus_generate_uuid := fun plan => (example_guid, plan);
  _dbus_string_hex_encode := example_hex_encode;
  _dbus_mutex_new := example_new 500;
  _dbus_watch_list_new := example_new 501;
  _dbus_timeout_list_new := example_new 502;
  _dbus_data_slot_list_set := example_slot_list_set;
  _dbus_data_slot_list_get := example_slot_list_get;
  _dbus_data_slot_list_free := 220;
  _dbus_watch_list_add_watch := 200;
  _dbus_watch_list_remove_watch := 201;
  _dbus_watch_list_toggle_watch := 202;
  _dbus_watch_list_set_functions := 203;
  _dbus_watch_list_free := 204;
  _dbus_timeout_list_add_timeout := 210;
  _dbus_timeout_list_remove_timeout := 211;
  _dbus_timeout_list_toggle_timeout := 212;
  _dbus_timeout_list_set_functions := 213;
  _dbus_timeout_list_free := 214
|}.

(** The same world with an application whose add-watch function, run by
    [_dbus_watch_list_set_functions], calls
    [dbus_server_set_watch_functions] again and hands its answer back. *)
Definition reentrant_invoke (f : FnPtr) (args : list Z) (w : World (list bool))
  : option (Z * World (list bool)) :=
  if f =? 203 then
    match dbus_server_set_watch_functions (H := example_collaborators)
            (mkBuildConfig false false false false) None None None 0 None w with
    | Done _ r w' => Some (r, w')
    | Stuck _ _ => None
    end
  else Some (TRUE, w).

Definition reentrant_collaborators : Collaborators (list bool) := {|
  invoke := reentrant_invoke;
  dbus_malloc := example_malloc;
  _dbus_generate_uuid := fun plan => (example_guid, plan);
  _dbus_string_hex_encode := example_hex_encode;
  _dbus_mutex_new := example_new 500;
  _dbus_watch_list_new := example_new 501;
  _dbus_timeout_list_new := example_new 502;
  _dbus_data_slot_list_set := example_slot_list_set;
  _dbus_data_slot_list_get := example_slot_list_get;
  _dbus_data_slot_list_free := 220;
  _dbus_watch_list_add_watch := 200;
  _dbus_watch_list_remove_watch := 201;
  _dbus_watch_list_toggle_watch := 202;
  _dbus_watch_list_set_functions := 203;
  _dbus_watch_list_free := 204;
  _dbus_timeout_list_add_timeout := 210;
  _dbus_timeout_list_remove_timeout := 211;
  _dbus_timeout_list_toggle_timeout := 212;
  _dbus_timeout_list_set_functions := 213;
  _dbus_timeout_list_free := 214
|}.

(** The same world with an application that gives up its reference to
    the server from inside the registry: its add-watch function, run by
    [_dbus_watch_list_add_watch] and by [_dbus_watch_list_set_functions],
    calls [dbus_server_unref]. *)
Definition releasing_invoke (f : FnPtr) (args : list Z) (w : World (list bool))
  : option (Z * World (list bool)) :=
  if (f =? 200) || (f =? 203) then
    match dbus_server_unref (H := example_collaborators)
            (mkBuildConfig false false false false) w with
    | Done _ _ w' => Some (TRUE, w')
    | Stuck _ _ => None
    end
  else Some (TRUE, w).

Definition releasing_collaborators : Collaborators (list bool) := {|
  invoke := releasing_invoke;
  dbus_malloc := example_malloc;
  _dbus_generate_uuid := fun plan => (example_guid, plan);
  _dbus_string_hex_encode := example_hex_encode;
  _dbus_mutex_new := example_new 500;
  _dbus_watch_list_new := example_new 501;
  _dbus_timeout_list_new := example_new 502;
  _dbus_data_slot_list_set := example_slot_list_set;
  _dbus_data_slot_list_get := example_slot_list_get;
  _dbus_data_slot_list_free := 220;
  _dbus_watch_list_add_watch := 200;
  _dbus_watch_list_remove_watch := 201;
  _dbus_watch_list_toggle_watch := 202;
  _dbus_watch_list_set_functions := 203;
  _dbus_watch_list_free := 204;
  _dbus_timeout_list_add_timeout := 210;
  _dbus_timeout_list_remove_timeout := 211;
  _dbus_timeout_list_toggle_timeout := 212;
  _dbus_timeout_list_set_functions := 213;
  _dbus_timeout_list_free := 214
|}.

(** A listening server as a transport's constructor leaves it: one
    reference, both registries attached, connected, lock free. *)
Definition example_server : DBusServer := {|
  refcount := 1;
  vtable := {| finalize := Some 100; disconnect := Some 101 |};
  mutex := Some 500;
  guid := example_guid;
  guid_hex := "00112233445566778899aabbccddeeff"%string;
  watches := Some 501;
  timeouts := Some 502;
  address := Some "tcp:port=1234,guid=00112233445566778899aabbccddeeff"%string;
  new_connection_function := None;
  new_connection_data := 0;
  new_connection_free_data_function := None;
  auth_mechanisms := None;
  slot_list := [];
  disconnected := false;
  have_server_lock := false
|}.

Definition disconnected_server : DBusServer := set_disconnected true example_server.

Definition locked_server : DBusServer := set_have_server_lock true example_server.

(** Memory as [dbus_new0] hands it to a transport's constructor. *)
Definition blank_server : DBusServer := {|
  refcount := 0;
  vtable := {| finalize := None; disconnect := None |};
  mutex := None;
  guid := [];
  guid_hex := EmptyString;
  watches := None;
  timeouts := None;
  address := None;
  new_connection_function := None;
  new_connection_data := 0;
  new_connection_free_data_function := None;
  auth_mechanisms := None;
  slot_list := [];
  disconnected := false;
  have_server_lock := false
|}.

(** What [_dbus_server_init_base] makes of [blank_server] for the address
    ["tcp:port=1234"] when every allocation succeeds. *)
Definition constructed_server : DBusServer := {|
  refcount := 1;
  vtable := {| finalize := Some 100; disconnect := Some 101 |};
  mutex := Some 500;
  guid := example_guid;
  guid_hex := "00112233445566778899aabbccddeeff"%string;
  watches := Some 501;
  timeouts := Some 502;
  address := Some "tcp:port=1234,guid=00112233445566778899aabbccddeeff"%string;
  new_connection_function := None;
  new_connection_data := 0;
  new_connection_free_data_function := None;
  auth_mechanisms := None;
  slot_list := [];
  disconnected := false;
  have_server_lock := false
|}.


(** ** More vocabulary for the statements *)

(** An execution that returns leaves the server related by [R] to the
    server it started with. *)
Definition keeps_relation {Ext A : Type} (R : DBusServer -> DBusServer -> Prop)
  (m : Exec (World Ext) A) : Prop :=
  forall w t a w', m w = Done t a w' -> R (srv w) (srv w').

(** The code called out to does so as well. *)
Definition callees_keep {Ext : Type} `{Collaborators Ext}
  (R : DBusServer -> DBusServer -> Prop) : Prop :=
  forall f args w r w', invoke f args w = Some (r, w') -> R (srv w) (srv w').

(** A server that is disconnected is still disconnected afterwards. *)
Definition stays_disconnected (s s' : DBusServer) : Prop :=
  disconnected s = true -> disconnected s' = true.

(** A field has the value it had. *)
Definition same_field {A : Type} (field : DBusServer -> A) (s s' : DBusServer) : Prop :=
  field s' = field s.

(** The new-connection handler: the function, its data and the function
    that frees the data. *)
Definition handler (s : DBusServer) : option FnPtr * Ptr * option FnPtr :=
  (new_connection_function s, new_connection_data s, new_connection_free_data_function s).

(** The operations that assign to a field outside construction. *)
Definition writes_disconnected (c : ServerCall) : bool :=
  match c with
  | call_dbus_server_disconnect => true
  | _ => false
  end.

Definition writes_auth_mechanisms (c : ServerCall) : bool :=
  match c with
  | call_dbus_server_set_auth_mechanisms _ => true
  | _ => false
  end.

Definition writes_handler (c : ServerCall) : bool :=
  match c with
  | call_dbus_server_set_new_connection_function _ _ _ => true
  | _ => false
  end.

Definition writes_slot_list (c : ServerCall) : bool :=
  match c with
  | call_dbus_server_set_data _ _ _ => true
  | _ => false
  end.

(** The functions called, in order, with their arguments. *)
Definition called {S : Type} (t : list (Event S)) : list (FnPtr * list Z) :=
  map fst (calls t).

(** What [_dbus_server_finalize_base] reads of the server between its
    calls: the lock flag, the new-connection handler and the two
    registries. *)
Definition finalize_view (s : DBusServer)
  : bool * (option FnPtr * Ptr * option FnPtr) * option Ptr * option Ptr :=
  (have_server_lock s, handler s, watches s, timeouts s).

(** The code called out to returns and leaves that much of the server as
    it found it. *)
Definition callees_return_to_finalize {Ext : Type} `{Collaborators Ext} : Prop :=
  forall f args w, exists r w',
    invoke f args w = Some (r, w') /\ finalize_view (srv w') = finalize_view (srv w).

(** An execution that starts with [field] at [before] and returns leaves
    it at [afterwards]. *)
Definition field_goes {Ext A B : Type} (field : DBusServer -> B) (before afterwards : B)
  (m : Exec (World Ext) A) : Prop :=
  forall w t a w',
    field (srv w) = before -> m w = Done t a w' -> field (srv w') = afterwards.

(** The public operations that take the lock themselves and have no
    path that returns without releasing it. *)
Definition releases_lock (c : ServerCall) : bool :=
  match c with
  | call_dbus_server_ref
  | call_dbus_server_unref
  | call_dbus_server_disconnect
  | call_dbus_server_get_is_connected
  | call_dbus_server_get_address
  | call_dbus_server_set_new_connection_function _ _ _
  | call_dbus_server_set_watch_functions _ _ _ _ _
  | call_dbus_server_set_timeout_functions _ _ _ _ _
  | call_dbus_server_set_data _ _ _
  | call_dbus_server_get_data _ => true
  | _ => false
  end.

(** The operations for callers that already hold the lock. *)
Definition called_with_lock (c : ServerCall) : bool :=
  match c with
  | call__dbus_server_ref_unlocked
  | call__dbus_server_unref_unlocked
  | call__dbus_server_add_watch _
  | call__dbus_server_remove_watch _
  | call__dbus_server_toggle_watch _ _
  | call__dbus_server_add_timeout _
  | call__dbus_server_remove_timeout _
  | call__dbus_server_toggle_timeout _ _ => true
  | _ => false
  end.

(** The operations whose purpose is to change the reference count. *)
Definition counts_references (c : ServerCall) : bool :=
  match c with
  | call_dbus_server_ref
  | call_dbus_server_unref
  | call__dbus_server_ref_unlocked
  | call__dbus_server_unref_unlocked => true
  | _ => false
  end.

(** ** A second world for [dbus_server_listen]: nothing can be bound

    The socket transport finds port 80 in use and may not bind port 22;
    nothing else is known. *)

Section BusyTransports.
Local Open Scope string_scope.

Definition tcp_port_22 : DBusAddressEntry := mkDBusAddressEntry "tcp" [("port", "22")].

Definition busy_listen_socket : ListenFunc nat :=
  fun entry w =>
    if String.eqb (method entry) "tcp" then
      match lookup_param "port" entry with
      | None =>
          (DBUS_SERVER_LISTEN_BAD_ADDRESS
             (mkDBusError "org.freedesktop.DBus.Error.BadAddress" "Must specify port"), S w)
      | Some port =>
          if String.eqb port "80" then
            (DBUS_SERVER_LISTEN_DID_NOT_CONNECT
               (mkDBusError "org.freedesktop.DBus.Error.AddressInUse"
                  "Failed to bind socket: Address already in use"), S w)
          else
            (DBUS_SERVER_LISTEN_DID_NOT_CONNECT
               (mkDBusError "org.freedesktop.DBus.Error.AccessDenied"
                  "Failed to bind socket: Permission denied"), S w)
      end
    else (DBUS_SERVER_LISTEN_NOT_HANDLED, S w).

Definition busy_parse_address (address : string) (w : nat)
  : (DBusError + list DBusAddressEntry) * nat :=
  if String.eqb address "tcp:port=22;tcp:port=80" then (inr [tcp_port_22; tcp_port_80], w)
  else if String.eqb address "tcp:host=localhost" then (inr [tcp_no_port], w)
  else
    (inl (mkDBusError "org.freedesktop.DBus.Error.BadAddress"
            "Address does not contain a colon"), w).

End BusyTransports.

Definition busy_transports : Transports nat := {|
  DBUS_ERROR_BAD_ADDRESS := "org.freedesktop.DBus.Error.BadAddress"%string;
  dbus_parse_address := busy_parse_address;
  _dbus_server_listen_socket := busy_listen_socket;
  _dbus_server_listen_platform_specific := example_listen_platform_specific;
  _dbus_server_listen_debug_pipe := example_listen_debug_pipe
|}.

(** ** More servers and calls for the examples *)

(** The example server with a new-connection handler installed: the
    function at 400 with the data at 55, which the function at 401
    frees. *)
Definition handled_server : DBusServer :=
  set_new_connection_free_data_function (Some 401)
    (set_new_connection_data 55 (set_new_connection_function (Some 400) example_server)).

(** Allocations that succeed until the watch list of
    [_dbus_server_init_base] is asked for. *)
Definition no_memory_for_watches : list bool :=
  [true; true; true; true; true; true; true; true; false].

(** What [_dbus_server_init_base] leaves of [blank_server] when it fails
    after the identifier has been generated. *)
Definition unconstructed_server : DBusServer :=
  set_guid example_guid
    (set_refcount 1
       (set_vtable {| finalize := Some 100; disconnect := Some 101 |} blank_server)).

(** Allocations that succeed until the timeout list of
    [_dbus_server_init_base] is asked for. *)
Definition no_memory_for_timeouts : list bool :=
  [true; true; true; true; true; true; true; true; true; false].

(** The server as [_dbus_watch_list_free] finds it at the label [failed]
    of [_dbus_server_init_base], when the timeout list could not be
    allocated. *)
Definition half_constructed_server : DBusServer :=
  set_watches (Some 501)
    (set_address (Some "tcp:port=1234,guid=00112233445566778899aabbccddeeff"%string)
       (set_guid_hex "00112233445566778899aabbccddeeff"%string unconstructed_server)).

(** Operations that write none of the fields that have a writer of their
    own. *)
Definition example_reading_calls : list ServerCall :=
  [call_dbus_server_ref;
   call_dbus_server_set_watch_functions (Some 300) (Some 301) None 0 None;
   call_dbus_server_get_data 0;
   call_dbus_server_unref].

(** Public operations, for callers that do not hold the lock. *)
Definition example_public_calls : list ServerCall :=
  [call_dbus_server_ref;
   call_dbus_server_set_data 0 77 (Some 302);
   call_dbus_server_disconnect;
   call_dbus_server_get_address;
   call_dbus_server_unref].

(** Operations other than the reference-counting ones. *)
Definition example_other_calls : list ServerCall :=
  [call_dbus_server_set_watch_functions (Some 300) (Some 301) None 0 None;
   call_dbus_server_set_data 0 77 (Some 302);
   call_dbus_server_disconnect;
   call_dbus_server_get_address].

(** * Properties *)

(** ** Executions *)

Lemma after_nil {S A : Type} (r : Run S A) : after [] r = r.
Proof. destruct r; reflexivity. Qed.

Lemma after_after {S A : Type} (t t' : list (Event S)) (r : Run S A) :
  after t (after t' r) = after (t ++ t') r.
Proof. destruct r; simpl; rewrite app_assoc; reflexivity. Qed.

Lemma exec_bind_assoc {S A B C : Type}
  (m : Exec S A) (k : A -> Exec S B) (h : B -> Exec S C) (s : S) :
  exec_bind (exec_bind m k) h s = exec_bind m (fun a => exec_bind (k a) h) s.
Proof.
  unfold exec_bind. destruct (m s) as [t a s'|t f]; simpl; [|reflexivity].
  destruct (k a s') as [t' b s''|t' f]; simpl; [|reflexivity].
  rewrite after_after. reflexivity.
Qed.

Lemma _dbus_assert_holds {S : Type} (cfg : BuildConfig) (condition : bool) (s : S) :
  condition = true -> _dbus_assert cfg condition s = Done [] tt s.
Proof.
  intros ->. unfold _dbus_assert. destruct (DBUS_DISABLE_ASSERT cfg); reflexivity.
Qed.

Lemma return_val_if_fail_holds {S A : Type} (cfg : BuildConfig) (condition : bool)
  (what : string) (val : A) (body : Exec S A) :
  condition = true -> _dbus_return_val_if_fail cfg condition what val body = body.
Proof.
  intros ->. unfold _dbus_return_val_if_fail.
  destruct (DBUS_DISABLE_CHECKS cfg); reflexivity.
Qed.

Lemma exec_bind_ext {S A B : Type} (m : Exec S A) (k k' : A -> Exec S B) (s : S) :
  (forall a s', k a s' = k' a s') ->
  exec_bind m k s = exec_bind m k' s.
Proof.
  intros Hk. unfold exec_bind. destruct (m s); [rewrite Hk|]; reflexivity.
Qed.

Lemma exec_bind_run {S A B : Type} (m : Exec S A) (k : A -> Exec S B) (s : S) (r : Run S A) :
  m s = r ->
  exec_bind m k s
  = match r with
    | Done t a s' => after t (k a s')
    | Stuck t f => Stuck t f
    end.
Proof. intros <-. reflexivity. Qed.

Lemma bind_assert_holds {S B : Type} (cfg : BuildConfig) (condition : bool)
  (k : unit -> Exec S B) (s : S) :
  condition = true ->
  exec_bind (_dbus_assert cfg condition) k s = k tt s.
Proof.
  intros Hc. rewrite (exec_bind_run _ _ _ _ (_dbus_assert_holds cfg condition s Hc)).
  apply after_nil.
Qed.

(** ** [dbus_server_listen] *)

Section ListenProperties.
Variable cfg : BuildConfig.
Context {Ext : Type} `{Transports Ext}.

Lemma frame_after_nil (l : ListenFrame) : frame_after [] l = l.
Proof.
  destruct l as [s e [f|] h]; unfold frame_after; simpl;
    rewrite orb_false_r; reflexivity.
Qed.

Lemma frame_after_app (rs rs' : list DBusServerListenResult) (l : ListenFrame) :
  forallb keeps_trying rs = true ->
  frame_after rs' (frame_after rs l) = frame_after (rs ++ rs') l.
Proof.
  intros Hrs. destruct l as [s e f h]. unfold frame_after; simpl. f_equal.
  - destruct f as [f|]; [reflexivity|].
    induction rs as [|r rs IH]; simpl in *; [reflexivity|].
    apply andb_true_iff in Hrs as [Hr Hrs].
    destruct r; simpl in *; try discriminate; auto.
  - rewrite forallb_app, negb_andb, orb_assoc. reflexivity.
Qed.

Lemma listen_attempt_keeps_trying (j : nat) (func : ListenFunc Ext)
  (entry : DBusAddressEntry) (l : ListenFrame) (w w' : Ext) (r : DBusServerListenResult) :
  func entry w = (r, w') ->
  keeps_trying r = true ->
  server l = None ->
  listen_attempt cfg j func entry l w
  = Done [EvListen j entry] (FallThrough, frame_after [r] l) w'.
Proof.
  intros Hf Hr Hs.
  unfold listen_attempt, call_listen_func, _DBUS_ASSERT_ERROR_IS_CLEAR,
    _DBUS_ASSERT_ERROR_IS_SET.
  cbn. unfold exec_bind. rewrite Hf.
  destruct l as [s e f h]; simpl in Hs; subst s.
  destruct r; try discriminate; cbn;
    rewrite !_dbus_assert_holds by reflexivity; cbn; unfold frame_after; cbn.
  - destruct f; rewrite orb_false_r; reflexivity.
  - destruct f; rewrite orb_true_r; reflexivity.
Qed.

Lemma try_attempts_keep_trying (pre rest : list (Attempt Ext)) :
  forall (l : ListenFrame) (w w' : Ext) (rs : list DBusServerListenResult),
    replay pre w = (rs, w') ->
    forallb keeps_trying rs = true ->
    server l = None ->
    try_attempts cfg (pre ++ rest) l w
    = after (listen_events pre) (try_attempts cfg rest (frame_after rs l) w').
Proof.
  induction pre as [|[[j func] entry] pre IH]; intros l w w' rs Hre Hrs Hs.
  - simpl in Hre. injection Hre as <- <-.
    simpl. rewrite frame_after_nil, after_nil. reflexivity.
  - simpl in Hre.
    destruct (func entry w) as [r w1] eqn:Hf.
    destruct (replay pre w1) as [rs1 w2] eqn:Hre1.
    injection Hre as <- <-.
    simpl in Hrs. apply andb_true_iff in Hrs as [Hr Hrs].
    cbn [app try_attempts bind Monad_Exec]. unfold exec_bind.
    rewrite (listen_attempt_keeps_trying j func entry l w w1 r Hf Hr Hs).
    rewrite (IH (frame_after [r] l) w1 w2 rs1 Hre1 Hrs Hs).
    rewrite after_after.
    rewrite frame_after_app by (simpl; rewrite Hr; reflexivity).
    reflexivity.
Qed.

(** An attempt after which the scan goes on leaves [server] and [error]
    as they were. *)
Lemma listen_attempt_fall_through (j : nat) (func : ListenFunc Ext)
  (entry : DBusAddressEntry) (l l' : ListenFrame) (w w' : Ext) (t : list (Event Ext)) :
  listen_attempt cfg j func entry l w = Done t (FallThrough, l') w' ->
  server l' = server l /\ error l' = error l.
Proof.
  unfold listen_attempt, call_listen_func, _DBUS_ASSERT_ERROR_IS_CLEAR,
    _DBUS_ASSERT_ERROR_IS_SET, _dbus_assert.
  cbn. unfold exec_bind.
  destruct (func entry w) as [r w1].
  destruct r; destruct (DBUS_DISABLE_ASSERT cfg); destruct (server l) eqn:Hs;
    try destruct (dbus_move_error (Some tmp_error) (error l));
    cbn; intros Heq; inversion Heq; subst; cbn; auto.
Qed.

Lemma try_attempts_fall_through (atts : list (Attempt Ext)) :
  forall (l l' : ListenFrame) (w w' : Ext) (t : list (Event Ext)),
    try_attempts cfg atts l w = Done t (FallThrough, l') w' ->
    server l' = server l /\ error l' = error l.
Proof.
  induction atts as [|[[j func] entry] atts IH]; intros l l' w w' t.
  - cbn. intros Heq; inversion Heq; subst; auto.
  - cbn [try_attempts bind Monad_Exec]. unfold exec_bind.
    destruct (listen_attempt cfg j func entry l w) as [t1 [[|] l1] w1|t1 f] eqn:Hstep;
      cbn; try discriminate.
    destruct (try_attempts cfg atts l1 w1) as [t2 [x l2] w2|t2 f] eqn:Hrest;
      cbn; try discriminate.
    intros Heq; inversion Heq; subst.
    destruct (listen_attempt_fall_through _ _ _ _ _ _ _ _ Hstep) as [E1 E2].
    destruct (IH _ _ _ _ _ Hrest) as [E3 E4].
    split; congruence.
Qed.

Lemma try_attempts_app (a b : list (Attempt Ext)) :
  forall (l : ListenFrame) (w : Ext),
    try_attempts cfg (a ++ b) l w
    = exec_bind (try_attempts cfg a l)
        (fun r => match r with
                  | (GotoOut, l') => ret (GotoOut, l')
                  | (FallThrough, l') => try_attempts cfg b l'
                  end) w.
Proof.
  induction a as [|[[j func] entry] a IH]; intros l w.
  - cbn. unfold exec_bind. cbn. rewrite after_nil. reflexivity.
  - cbn [app try_attempts bind Monad_Exec].
    rewrite exec_bind_assoc. apply exec_bind_ext.
    intros [[|] l1] s.
    + apply IH.
    + cbn. unfold exec_bind. cbn. reflexivity.
Qed.

Lemma try_listen_funcs_flat (funcs : list (ListenFunc Ext)) (entry : DBusAddressEntry) :
  forall (j : nat) (l : ListenFrame) (w : Ext),
    try_listen_funcs cfg funcs j entry l w
    = try_attempts cfg (map (fun jf => (fst jf, snd jf, entry)) (number_from j funcs)) l w.
Proof.
  induction funcs as [|func funcs IH]; intros j l w; [reflexivity|].
  cbn [try_listen_funcs number_from map try_attempts fst snd bind Monad_Exec].
  unfold exec_bind.
  destruct (listen_attempt cfg j func entry l w) as [t1 [[|] l1] w1|t1 f];
    [|reflexivity|reflexivity].
  rewrite IH. reflexivity.
Qed.

(** The scan is one pass over the calls in scan order: entries in order
    and, within each entry, the table in its fixed order. *)
Lemma try_entries_flat (entries : list DBusAddressEntry) :
  forall (l : ListenFrame) (w : Ext),
    between_entries l ->
    try_entries cfg entries l w = try_attempts cfg (attempts cfg entries) l w.
Proof.
  induction entries as [|entry entries IH]; intros l w [Hs He]; [reflexivity|].
  unfold attempts. cbn [flat_map try_entries bind Monad_Exec].
  fold (attempts cfg entries).
  rewrite try_attempts_app.
  pose proof (try_listen_funcs_flat (listen_funcs cfg) entry 0 l w) as Hflat.
  destruct (try_attempts cfg _ l w) as [t1 [[|] l1] w1|t1 f] eqn:Hrow.
  - rewrite (exec_bind_run _ _ _ _ Hflat), (exec_bind_run _ _ _ _ Hrow).
    apply try_attempts_fall_through in Hrow as [Hs1 He1].
    f_equal. cbn [bind Monad_Exec]. unfold _DBUS_ASSERT_ERROR_IS_CLEAR.
    rewrite bind_assert_holds by (rewrite Hs1, Hs; reflexivity).
    rewrite bind_assert_holds by (rewrite He1, He; reflexivity).
    apply IH. split; congruence.
  - rewrite (exec_bind_run _ _ _ _ Hflat), (exec_bind_run _ _ _ _ Hrow). reflexivity.
  - rewrite (exec_bind_run _ _ _ _ Hflat), (exec_bind_run _ _ _ _ Hrow). reflexivity.
Qed.

Lemma listen_attempt_ok (j : nat) (func : ListenFunc Ext) (entry : DBusAddressEntry)
  (l : ListenFrame) (w w' : Ext) (new_server : Ptr) :
  func entry w = (DBUS_SERVER_LISTEN_OK new_server, w') ->
  listen_attempt cfg j func entry l w
  = Done [EvListen j entry]
      (GotoOut, mkListenFrame (Some new_server) (error l) (first_connect_error l) true) w'.
Proof.
  intros Hf.
  unfold listen_attempt, call_listen_func, _DBUS_ASSERT_ERROR_IS_CLEAR.
  cbn. unfold exec_bind. rewrite Hf. cbn.
  rewrite !_dbus_assert_holds by reflexivity. reflexivity.
Qed.

Lemma listen_attempt_bad_address (j : nat) (func : ListenFunc Ext) (entry : DBusAddressEntry)
  (l : ListenFrame) (w w' : Ext) (tmp_error : DBusError) :
  func entry w = (DBUS_SERVER_LISTEN_BAD_ADDRESS tmp_error, w') ->
  server l = None ->
  listen_attempt cfg j func entry l w
  = Done [EvListen j entry]
      (GotoOut, mkListenFrame None (snd (dbus_move_error (Some tmp_error) (error l)))
                  (first_connect_error l) true) w'.
Proof.
  intros Hf Hs.
  unfold listen_attempt, call_listen_func, _DBUS_ASSERT_ERROR_IS_SET.
  cbn. unfold exec_bind. rewrite Hf. cbn. rewrite Hs.
  rewrite !_dbus_assert_holds by reflexivity. cbn.
  destruct (error l); reflexivity.
Qed.

(** With a valid address pointer, a clear error and an address that
    parses, the function is the scan followed by the code at [out]. *)
Lemma dbus_server_listen_parsed (a : string) (err : option (option DBusError))
  (w0 w1 : Ext) (entries : list DBusAddressEntry) :
  error_is_set_at err = false ->
  dbus_parse_address a w0 = (inr entries, w1) ->
  dbus_server_listen cfg (Some a) err w0
  = exec_bind (try_attempts cfg (attempts cfg entries) (mkListenFrame None err None false))
      (fun r => listen_out cfg a entries (snd r)) w1.
Proof.
  intros Herr Hparse. unfold dbus_server_listen.
  rewrite !return_val_if_fail_holds by (rewrite ?Herr; reflexivity).
  cbn [bind Monad_Exec]. unfold exec_bind at 1, call_parse_address.
  rewrite Hparse. rewrite after_nil.
  unfold exec_bind.
  rewrite try_entries_flat by (split; [reflexivity|exact Herr]).
  reflexivity.
Qed.

Lemma not_handled_keeps_trying (rs : list DBusServerListenResult) :
  forallb not_handled rs = true -> forallb keeps_trying rs = true.
Proof.
  induction rs as [|r rs IH]; simpl; [reflexivity|].
  intros Hrs. apply andb_true_iff in Hrs as [Hr Hrs].
  destruct r; try discriminate. simpl. auto.
Qed.

Lemma first_did_not_connect_none (rs : list DBusServerListenResult) :
  forallb keeps_trying rs = true ->
  forallb not_handled rs
  = match first_did_not_connect rs with Some _ => false | None => true end.
Proof.
  induction rs as [|r rs IH]; simpl; [reflexivity|].
  intros Hrs. apply andb_true_iff in Hrs as [Hr Hrs].
  destruct r; try discriminate; simpl; auto.
Qed.

(** The first listen function that answers OK ends the scan: its server
    is returned, the error stays clear and nothing is called after it. *)
Lemma dbus_server_listen_first_ok (a : string) (err : option (option DBusError))
  (w0 w1 w2 w3 : Ext) (entries : list DBusAddressEntry)
  (pre post : list (Attempt Ext)) (j : nat) (func : ListenFunc Ext)
  (entry : DBusAddressEntry) (rs : list DBusServerListenResult) (new_server : Ptr) :
  error_is_set_at err = false ->
  dbus_parse_address a w0 = (inr entries, w1) ->
  attempts cfg entries = pre ++ (j, func, entry) :: post ->
  replay pre w1 = (rs, w2) ->
  forallb keeps_trying rs = true ->
  func entry w2 = (DBUS_SERVER_LISTEN_OK new_server, w3) ->
  dbus_server_listen cfg (Some a) err w0
  = Done (listen_events pre ++ [EvListen j entry]) (Some new_server, err) w3.
Proof.
  intros Herr Hparse Hsplit Hre Hrs Hf.
  rewrite (dbus_server_listen_parsed a err w0 w1 entries Herr Hparse), Hsplit.
  unfold exec_bind.
  rewrite (try_attempts_keep_trying pre _ (mkListenFrame None err None false) w1 w2 rs
             Hre Hrs eq_refl).
  cbn [try_attempts bind Monad_Exec]. unfold exec_bind.
  rewrite (listen_attempt_ok j func entry _ w2 w3 new_server Hf).
  cbn. unfold listen_out, _DBUS_ASSERT_ERROR_IS_CLEAR. cbn. unfold exec_bind. cbn.
  rewrite _dbus_assert_holds by (rewrite Herr; reflexivity).
  cbn. rewrite app_nil_r. reflexivity.
Qed.

(** The first listen function that answers bad-address ends the scan and
    its error is the one reported, unless a did-not-connect answer came
    before it, the caller gave an error location and assertions are
    compiled in: then the last assertion on [first_connect_error] fails. *)
Lemma dbus_server_listen_first_bad_address (a : string) (err : option (option DBusError))
  (w0 w1 w2 w3 : Ext) (entries : list DBusAddressEntry)
  (pre post : list (Attempt Ext)) (j : nat) (func : ListenFunc Ext)
  (entry : DBusAddressEntry) (rs : list DBusServerListenResult) (tmp_error : DBusError) :
  error_is_set_at err = false ->
  dbus_parse_address a w0 = (inr entries, w1) ->
  attempts cfg entries = pre ++ (j, func, entry) :: post ->
  replay pre w1 = (rs, w2) ->
  forallb keeps_trying rs = true ->
  func entry w2 = (DBUS_SERVER_LISTEN_BAD_ADDRESS tmp_error, w3) ->
  dbus_server_listen cfg (Some a) err w0
  = if negb (DBUS_DISABLE_ASSERT cfg)
       && match err with Some _ => true | None => false end
       && dbus_error_is_set (first_did_not_connect rs)
    then Stuck (listen_events pre ++ [EvListen j entry]) AssertionFailed
    else Done (listen_events pre ++ [EvListen j entry])
           (None, snd (dbus_move_error (Some tmp_error) err)) w3.
Proof.
  intros Herr Hparse Hsplit Hre Hrs Hf.
  rewrite (dbus_server_listen_parsed a err w0 w1 entries Herr Hparse), Hsplit.
  unfold exec_bind.
  rewrite (try_attempts_keep_trying pre _ (mkListenFrame None err None false) w1 w2 rs
             Hre Hrs eq_refl).
  cbn [try_attempts bind Monad_Exec]. unfold exec_bind.
  rewrite (listen_attempt_bad_address j func entry
             (frame_after rs (mkListenFrame None err None false)) w2 w3 tmp_error Hf eq_refl).
  unfold listen_out, frame_after, _DBUS_ASSERT_ERROR_IS_CLEAR, _DBUS_ASSERT_ERROR_IS_SET,
    _dbus_assert.
  cbn [server error first_connect_error handled_once].
  destruct err as [e|]; [destruct e; [discriminate|]|];
    destruct (first_did_not_connect rs); destruct (DBUS_DISABLE_ASSERT cfg);
    cbn; rewrite ?app_nil_r; reflexivity.
Qed.

(** When every answer keeps the scan going, every listen function is
    called on every entry and the function fails: with the error of the
    first did-not-connect answer if there is one, and otherwise with the
    error for nothing handled. *)
Lemma dbus_server_listen_none_decides (a : string) (err : option (option DBusError))
  (w0 w1 w2 : Ext) (entries : list DBusAddressEntry) (rs : list DBusServerListenResult) :
  error_is_set_at err = false ->
  dbus_parse_address a w0 = (inr entries, w1) ->
  replay (attempts cfg entries) w1 = (rs, w2) ->
  forallb keeps_trying rs = true ->
  dbus_server_listen cfg (Some a) err w0
  = Done (listen_events (attempts cfg entries))
      (None,
       match first_did_not_connect rs with
       | Some e => snd (dbus_move_error (Some e) err)
       | None =>
           dbus_set_error err DBUS_ERROR_BAD_ADDRESS
             match entries with
             | entry0 :: _ =>
                 ("Unknown address type '" ++ dbus_address_entry_get_method entry0 ++ "'")%string
             | [] => ("Empty address '" ++ a ++ "'")%string
             end
       end) w2.
Proof.
  intros Herr Hparse Hre Hrs.
  rewrite (dbus_server_listen_parsed a err w0 w1 entries Herr Hparse).
  unfold exec_bind.
  rewrite <- (app_nil_r (attempts cfg entries)) at 1.
  rewrite (try_attempts_keep_trying _ [] (mkListenFrame None err None false) w1 w2 rs
             Hre Hrs eq_refl).
  cbn [try_attempts ret Monad_Exec exec_ret after snd]. rewrite app_nil_r.
  unfold listen_out, frame_after. cbn [server error first_connect_error handled_once orb].
  rewrite (first_did_not_connect_none rs Hrs).
  unfold _DBUS_ASSERT_ERROR_IS_CLEAR, _DBUS_ASSERT_ERROR_IS_SET, _dbus_assert.
  destruct err as [e|]; [destruct e; [discriminate|]|];
    destruct (first_did_not_connect rs); destruct (DBUS_DISABLE_ASSERT cfg);
    destruct entries; cbn; rewrite ?app_nil_r; reflexivity.
Qed.

(** C7: if no listen function handles any entry, [dbus_server_listen]
    fails with [DBUS_ERROR_BAD_ADDRESS]: "Unknown address type" with the
    method of the first entry when there are entries, "Empty address"
    when there are none; and when the address does not parse, it fails
    with the parser's error before any listen function is called. *)
Theorem dbus_server_listen_nothing_handled (a : string) (err : option (option DBusError))
  (w0 : Ext) :
  error_is_set_at err = false ->
  (forall (parse_error : DBusError) (w1 : Ext),
      dbus_parse_address a w0 = (inl parse_error, w1) ->
      dbus_server_listen cfg (Some a) err w0
      = Done [] (None, snd (dbus_move_error (Some parse_error) err)) w1)
  /\
  (forall (entries : list DBusAddressEntry) (w1 w2 : Ext)
          (rs : list DBusServerListenResult),
      dbus_parse_address a w0 = (inr entries, w1) ->
      replay (attempts cfg entries) w1 = (rs, w2) ->
      forallb not_handled rs = true ->
      dbus_server_listen cfg (Some a) err w0
      = Done (listen_events (attempts cfg entries))
          (None,
           dbus_set_error err DBUS_ERROR_BAD_ADDRESS
             match entries with
             | entry0 :: _ => ("Unknown address type '" ++ method entry0 ++ "'")%string
             | [] => ("Empty address '" ++ a ++ "'")%string
             end) w2).
Proof.
  intros Herr. split.
  - intros parse_error w1 Hparse. unfold dbus_server_listen.
    rewrite !return_val_if_fail_holds by (rewrite ?Herr; reflexivity).
    cbn [bind Monad_Exec]. unfold exec_bind, call_parse_address.
    rewrite Hparse. reflexivity.
  - intros entries w1 w2 rs Hparse Hre Hnone.
    pose proof (not_handled_keeps_trying rs Hnone) as Hrs.
    rewrite (dbus_server_listen_none_decides a err w0 w1 w2 entries rs Herr Hparse Hre Hrs).
    pose proof (first_did_not_connect_none rs Hrs) as Hfirst.
    rewrite Hnone in Hfirst.
    destruct (first_did_not_connect rs); [discriminate|reflexivity].
Qed.

End ListenProperties.

(** C7 at ["bogus:foo=bar"], at the empty address and at an address the
    parser rejects. *)
Lemma dbus_server_listen_nothing_handled_witness :
  dbus_server_listen checked_build (Some "bogus:foo=bar"%string) (Some None) 0%nat
  = Done [EvListen 0 bogus_entry; EvListen 1 bogus_entry]
      (None, Some (Some (mkDBusError "org.freedesktop.DBus.Error.BadAddress"
                           "Unknown address type 'bogus'"))) 2%nat
  /\ dbus_server_listen checked_build (Some ""%string) (Some None) 0%nat
     = Done [] (None, Some (Some (mkDBusError "org.freedesktop.DBus.Error.BadAddress"
                                   "Empty address ''"))) 0%nat
  /\ dbus_server_listen checked_build (Some "tcp"%string) (Some None) 0%nat
     = Done [] (None, Some (Some (mkDBusError "org.freedesktop.DBus.Error.BadAddress"
                                   "Address does not contain a colon"))) 0%nat.
Proof.
  split; [|split].
  - exact (proj2 (dbus_server_listen_nothing_handled checked_build
                    "bogus:foo=bar" (Some None) 0%nat eq_refl)
             [bogus_entry] 0%nat 2%nat
             [DBUS_SERVER_LISTEN_NOT_HANDLED; DBUS_SERVER_LISTEN_NOT_HANDLED]
             eq_refl eq_refl eq_refl).
  - exact (proj2 (dbus_server_listen_nothing_handled checked_build
                    "" (Some None) 0%nat eq_refl) [] 0%nat 0%nat []
             eq_refl eq_refl eq_refl).
  - exact (proj1 (dbus_server_listen_nothing_handled checked_build
                    "tcp" (Some None) 0%nat eq_refl)
             (mkDBusError "org.freedesktop.DBus.Error.BadAddress"
                "Address does not contain a colon") 0%nat eq_refl).
Defined.

(** C1, where the code falls short of it: a bad-address answer that
    comes after a did-not-connect answer.  The scan stops at the
    bad-address answer as it should, but [first_connect_error] is still
    set when the function reaches the assertion that it is clear: with
    assertions compiled in the function does not return.  With
    assertions compiled out the bad-address error is reported. *)
Theorem dbus_server_listen_bad_address_after_did_not_connect :
  dbus_server_listen checked_build (Some "tcp:port=80;tcp:host=localhost"%string)
    (Some None) 0%nat
  = Stuck [EvListen 0 tcp_port_80; EvListen 1 tcp_port_80; EvListen 0 tcp_no_port]
      AssertionFailed
  /\ dbus_server_listen release_build (Some "tcp:port=80;tcp:host=localhost"%string)
       (Some None) 0%nat
     = Done [EvListen 0 tcp_port_80; EvListen 1 tcp_port_80; EvListen 0 tcp_no_port]
         (None, Some (Some (mkDBusError "org.freedesktop.DBus.Error.BadAddress"
                              "Must specify port"))) 3%nat.
Proof. split; reflexivity. Qed.

(** ** The server object *)

Arguments exec_bind {S A B} m k s /.
Arguments exec_ret {S A} a s /.
Arguments emit {S} e s /.
Arguments stuck {S A} f _ /.
Arguments server_get {Ext A} f w /.
Arguments server_set {Ext} f w /.
Arguments outside {Ext A} f w /.
Arguments call_out {Ext H} f args w /.
Arguments _dbus_assert cfg {S} condition /.
Arguments _dbus_return_val_if_fail cfg {S A} condition what val body /.
Arguments _dbus_warn_check_failed {S} what /.
Arguments SERVER_LOCK {Ext} w /.
Arguments SERVER_UNLOCK cfg {Ext} w /.
Arguments HAVE_LOCK_CHECK cfg {Ext} w /.

Section ServerProperties.
Context {Ext : Type} `{Collaborators Ext}.

(** Case analysis on the build: atomic integers or not, checks compiled
    in or out, assertions compiled in or out. *)
Ltac flags cfg :=
  let tests := fresh "tests" in
  destruct cfg as [[|] [|] [|] tests].

(** Brings every server state to a record of its fields, innermost
    update first. *)
Ltac setters :=
  cbv beta iota delta
    [set_refcount set_vtable set_mutex set_guid set_guid_hex set_watches
     set_timeouts set_address set_new_connection_function set_new_connection_data
     set_new_connection_free_data_function set_auth_mechanisms set_slot_list
     set_disconnected set_have_server_lock
     refcount vtable mutex guid guid_hex watches timeouts address
     new_connection_function new_connection_data new_connection_free_data_function
     auth_mechanisms slot_list disconnected have_server_lock srv ext] in *;
  cbn in *.

Ltac open_world w :=
  let s := fresh "s" in
  let e := fresh "e" in
  destruct w as [s e]; destruct s; cbn in *; subst.

(** C10: [dbus_server_get_address] returns a copy of the server's address
    when the allocation succeeds and NULL when it fails; either way the
    server is left as it was. *)
Theorem dbus_server_get_address_result (cfg : BuildConfig) (w : World Ext)
  (a : string) (ok : bool) (e' : Ext) :
  have_server_lock (srv w) = false ->
  address (srv w) = Some a ->
  dbus_malloc (ext w) = (ok, e') ->
  dbus_server_get_address cfg w
  = Done [EvLock; EvUnlock] (if ok then Some a else None) (mkWorld (srv w) e').
Proof.
  intros Hlock Haddr Hmem. open_world w.
  unfold dbus_server_get_address. cbn. rewrite Hmem. cbn.
  flags cfg; reflexivity.
Qed.

(** When the copy of the mechanisms cannot be allocated,
    [dbus_server_set_auth_mechanisms] returns FALSE and leaves the list
    as it was, but it returns with the lock still held. *)
Lemma dbus_server_set_auth_mechanisms_no_memory (cfg : BuildConfig) (w : World Ext)
  (array : list string) (e' : Ext) :
  have_server_lock (srv w) = false ->
  dbus_malloc (ext w) = (false, e') ->
  dbus_server_set_auth_mechanisms cfg (Some array) w
  = Done [EvLock] false (mkWorld (set_have_server_lock true (srv w)) e').
Proof.
  intros Hlock Hmem. open_world w.
  unfold dbus_server_set_auth_mechanisms. cbn. rewrite Hmem. reflexivity.
Qed.

(** On the other paths the list is replaced and the lock released. *)
Lemma dbus_server_set_auth_mechanisms_installs (cfg : BuildConfig) (w : World Ext)
  (mechanisms : option (list string)) (e' : Ext) :
  have_server_lock (srv w) = false ->
  match mechanisms with
  | Some _ => dbus_malloc (ext w) = (true, e')
  | None => e' = ext w
  end ->
  dbus_server_set_auth_mechanisms cfg mechanisms w
  = Done [EvLock; EvUnlock] true (mkWorld (set_auth_mechanisms mechanisms (srv w)) e').
Proof.
  intros Hlock Hmem. open_world w.
  unfold dbus_server_set_auth_mechanisms.
  destruct mechanisms as [array|]; cbn; [rewrite Hmem|subst e']; cbn;
    flags cfg; reflexivity.
Qed.

(** What [dbus_server_unref] does with the last reference. *)
Lemma dbus_server_unref_last (cfg : BuildConfig) (w : World Ext) (f : FnPtr) :
  refcount (srv w) = 1 ->
  finalize (vtable (srv w)) = Some f ->
  have_server_lock (srv w) = false ->
  let at_zero := mkWorld (set_have_server_lock false (set_refcount 0 (srv w))) (ext w) in
  let pre := if DBUS_HAVE_ATOMIC_INT cfg then [EvUnref 0]
             else [EvLock; EvUnref 0; EvUnlock] in
  dbus_server_unref cfg w
  = if disconnected (srv w) || DBUS_DISABLE_ASSERT cfg then
      match invoke f [] at_zero with
      | Some (_, w') => Done (pre ++ [EvCall f [] at_zero]) tt w'
      | None => Stuck (pre ++ [EvCall f [] at_zero]) NoReturn
      end
    else Stuck pre AssertionFailed.
Proof.
  intros Hrc Hfin Hlock. open_world w. destruct vtable0 as [fin dis]. cbn in *. subst.
  unfold dbus_server_unref, refcount_dec, _dbus_atomic_dec, call_finalize.
  flags cfg; destruct disconnected0; cbn;
    try (destruct (invoke f [] _) as [[r w']|]); reflexivity.
Qed.

(** What [_dbus_server_unref_unlocked] does with the last reference. *)
Lemma _dbus_server_unref_unlocked_last (cfg : BuildConfig) (w : World Ext) (f : FnPtr) :
  refcount (srv w) = 1 ->
  finalize (vtable (srv w)) = Some f ->
  have_server_lock (srv w) = true ->
  let at_zero := mkWorld (set_have_server_lock false (set_refcount 0 (srv w))) (ext w) in
  _dbus_server_unref_unlocked cfg w
  = if disconnected (srv w) || DBUS_DISABLE_ASSERT cfg then
      match invoke f [] at_zero with
      | Some (_, w') => Done [EvUnref 0; EvUnlock; EvCall f [] at_zero] tt w'
      | None => Stuck [EvUnref 0; EvUnlock; EvCall f [] at_zero] NoReturn
      end
    else Stuck [EvUnref 0] AssertionFailed.
Proof.
  intros Hrc Hfin Hlock. open_world w. destruct vtable0 as [fin dis]. cbn in *. subst.
  unfold _dbus_server_unref_unlocked, refcount_dec, _dbus_atomic_dec, call_finalize.
  flags cfg; destruct disconnected0; cbn;
    try (destruct (invoke f [] _) as [[r w']|]); reflexivity.
Qed.

(** C3: when [dbus_server_unref] (called without the lock) or
    [_dbus_server_unref_unlocked] (called with it) drops the last
    reference of a disconnected server, the only call that leaves the
    function is one call of the vtable's [finalize], made with the count
    at zero and the lock not held, and the function returns when
    [finalize] does.  If the server is not disconnected, the assertion
    fails before anything is called. *)
Theorem unref_to_zero_finalizes_once (cfg : BuildConfig) (w : World Ext) (f : FnPtr) :
  refcount (srv w) = 1 ->
  finalize (vtable (srv w)) = Some f ->
  let at_zero := mkWorld (set_have_server_lock false (set_refcount 0 (srv w))) (ext w) in
  (have_server_lock (srv w) = false ->
   (disconnected (srv w) = true ->
    calls (trace (dbus_server_unref cfg w)) = [(f, [], at_zero)]
    /\ (forall r w', invoke f [] at_zero = Some (r, w') ->
        exists t, dbus_server_unref cfg w = Done t tt w'))
   /\ (disconnected (srv w) = false -> DBUS_DISABLE_ASSERT cfg = false ->
       exists t, dbus_server_unref cfg w = Stuck t AssertionFailed /\ calls t = []))
  /\
  (have_server_lock (srv w) = true ->
   (disconnected (srv w) = true ->
    calls (trace (_dbus_server_unref_unlocked cfg w)) = [(f, [], at_zero)]
    /\ (forall r w', invoke f [] at_zero = Some (r, w') ->
        exists t, _dbus_server_unref_unlocked cfg w = Done t tt w'))
   /\ (disconnected (srv w) = false -> DBUS_DISABLE_ASSERT cfg = false ->
       exists t, _dbus_server_unref_unlocked cfg w = Stuck t AssertionFailed
                 /\ calls t = [])).
Proof.
  intros Hrc Hfin at_zero. split; intros Hlock.
  - rewrite (dbus_server_unref_last cfg w f Hrc Hfin Hlock). fold at_zero.
    split.
    + intros ->. cbn [orb]. split.
      * destruct (invoke f [] at_zero) as [[r w']|];
          destruct (DBUS_HAVE_ATOMIC_INT cfg); reflexivity.
      * intros r w' ->. eexists. reflexivity.
    + intros -> ->. cbn [orb]. eexists. split; [reflexivity|].
      destruct (DBUS_HAVE_ATOMIC_INT cfg); reflexivity.
  - rewrite (_dbus_server_unref_unlocked_last cfg w f Hrc Hfin Hlock). fold at_zero.
    split.
    + intros ->. cbn [orb]. split.
      * destruct (invoke f [] at_zero) as [[r w']|]; reflexivity.
      * intros r w' ->. eexists. reflexivity.
    + intros -> ->. cbn [orb]. eexists. split; reflexivity.
Qed.

Local Arguments wrap_int32 z : simpl never.

(** One more case split of a symbolic execution: on what a call that
    leaves the file answers, or on the next test the execution is
    waiting for. *)
Ltac branch :=
  match goal with
  | |- context [match invoke ?f ?a ?w with _ => _ end] =>
      let E := fresh "Hcall" in destruct (invoke f a w) as [[? ?]|] eqn:E
  | |- context [let (_, _) := ?f ?e in _] =>
      let E := fresh "Hout" in destruct (f e) as [? ?] eqn:E
  | |- context [let (_, _) := ?p in _] => is_var p; destruct p
  | |- context [if ?b then _ else _] => destruct b eqn:?
  | |- context [match ?x with Some _ => _ | None => _ end] => destruct x eqn:?
  end.

Ltac crunch := repeat (cbn; try reflexivity; branch).

Lemma set_new_connection_function_calls_unlocked (cfg : BuildConfig) (w : World Ext)
  (function : option FnPtr) (data : Ptr) (free_data_function : option FnPtr) :
  calls_outside_lock (have_server_lock (srv w))
    (trace (dbus_server_set_new_connection_function cfg function data free_data_function w))
  = true.
Proof.
  destruct w as [s e]; destruct s. flags cfg;
  unfold dbus_server_set_new_connection_function; crunch.
Qed.

Lemma set_data_calls_unlocked (cfg : BuildConfig) (w : World Ext)
  (slot : Z) (data : Ptr) (free_data_func : option FnPtr) :
  calls_outside_lock (have_server_lock (srv w))
    (trace (dbus_server_set_data cfg slot data free_data_func w))
  = true.
Proof.
  destruct w as [s e]; destruct s. flags cfg;
  unfold dbus_server_set_data; crunch.
Qed.

Ltac unfold_refs :=
  unfold _dbus_server_ref_unlocked, _dbus_server_unref_unlocked, dbus_server_unref,
    dbus_server_ref, refcount_inc, refcount_dec, _dbus_atomic_inc, _dbus_atomic_dec,
    call_finalize.

Lemma protected_change_watch_calls_unlocked (cfg : BuildConfig) (w : World Ext)
  (watch : Ptr) (add_function remove_function toggle_function : option FnPtr)
  (enabled : bool) :
  calls_outside_lock (have_server_lock (srv w))
    (trace (protected_change_watch cfg watch add_function remove_function
              toggle_function enabled w))
  = true.
Proof.
  destruct w as [s e]; destruct s. flags cfg;
  unfold protected_change_watch; unfold_refs; crunch.
Qed.

Lemma protected_change_timeout_calls_unlocked (cfg : BuildConfig) (w : World Ext)
  (timeout : Ptr) (add_function remove_function toggle_function : option FnPtr)
  (enabled : bool) :
  calls_outside_lock (have_server_lock (srv w))
    (trace (protected_change_timeout cfg timeout add_function remove_function
              toggle_function enabled w))
  = true.
Proof.
  destruct w as [s e]; destruct s. flags cfg;
  unfold protected_change_timeout; unfold_refs; crunch.
Qed.

Lemma set_watch_functions_calls_unlocked (cfg : BuildConfig) (w : World Ext)
  (add_function remove_function toggled_function : option FnPtr)
  (data : Ptr) (free_data_function : option FnPtr) :
  calls_outside_lock (have_server_lock (srv w))
    (trace (dbus_server_set_watch_functions cfg add_function remove_function
              toggled_function data free_data_function w))
  = true.
Proof.
  destruct w as [s e]; destruct s. flags cfg;
  unfold dbus_server_set_watch_functions; crunch.
Qed.

Lemma set_timeout_functions_calls_unlocked (cfg : BuildConfig) (w : World Ext)
  (add_function remove_function toggled_function : option FnPtr)
  (data : Ptr) (free_data_function : option FnPtr) :
  calls_outside_lock (have_server_lock (srv w))
    (trace (dbus_server_set_timeout_functions cfg add_function remove_function
              toggled_function data free_data_function w))
  = true.
Proof.
  destruct w as [s e]; destruct s. flags cfg;
  unfold dbus_server_set_timeout_functions; crunch.
Qed.

(** C2: application code is never called with the server's lock held.
    In every execution, whatever state it starts in and whatever the
    functions called do, each call that leaves
    [dbus_server_set_new_connection_function], [dbus_server_set_data],
    [protected_change_watch], [protected_change_timeout],
    [dbus_server_set_watch_functions] or [dbus_server_set_timeout_functions]
    is made after an unlock and before the next lock, in a state where
    the lock is not held. *)
Theorem callbacks_run_without_the_lock (cfg : BuildConfig) (w : World Ext) :
  (forall function data free_data_function,
      calls_outside_lock (have_server_lock (srv w))
        (trace (dbus_server_set_new_connection_function cfg function data
                  free_data_function w)) = true)
  /\ (forall slot data free_data_func,
      calls_outside_lock (have_server_lock (srv w))
        (trace (dbus_server_set_data cfg slot data free_data_func w)) = true)
  /\ (forall watch add_function remove_function toggle_function enabled,
      calls_outside_lock (have_server_lock (srv w))
        (trace (protected_change_watch cfg watch add_function remove_function
                  toggle_function enabled w)) = true)
  /\ (forall timeout add_function remove_function toggle_function enabled,
      calls_outside_lock (have_server_lock (srv w))
        (trace (protected_change_timeout cfg timeout add_function remove_function
                  toggle_function enabled w)) = true)
  /\ (forall add_function remove_function toggled_function data free_data_function,
      calls_outside_lock (have_server_lock (srv w))
        (trace (dbus_server_set_watch_functions cfg add_function remove_function
                  toggled_function data free_data_function w)) = true)
  /\ (forall add_function remove_function toggled_function data free_data_function,
      calls_outside_lock (have_server_lock (srv w))
        (trace (dbus_server_set_timeout_functions cfg add_function remove_function
                  toggled_function data free_data_function w)) = true).
Proof.
  repeat split; intros.
  - apply set_new_connection_function_calls_unlocked.
  - apply set_data_calls_unlocked.
  - apply protected_change_watch_calls_unlocked.
  - apply protected_change_timeout_calls_unlocked.
  - apply set_watch_functions_calls_unlocked.
  - apply set_timeout_functions_calls_unlocked.
Qed.

(** *** The detach / call-out / reattach protocol *)

Lemma wrap_int32_small (z : Z) :
  -2147483648 <= z < 2147483648 -> wrap_int32 z = z.
Proof.
  intros Hz. unfold wrap_int32.
  change (2 ^ 31) with 2147483648. change (2 ^ 32) with 4294967296.
  rewrite Z.mod_small by lia. lia.
Qed.

Lemma protected_change_watch_detached (cfg : BuildConfig) (w : World Ext)
  (watch : Ptr) (add_function remove_function toggle_function : option FnPtr)
  (enabled : bool) :
  watches (srv w) = None ->
  have_server_lock (srv w) = true ->
  protected_change_watch cfg watch add_function remove_function toggle_function enabled w
  = Done [] FALSE w.
Proof.
  intros Hw Hlock. open_world w.
  unfold protected_change_watch. flags cfg; reflexivity.
Qed.

Lemma protected_change_watch_attached (cfg : BuildConfig) (w : World Ext)
  (watch : Ptr) (add_function remove_function toggle_function : option FnPtr)
  (enabled : bool) (wl : Ptr) (f : FnPtr) (r : Z) (w2 : World Ext) :
  watches (srv w) = Some wl ->
  have_server_lock (srv w) = true ->
  0 < refcount (srv w) < 2147483647 ->
  chosen_function add_function remove_function toggle_function = Some f ->
  let detached :=
    mkWorld (set_have_server_lock false
               (set_refcount (refcount (srv w) + 1) (set_watches None (srv w)))) (ext w) in
  invoke f (chosen_args add_function remove_function wl watch enabled) detached
  = Some (r, w2) ->
  have_server_lock (srv w2) = false ->
  refcount (srv w2) = refcount (srv w) + 1 ->
  protected_change_watch cfg watch add_function remove_function toggle_function enabled w
  = Done [EvRef (refcount (srv w) + 1); EvUnlock;
          EvCall f (chosen_args add_function remove_function wl watch enabled) detached;
          EvLock; EvUnref (refcount (srv w))]
      (chosen_result add_function r)
      (mkWorld (set_refcount (refcount (srv w))
                  (set_watches (Some wl) (set_have_server_lock true (srv w2)))) (ext w2)).
Proof.
  intros Hw Hlock Hrc Hf detached Hcall Hlock2 Hrc2.
  subst detached. open_world w. open_world w2. setters.
  rename refcount0 into rc.
  assert (E1 : (0 <? rc) = true) by (apply Z.ltb_lt; lia).
  assert (E2 : wrap_int32 (rc + 1) = rc + 1) by (apply wrap_int32_small; lia).
  assert (E3 : (0 <? rc + 1) = true) by (apply Z.ltb_lt; lia).
  assert (E4 : wrap_int32 (rc + 1 - 1) = rc) by (rewrite wrap_int32_small; lia).
  assert (E5 : (rc + 1 =? 1) = false) by (apply Z.eqb_neq; lia).
  assert (E6 : (rc =? 0) = false) by (apply Z.eqb_neq; lia).
  unfold protected_change_watch; unfold_refs.
  destruct add_function as [fa|]; [|destruct remove_function as [fr|]];
    cbn in Hf, Hcall; try (injection Hf as Hf); subst;
    flags cfg;
    repeat (progress (cbn; setters; rewrite ?E1, ?E2, ?E3, ?E4, ?E5, ?E6, ?Hcall));
    reflexivity.
Qed.

Lemma protected_change_timeout_detached (cfg : BuildConfig) (w : World Ext)
  (timeout : Ptr) (add_function remove_function toggle_function : option FnPtr)
  (enabled : bool) :
  timeouts (srv w) = None ->
  have_server_lock (srv w) = true ->
  protected_change_timeout cfg timeout add_function remove_function toggle_function enabled w
  = Done [] FALSE w.
Proof.
  intros Hw Hlock. open_world w.
  unfold protected_change_timeout. flags cfg; reflexivity.
Qed.

Lemma protected_change_timeout_attached (cfg : BuildConfig) (w : World Ext)
  (timeout : Ptr) (add_function remove_function toggle_function : option FnPtr)
  (enabled : bool) (tl : Ptr) (f : FnPtr) (r : Z) (w2 : World Ext) :
  timeouts (srv w) = Some tl ->
  have_server_lock (srv w) = true ->
  0 < refcount (srv w) < 2147483647 ->
  chosen_function add_function remove_function toggle_function = Some f ->
  let detached :=
    mkWorld (set_have_server_lock false
               (set_refcount (refcount (srv w) + 1) (set_timeouts None (srv w)))) (ext w) in
  invoke f (chosen_args add_function remove_function tl timeout enabled) detached
  = Some (r, w2) ->
  have_server_lock (srv w2) = false ->
  refcount (srv w2) = refcount (srv w) + 1 ->
  protected_change_timeout cfg timeout add_function remove_function toggle_function enabled w
  = Done [EvRef (refcount (srv w) + 1); EvUnlock;
          EvCall f (chosen_args add_function remove_function tl timeout enabled) detached;
          EvLock; EvUnref (refcount (srv w))]
      (chosen_result add_function r)
      (mkWorld (set_refcount (refcount (srv w))
                  (set_timeouts (Some tl) (set_have_server_lock true (srv w2)))) (ext w2)).
Proof.
  intros Hw Hlock Hrc Hf detached Hcall Hlock2 Hrc2.
  subst detached. open_world w. open_world w2. setters.
  rename refcount0 into rc.
  assert (E1 : (0 <? rc) = true) by (apply Z.ltb_lt; lia).
  assert (E2 : wrap_int32 (rc + 1) = rc + 1) by (apply wrap_int32_small; lia).
  assert (E3 : (0 <? rc + 1) = true) by (apply Z.ltb_lt; lia).
  assert (E4 : wrap_int32 (rc + 1 - 1) = rc) by (rewrite wrap_int32_small; lia).
  assert (E5 : (rc + 1 =? 1) = false) by (apply Z.eqb_neq; lia).
  assert (E6 : (rc =? 0) = false) by (apply Z.eqb_neq; lia).
  unfold protected_change_timeout; unfold_refs.
  destruct add_function as [fa|]; [|destruct remove_function as [fr|]];
    cbn in Hf, Hcall; try (injection Hf as Hf); subst;
    flags cfg;
    repeat (progress (cbn; setters; rewrite ?E1, ?E2, ?E3, ?E4, ?E5, ?E6, ?Hcall));
    reflexivity.
Qed.


Lemma set_watch_functions_detached (cfg : BuildConfig) (w : World Ext)
  (add_function remove_function toggled_function : option FnPtr)
  (data : Ptr) (free_data_function : option FnPtr) :
  watches (srv w) = None ->
  have_server_lock (srv w) = false ->
  dbus_server_set_watch_functions cfg add_function remove_function toggled_function
    data free_data_function w
  = Done [EvLock;
          EvCheckFailed "Re-entrant call to dbus_server_set_watch_functions";
          EvUnlock] FALSE w.
Proof.
  intros Hw Hlock. open_world w.
  unfold dbus_server_set_watch_functions. flags cfg; reflexivity.
Qed.

Lemma set_watch_functions_attached (cfg : BuildConfig) (w : World Ext)
  (add_function remove_function toggled_function : option FnPtr)
  (data : Ptr) (free_data_function : option FnPtr) (wl : Ptr) (r : Z) (w2 : World Ext) :
  watches (srv w) = Some wl ->
  have_server_lock (srv w) = false ->
  let detached := mkWorld (set_watches None (srv w)) (ext w) in
  let args := [wl; ptr_arg add_function; ptr_arg remove_function;
               ptr_arg toggled_function; data; ptr_arg free_data_function] in
  invoke _dbus_watch_list_set_functions args detached = Some (r, w2) ->
  have_server_lock (srv w2) = false ->
  dbus_server_set_watch_functions cfg add_function remove_function toggled_function
    data free_data_function w
  = Done [EvLock; EvUnlock; EvCall _dbus_watch_list_set_functions args detached;
          EvLock; EvUnlock] r
      (mkWorld (set_watches (Some wl) (srv w2)) (ext w2)).
Proof.
  intros Hw Hlock detached args Hcall Hlock2.
  subst detached args. open_world w. open_world w2. setters.
  unfold dbus_server_set_watch_functions.
  flags cfg; repeat (progress (cbn; setters; rewrite ?Hcall)); reflexivity.
Qed.

Lemma set_timeout_functions_detached (cfg : BuildConfig) (w : World Ext)
  (add_function remove_function toggled_function : option FnPtr)
  (data : Ptr) (free_data_function : option FnPtr) :
  timeouts (srv w) = None ->
  have_server_lock (srv w) = false ->
  dbus_server_set_timeout_functions cfg add_function remove_function toggled_function
    data free_data_function w
  = Done [EvLock;
          EvCheckFailed "Re-entrant call to dbus_server_set_timeout_functions";
          EvUnlock] FALSE w.
Proof.
  intros Hw Hlock. open_world w.
  unfold dbus_server_set_timeout_functions. flags cfg; reflexivity.
Qed.

Lemma set_timeout_functions_attached (cfg : BuildConfig) (w : World Ext)
  (add_function remove_function toggled_function : option FnPtr)
  (data : Ptr) (free_data_function : option FnPtr) (tl : Ptr) (r : Z) (w2 : World Ext) :
  timeouts (srv w) = Some tl ->
  have_server_lock (srv w) = false ->
  let detached := mkWorld (set_timeouts None (srv w)) (ext w) in
  let args := [tl; ptr_arg add_function; ptr_arg remove_function;
               ptr_arg toggled_function; data; ptr_arg free_data_function] in
  invoke _dbus_timeout_list_set_functions args detached = Some (r, w2) ->
  have_server_lock (srv w2) = false ->
  dbus_server_set_timeout_functions cfg add_function remove_function toggled_function
    data free_data_function w
  = Done [EvLock; EvUnlock; EvCall _dbus_timeout_list_set_functions args detached;
          EvLock; EvUnlock] r
      (mkWorld (set_timeouts (Some tl) (srv w2)) (ext w2)).
Proof.
  intros Hw Hlock detached args Hcall Hlock2.
  subst detached args. open_world w. open_world w2. setters.
  unfold dbus_server_set_timeout_functions.
  flags cfg; repeat (progress (cbn; setters; rewrite ?Hcall)); reflexivity.
Qed.

(** C4: the re-entrancy guard.  When the registry is detached,
    [protected_change_watch] and [protected_change_timeout] (the bodies of
    the add, remove and toggle operations) and
    [dbus_server_set_watch_functions] and [dbus_server_set_timeout_functions]
    return FALSE, call nothing and leave the world as it was.  When it is
    attached, they call out with the registry field NULL and the lock
    released, and put the same registry back afterwards. *)
Theorem reentrancy_guard (cfg : BuildConfig) (w : World Ext) :
  (* watches: add, remove, toggle *)
  (forall watch add_function remove_function toggle_function enabled,
      watches (srv w) = None ->
      have_server_lock (srv w) = true ->
      protected_change_watch cfg watch add_function remove_function toggle_function
        enabled w
      = Done [] FALSE w)
  /\
  (forall watch add_function remove_function toggle_function enabled wl f r w2,
      watches (srv w) = Some wl ->
      have_server_lock (srv w) = true ->
      0 < refcount (srv w) < 2147483647 ->
      chosen_function add_function remove_function toggle_function = Some f ->
      let detached :=
        mkWorld (set_have_server_lock false
                   (set_refcount (refcount (srv w) + 1) (set_watches None (srv w))))
          (ext w) in
      invoke f (chosen_args add_function remove_function wl watch enabled) detached
      = Some (r, w2) ->
      have_server_lock (srv w2) = false ->
      refcount (srv w2) = refcount (srv w) + 1 ->
      protected_change_watch cfg watch add_function remove_function toggle_function
        enabled w
      = Done [EvRef (refcount (srv w) + 1); EvUnlock;
              EvCall f (chosen_args add_function remove_function wl watch enabled) detached;
              EvLock; EvUnref (refcount (srv w))]
          (chosen_result add_function r)
          (mkWorld (set_refcount (refcount (srv w))
                      (set_watches (Some wl) (set_have_server_lock true (srv w2))))
             (ext w2)))
  /\
  (* timeouts: add, remove, toggle *)
  (forall timeout add_function remove_function toggle_function enabled,
      timeouts (srv w) = None ->
      have_server_lock (srv w) = true ->
      protected_change_timeout cfg timeout add_function remove_function toggle_function
        enabled w
      = Done [] FALSE w)
  /\
  (forall timeout add_function remove_function toggle_function enabled tl f r w2,
      timeouts (srv w) = Some tl ->
      have_server_lock (srv w) = true ->
      0 < refcount (srv w) < 2147483647 ->
      chosen_function add_function remove_function toggle_function = Some f ->
      let detached :=
        mkWorld (set_have_server_lock false
                   (set_refcount (refcount (srv w) + 1) (set_timeouts None (srv w))))
          (ext w) in
      invoke f (chosen_args add_function remove_function tl timeout enabled) detached
      = Some (r, w2) ->
      have_server_lock (srv w2) = false ->
      refcount (srv w2) = refcount (srv w) + 1 ->
      protected_change_timeout cfg timeout add_function remove_function toggle_function
        enabled w
      = Done [EvRef (refcount (srv w) + 1); EvUnlock;
              EvCall f (chosen_args add_function remove_function tl timeout enabled) detached;
              EvLock; EvUnref (refcount (srv w))]
          (chosen_result add_function r)
          (mkWorld (set_refcount (refcount (srv w))
                      (set_timeouts (Some tl) (set_have_server_lock true (srv w2))))
             (ext w2)))
  /\
  (* dbus_server_set_watch_functions *)
  (forall add_function remove_function toggled_function data free_data_function,
      watches (srv w) = None ->
      have_server_lock (srv w) = false ->
      dbus_server_set_watch_functions cfg add_function remove_function toggled_function
        data free_data_function w
      = Done [EvLock;
              EvCheckFailed "Re-entrant call to dbus_server_set_watch_functions";
              EvUnlock] FALSE w)
  /\
  (forall add_function remove_function toggled_function data free_data_function wl r w2,
      watches (srv w) = Some wl ->
      have_server_lock (srv w) = false ->
      let detached := mkWorld (set_watches None (srv w)) (ext w) in
      let args := [wl; ptr_arg add_function; ptr_arg remove_function;
                   ptr_arg toggled_function; data; ptr_arg free_data_function] in
      invoke _dbus_watch_list_set_functions args detached = Some (r, w2) ->
      have_server_lock (srv w2) = false ->
      dbus_server_set_watch_functions cfg add_function remove_function toggled_function
        data free_data_function w
      = Done [EvLock; EvUnlock; EvCall _dbus_watch_list_set_functions args detached;
              EvLock; EvUnlock] r
          (mkWorld (set_watches (Some wl) (srv w2)) (ext w2)))
  /\
  (* dbus_server_set_timeout_functions *)
  (forall add_function remove_function toggled_function data free_data_function,
      timeouts (srv w) = None ->
      have_server_lock (srv w) = false ->
      dbus_server_set_timeout_functions cfg add_function remove_function toggled_function
        data free_data_function w
      = Done [EvLock;
              EvCheckFailed "Re-entrant call to dbus_server_set_timeout_functions";
              EvUnlock] FALSE w)
  /\
  (forall add_function remove_function toggled_function data free_data_function tl r w2,
      timeouts (srv w) = Some tl ->
      have_server_lock (srv w) = false ->
      let detached := mkWorld (set_timeouts None (srv w)) (ext w) in
      let args := [tl; ptr_arg add_function; ptr_arg remove_function;
                   ptr_arg toggled_function; data; ptr_arg free_data_function] in
      invoke _dbus_timeout_list_set_functions args detached = Some (r, w2) ->
      have_server_lock (srv w2) = false ->
      dbus_server_set_timeout_functions cfg add_function remove_function toggled_function
        data free_data_function w
      = Done [EvLock; EvUnlock; EvCall _dbus_timeout_list_set_functions args detached;
              EvLock; EvUnlock] r
          (mkWorld (set_timeouts (Some tl) (srv w2)) (ext w2))).
Proof.
  repeat split; intros.
  - apply protected_change_watch_detached; assumption.
  - apply protected_change_watch_attached; assumption.
  - apply protected_change_timeout_detached; assumption.
  - apply protected_change_timeout_attached; assumption.
  - apply set_watch_functions_detached; assumption.
  - apply set_watch_functions_attached; assumption.
  - apply set_timeout_functions_detached; assumption.
  - apply set_timeout_functions_attached; assumption.
Qed.

(** *** References across an unlock *)

Lemma set_watch_functions_leaves_refcount_alone (cfg : BuildConfig) (w : World Ext)
  (add_function remove_function toggled_function : option FnPtr)
  (data : Ptr) (free_data_function : option FnPtr) :
  leaves_refcount_alone
    (trace (dbus_server_set_watch_functions cfg add_function remove_function
              toggled_function data free_data_function w)) = true.
Proof.
  destruct w as [s e]; destruct s. flags cfg;
  unfold dbus_server_set_watch_functions; crunch.
Qed.

Lemma set_timeout_functions_leaves_refcount_alone (cfg : BuildConfig) (w : World Ext)
  (add_function remove_function toggled_function : option FnPtr)
  (data : Ptr) (free_data_function : option FnPtr) :
  leaves_refcount_alone
    (trace (dbus_server_set_timeout_functions cfg add_function remove_function
              toggled_function data free_data_function w)) = true.
Proof.
  destruct w as [s e]; destruct s. flags cfg;
  unfold dbus_server_set_timeout_functions; crunch.
Qed.

(** *** Disconnecting *)

Lemma dbus_server_disconnect_first (cfg : BuildConfig) (w : World Ext)
  (f : FnPtr) (r : Z) (w2 : World Ext) :
  0 < refcount (srv w) < 2147483647 ->
  have_server_lock (srv w) = false ->
  disconnect (vtable (srv w)) = Some f ->
  disconnected (srv w) = false ->
  let under_lock :=
    mkWorld (set_disconnected true
               (set_refcount (refcount (srv w) + 1)
                  (set_have_server_lock true (srv w)))) (ext w) in
  invoke f [] under_lock = Some (r, w2) ->
  have_server_lock (srv w2) = true ->
  refcount (srv w2) = refcount (srv w) + 1 ->
  dbus_server_disconnect cfg w
  = Done ([EvLock; EvRef (refcount (srv w) + 1); EvCall f [] under_lock; EvUnlock]
          ++ (if DBUS_HAVE_ATOMIC_INT cfg then [EvUnref (refcount (srv w))]
              else [EvLock; EvUnref (refcount (srv w)); EvUnlock]))
      tt
      (mkWorld (set_have_server_lock false (set_refcount (refcount (srv w)) (srv w2)))
         (ext w2)).
Proof.
  intros Hrc Hlock Hdis Hconn under_lock Hcall Hlock2 Hrc2.
  subst under_lock. open_world w. open_world w2. destruct vtable0 as [fin dis].
  setters. subst.
  rename refcount0 into rc.
  assert (E1 : (0 <? rc) = true) by (apply Z.ltb_lt; lia).
  assert (E2 : wrap_int32 (rc + 1) = rc + 1) by (apply wrap_int32_small; lia).
  assert (E3 : (0 <? rc + 1) = true) by (apply Z.ltb_lt; lia).
  assert (E4 : wrap_int32 (rc + 1 - 1) = rc) by (rewrite wrap_int32_small; lia).
  assert (E5 : (rc + 1 =? 1) = false) by (apply Z.eqb_neq; lia).
  assert (E6 : (rc =? 0) = false) by (apply Z.eqb_neq; lia).
  unfold dbus_server_disconnect; unfold_refs.
  flags cfg;
    repeat (progress (cbn; setters; rewrite ?E1, ?E2, ?E3, ?E4, ?E5, ?E6, ?Hcall));
    reflexivity.
Qed.

Lemma dbus_server_disconnect_again (cfg : BuildConfig) (w : World Ext) (f : FnPtr) :
  0 < refcount (srv w) < 2147483647 ->
  have_server_lock (srv w) = false ->
  disconnect (vtable (srv w)) = Some f ->
  disconnected (srv w) = true ->
  dbus_server_disconnect cfg w
  = Done ([EvLock; EvRef (refcount (srv w) + 1); EvUnlock]
          ++ (if DBUS_HAVE_ATOMIC_INT cfg then [EvUnref (refcount (srv w))]
              else [EvLock; EvUnref (refcount (srv w)); EvUnlock]))
      tt w.
Proof.
  intros Hrc Hlock Hdis Hconn.
  open_world w. destruct vtable0 as [fin dis]. setters. subst.
  rename refcount0 into rc.
  assert (E1 : (0 <? rc) = true) by (apply Z.ltb_lt; lia).
  assert (E2 : wrap_int32 (rc + 1) = rc + 1) by (apply wrap_int32_small; lia).
  assert (E3 : (0 <? rc + 1) = true) by (apply Z.ltb_lt; lia).
  assert (E4 : wrap_int32 (rc + 1 - 1) = rc) by (rewrite wrap_int32_small; lia).
  assert (E5 : (rc + 1 =? 1) = false) by (apply Z.eqb_neq; lia).
  assert (E6 : (rc =? 0) = false) by (apply Z.eqb_neq; lia).
  unfold dbus_server_disconnect; unfold_refs.
  flags cfg;
    repeat (progress (cbn; setters; rewrite ?E1, ?E2, ?E3, ?E4, ?E5, ?E6));
    reflexivity.
Qed.

(** C6: on a connected server, [dbus_server_disconnect] sets
    [disconnected], calls the vtable's [disconnect] once, under the lock
    and with the flag already set, and returns with the reference count
    it started with.  On a disconnected server it calls nothing and
    leaves the world exactly as it was. *)
Theorem dbus_server_disconnect_idempotent (cfg : BuildConfig) (w : World Ext) (f : FnPtr) :
  0 < refcount (srv w) < 2147483647 ->
  have_server_lock (srv w) = false ->
  disconnect (vtable (srv w)) = Some f ->
  let under_lock :=
    mkWorld (set_disconnected true
               (set_refcount (refcount (srv w) + 1)
                  (set_have_server_lock true (srv w)))) (ext w) in
  (disconnected (srv w) = false ->
   forall r w2,
     invoke f [] under_lock = Some (r, w2) ->
     have_server_lock (srv w2) = true ->
     refcount (srv w2) = refcount (srv w) + 1 ->
     exists t,
       dbus_server_disconnect cfg w
       = Done t tt
           (mkWorld (set_have_server_lock false
                       (set_refcount (refcount (srv w)) (srv w2))) (ext w2))
       /\ calls t = [(f, [], under_lock)])
  /\
  (disconnected (srv w) = true ->
   exists t, dbus_server_disconnect cfg w = Done t tt w /\ calls t = []).
Proof.
  intros Hrc Hlock Hdis under_lock. split.
  - intros Hconn r w2 Hcall Hlock2 Hrc2.
    eexists. split.
    + exact (dbus_server_disconnect_first cfg w f r w2 Hrc Hlock Hdis Hconn
               Hcall Hlock2 Hrc2).
    + destruct (DBUS_HAVE_ATOMIC_INT cfg); reflexivity.
  - intros Hconn. eexists. split.
    + exact (dbus_server_disconnect_again cfg w f Hrc Hlock Hdis Hconn).
    + destruct (DBUS_HAVE_ATOMIC_INT cfg); reflexivity.
Qed.

(** *** Construction *)

Lemma substring_all (s : string) : substring 0 (String.length s) s = s.
Proof. induction s as [|c s IH]; simpl; [reflexivity|rewrite IH; reflexivity]. Qed.

Lemma substring_none (n : nat) (s : string) : substring n 0 s = EmptyString.
Proof.
  revert n. induction s as [|c s IH]; intros [|n]; simpl; try reflexivity. apply IH.
Qed.

Lemma append_assoc (a b c : string) : (a ++ (b ++ c))%string = ((a ++ b) ++ c)%string.
Proof. induction a as [|x a IH]; simpl; [reflexivity|rewrite IH; reflexivity]. Qed.

Lemma append_empty (s : string) : (s ++ "")%string = s.
Proof. induction s as [|c s IH]; simpl; [reflexivity|rewrite IH; reflexivity]. Qed.

(** Inserting a whole string at the end of another appends it. *)
Lemma string_insert_at_end (source dest : string) :
  string_insert source 0 dest (String.length dest) = (dest ++ source)%string.
Proof.
  unfold string_insert.
  rewrite substring_all, Nat.sub_0_r, substring_all, Nat.sub_diag, substring_none,
    append_empty.
  reflexivity.
Qed.

Local Arguments string_insert source start dest insert_at : simpl never.
Local Arguments String.append s1 s2 : simpl never.


(** An execution of [x <- m ;; k x] that returns is an execution of [m]
    that returns followed by one of [k]. *)
Lemma bind_done {S A B : Type} (m : Exec S A) (k : A -> Exec S B)
  (w w' : S) (t : list (Event S)) (b : B) :
  bind m k w = Done t b w' ->
  exists t1 a w1 t2, m w = Done t1 a w1 /\ k a w1 = Done t2 b w' /\ t = t1 ++ t2.
Proof.
  cbn [bind Monad_Exec]. unfold exec_bind.
  destruct (m w) as [t1 a w1|t1 f]; [|discriminate].
  destruct (k a w1) as [t2 b' w2|t2 f] eqn:Hk; cbn; [|discriminate].
  intros Heq. injection Heq as <- <- <-. eauto 8.
Qed.

(** The term an execution is waiting for: the innermost scrutinee. *)
Ltac scrutinee_of t :=
  lazymatch t with
  | match ?x with _ => _ end => scrutinee_of x
  | _ => t
  end.

(** Taking apart an execution that returns, one step at a time. *)
Ltac exec_inv Hrun :=
  lazymatch type of Hrun with
  | Done _ _ _ = Done _ _ _ =>
      first [discriminate Hrun | injection Hrun; clear Hrun; intros; subst]
  | Stuck _ _ = Done _ _ _ => discriminate Hrun
  | bind _ _ _ = Done _ _ _ =>
      let t1 := fresh "t" in
      let a := fresh "a" in
      let w1 := fresh "w" in
      let t2 := fresh "t" in
      let Hm := fresh "Hm" in
      let Hk := fresh "Hk" in
      apply bind_done in Hrun as (t1 & a & w1 & t2 & Hm & Hk & ->);
      exec_inv Hm; cbn beta in Hk; exec_inv Hk
  | ret _ _ = Done _ _ _ => cbn [ret Monad_Exec exec_ret] in Hrun; exec_inv Hrun
  | server_set _ _ = Done _ _ _ => unfold server_set in Hrun; exec_inv Hrun
  | server_get _ _ = Done _ _ _ => unfold server_get in Hrun; exec_inv Hrun
  | emit _ _ = Done _ _ _ => unfold emit in Hrun; exec_inv Hrun
  | stuck _ _ = Done _ _ _ => discriminate Hrun
  | outside ?f ?w = Done _ _ _ =>
      let E := fresh "Hout" in
      unfold outside in Hrun; cbn [ext srv] in Hrun;
      lazymatch type of Hrun with
      | (let (_, _) := ?c in _) = _ => destruct c as [? ?] eqn:E
      end;
      exec_inv Hrun
  | (match ?x with _ => _ end) _ = Done _ _ _ =>
      let y := scrutinee_of x in destruct y; exec_inv Hrun
  | _ => idtac
  end.

Lemma allocations_step (n : nat) (e e' : Ext) :
  allocations (S n) e = Some e' ->
  exists e1, dbus_malloc e = (true, e1) /\ allocations n e1 = Some e'.
Proof.
  cbn [allocations]. destruct (dbus_malloc e) as [[|] e1]; [|discriminate].
  intros Hrest. exists e1. auto.
Qed.

(** With memory for its five requests, [copy_address_with_guid_appended]
    returns the address with the identifier appended. *)
Lemma copy_address_with_guid_appended_succeeds (address guid_hex : string)
  (s : DBusServer) (e e' : Ext) :
  allocations 5 e = Some e' ->
  copy_address_with_guid_appended address guid_hex (mkWorld s e)
  = Done [] (Some (address ++ ",guid=" ++ guid_hex)%string) (mkWorld s e').
Proof.
  intros Hmem.
  apply allocations_step in Hmem as (e1 & H1 & Hmem).
  apply allocations_step in Hmem as (e2 & H2 & Hmem).
  apply allocations_step in Hmem as (e3 & H3 & Hmem).
  apply allocations_step in Hmem as (e4 & H4 & Hmem).
  apply allocations_step in Hmem as (e5 & H5 & Hmem).
  cbn in Hmem. injection Hmem as <-.
  unfold copy_address_with_guid_appended, _dbus_string_init, _dbus_string_copy,
    _dbus_string_append, _dbus_string_steal_data, _dbus_string_get_length.
  cbn. rewrite H1. cbn. rewrite H2. cbn. rewrite H3. cbn. rewrite H4. cbn. rewrite H5. cbn.
  change (string_insert address 0 "" 0)
    with (string_insert address 0 "" (String.length "")).
  rewrite (string_insert_at_end address ""), string_insert_at_end.
  change ("" ++ address)%string with address.
  rewrite <- append_assoc. reflexivity.
Qed.



(** *** What no operation changes *)











Ltac head_of t :=
  lazymatch t with
  | ?f _ => head_of f
  | _ => t
  end.






(** *** More symbolic execution *)

Ltac refcount_facts rc :=
  assert ((0 <? rc) = true) by (apply Z.ltb_lt; lia);
  assert (wrap_int32 (rc + 1) = rc + 1) by (apply wrap_int32_small; lia);
  assert ((0 <? rc + 1) = true) by (apply Z.ltb_lt; lia);
  assert (wrap_int32 (rc + 1 - 1) = rc) by (rewrite wrap_int32_small; lia);
  assert ((rc + 1 =? 1) = false) by (apply Z.eqb_neq; lia);
  assert ((rc =? 0) = false) by (apply Z.eqb_neq; lia).

(** The world of a call, its fields named. *)
Ltac open_server w :=
  destruct w as [[rc vt mx gd gh wls tls adr ncf ncd ncfr am sl dis lk] e];
  cbn in *; subst.

Ltac run_with_facts :=
  repeat (progress (cbn; setters;
                    repeat match goal with
                           | E : _ = _ |- _ => rewrite E
                           end)).

Lemma trace_after {S A : Type} (t : list (Event S)) (r : Run S A) :
  trace (after t r) = t ++ trace r.
Proof. destruct r; reflexivity. Qed.


(** *** Construction and finalization *)

(** X1: [copy_address_with_guid_appended] returns either NULL or the whole
    of [address], [",guid="] and [guid_hex], never a part of it; it
    always returns, calls nothing and leaves the server as it is. *)
Theorem copy_address_with_guid_appended_all_or_nothing (address guid_hex : string)
  (w : World Ext) :
  exists (retval : option string) (e' : Ext),
    copy_address_with_guid_appended address guid_hex w = Done [] retval (mkWorld (srv w) e')
    /\ (retval = None \/ retval = Some (address ++ ",guid=" ++ guid_hex)%string).
Proof.
  destruct w as [s e].
  unfold copy_address_with_guid_appended, _dbus_string_init, _dbus_string_copy,
    _dbus_string_append, _dbus_string_steal_data, _dbus_string_get_length.
  repeat (cbn; branch); cbn; do 2 eexists; (split; [reflexivity|]); auto.
  right.
  change (string_insert address 0 "" 0)
    with (string_insert address 0 "" (String.length "")).
  rewrite (string_insert_at_end address ""), string_insert_at_end.
  change ("" ++ address)%string with address.
  rewrite <- append_assoc. reflexivity.
Qed.

(** Whatever it returns, [copy_address_with_guid_appended] leaves the
    server alone and calls nothing. *)
Lemma copy_address_with_guid_appended_frame (address guid_hex : string)
  (w w' : World Ext) (t : list (Event (World Ext))) (retval : option string) :
  copy_address_with_guid_appended address guid_hex w = Done t retval w' ->
  srv w' = srv w /\ t = [].
Proof.
  destruct w as [s e]. unfold copy_address_with_guid_appended,
    _dbus_string_init, _dbus_string_copy, _dbus_string_append, _dbus_string_steal_data,
    _dbus_string_get_length.
  repeat (cbn; branch); cbn; intros Heq; injection Heq as <- _ <-; auto.
Qed.

(** The label [failed], reached before a timeout list exists: at most
    the watch list is freed, and every pointer field is NULL afterwards. *)
Lemma init_base_failed_result (w w' : World Ext) (t : list (Event (World Ext)))
  (b : bool) :
  (forall args w1 r w2,
      invoke _dbus_watch_list_free args w1 = Some (r, w2) ->
      mutex (srv w2) = mutex (srv w1) /\ timeouts (srv w2) = timeouts (srv w1)) ->
  timeouts (srv w) = None ->
  init_base_failed w = Done t b w' ->
  b = false
  /\ (mutex (srv w') = None
      /\ watches (srv w') = None
      /\ timeouts (srv w') = None
      /\ address (srv w') = None)
  /\ t = match watches (srv w) with
         | Some the_watches =>
             [EvCall _dbus_watch_list_free [the_watches]
                (mkWorld (set_mutex None (srv w)) (ext w))]
         | None => []
         end.
Proof.
  intros Hfree Htimeouts.
  destruct w as [[rc vt mx gd gh wls tls adr ncf ncd ncfr am sl dis lk] e].
  cbn in Htimeouts. subst tls.
  unfold init_base_failed.
  destruct wls as [the_watches|]; cbn.
  - destruct (invoke _ _ _) as [[r w2]|] eqn:Hcall; [|discriminate].
    destruct (Hfree _ _ _ _ Hcall) as [Hmx Htl]. cbn in Hmx, Htl.
    destruct w2 as [[rc2 vt2 mx2 gd2 gh2 wls2 tls2 adr2 ncf2 ncd2 ncfr2 am2 sl2 dis2 lk2] e2].
    cbn in Hmx, Htl. subst mx2 tls2. cbn.
    destruct adr2; cbn; intros Heq; injection Heq as <- <- <-; repeat split.
  - destruct adr; cbn; intros Heq; injection Heq as <- <- <-; repeat split.
Qed.

(** Every run of [_dbus_server_init_base] that returns FALSE. *)
Lemma _dbus_server_init_base_failed_run (the_vtable : DBusServerVTable)
  (the_address : string) (w w' : World Ext) (t : list (Event (World Ext))) :
  mutex (srv w) = None ->
  (forall args w1 r w2,
      invoke _dbus_watch_list_free args w1 = Some (r, w2) ->
      mutex (srv w2) = mutex (srv w1) /\ timeouts (srv w2) = timeouts (srv w1)) ->
  _dbus_server_init_base the_vtable the_address w = Done t false w' ->
  (mutex (srv w') = None
   /\ watches (srv w') = None
   /\ timeouts (srv w') = None
   /\ address (srv w') = None)
  /\ (t = []
      \/ exists the_watches before e,
           t = [EvCall _dbus_watch_list_free [the_watches] before]
           /\ watches (srv before) = Some the_watches
           /\ have_server_lock (srv before) = have_server_lock (srv w)
           /\ _dbus_timeout_list_new e = (None, ext before)).
Proof.
  intros Hmutex Hfree Hrun.
  unfold _dbus_server_init_base, _dbus_string_init, _dbus_uuid_encode in Hrun.
  destruct w as [s e]. cbn in Hmutex.
  exec_inv Hrun;
    try (apply copy_address_with_guid_appended_frame in Hm as [Hsrv ->]).
  all: try match goal with
           | Hfailed : init_base_failed _ = Done _ _ _ |- _ =>
               apply init_base_failed_result in Hfailed as (_ & Hfields & ->);
               [|exact Hfree|cbn; rewrite ?Hsrv; reflexivity]
           end.
  all: (split; [first [exact Hfields|cbn; auto]|]).
  all: cbn; rewrite ?Hsrv; cbn.
  all: first [left; reflexivity
             |right; do 3 eexists; split; [reflexivity|];
              cbn; rewrite ?Hsrv; cbn; repeat split; first [reflexivity|eassumption]].
Qed.

(** The label [failed], reached with a watch list and no timeout list:
    the watch list is freed. *)
Lemma init_base_failed_frees_watches (w : World Ext) (the_watches : Ptr) :
  (forall args w1 r w2,
      invoke _dbus_watch_list_free args w1 = Some (r, w2) ->
      mutex (srv w2) = mutex (srv w1) /\ timeouts (srv w2) = timeouts (srv w1)) ->
  (forall args w1, invoke _dbus_watch_list_free args w1 <> None) ->
  watches (srv w) = Some the_watches ->
  timeouts (srv w) = None ->
  exists w',
    init_base_failed w
    = Done [EvCall _dbus_watch_list_free [the_watches]
              (mkWorld (set_mutex None (srv w)) (ext w))] false w'.
Proof.
  intros Hfree Hreturns Hwatches Htimeouts.
  destruct w as [[rc vt mx gd gh wls tls adr ncf ncd ncfr am sl dis lk] e].
  cbn in Hwatches, Htimeouts. subst wls tls.
  unfold init_base_failed. cbn.
  destruct (invoke _ _ _) as [[r w2]|] eqn:Hcall; [|exact (match Hreturns _ _ Hcall with end)].
  destruct (Hfree _ _ _ _ Hcall) as [_ Htl]. cbn in Htl.
  destruct w2 as [[rc2 vt2 mx2 gd2 gh2 wls2 tls2 adr2 ncf2 ncd2 ncfr2 am2 sl2 dis2 lk2] e2].
  cbn in Htl. subst tls2. cbn.
  destruct adr2; cbn; eexists; reflexivity.
Qed.

(** The run of [_dbus_server_init_base] that cannot allocate the timeout
    list. *)
Lemma _dbus_server_init_base_frees_watches (the_vtable : DBusServerVTable)
  (the_address : string) (w : World Ext) (e1 e2 e3 e4 e5 e6 : Ext)
  (uuid : DBusGUID) (m the_watches : Ptr) :
  (forall args w1 r w2,
      invoke _dbus_watch_list_free args w1 = Some (r, w2) ->
      mutex (srv w2) = mutex (srv w1) /\ timeouts (srv w2) = timeouts (srv w1)) ->
  (forall args w1, invoke _dbus_watch_list_free args w1 <> None) ->
  dbus_malloc (ext w) = (true, e1) ->
  _dbus_generate_uuid e1 = (uuid, e2) ->
  allocations 6 e2 = Some e3 ->
  _dbus_mutex_new e3 = (Some m, e4) ->
  _dbus_watch_list_new e4 = (Some the_watches, e5) ->
  _dbus_timeout_list_new e5 = (None, e6) ->
  exists before w',
    _dbus_server_init_base the_vtable the_address w
    = Done [EvCall _dbus_watch_list_free [the_watches] before] false w'
    /\ watches (srv before) = Some the_watches
    /\ have_server_lock (srv before) = have_server_lock (srv w)
    /\ ext before = e6.
Proof.
  intros Hfree Hreturns Hinit Huuid Hmem Hmutex Hwatches Htimeouts.
  apply allocations_step in Hmem as (e2' & Hencode & Hcopy).
  destruct w as [s e]. cbn in Hinit.
  unfold _dbus_server_init_base, _dbus_string_init, _dbus_uuid_encode.
  cbn -[copy_address_with_guid_appended init_base_failed]. rewrite Hinit.
  cbn -[copy_address_with_guid_appended init_base_failed]. rewrite Huuid.
  cbn -[copy_address_with_guid_appended init_base_failed]. rewrite Hencode.
  cbn -[copy_address_with_guid_appended init_base_failed].
  rewrite (copy_address_with_guid_appended_succeeds the_address _ _ e2' e3 Hcopy).
  cbn -[init_base_failed]. rewrite Hmutex.
  cbn -[init_base_failed]. rewrite Hwatches.
  cbn -[init_base_failed]. rewrite Htimeouts.
  cbn -[init_base_failed].
  match goal with
  | |- context [init_base_failed ?failed] =>
      destruct (init_base_failed_frees_watches failed the_watches Hfree Hreturns
                  eq_refl eq_refl) as [w' Hfailed];
      rewrite Hfailed
  end.
  do 2 eexists. split; [reflexivity|]. repeat split.
Qed.

(** X2: [_dbus_server_init_base] when an allocation fails.  Provided
    [_dbus_watch_list_free] leaves the [mutex] and [timeouts] fields
    alone: every run that returns FALSE on memory whose [mutex] field
    was NULL leaves nothing allocated behind ([mutex], [watches],
    [timeouts] and [address] are all NULL), takes no lock and counts no
    reference, and calls nothing, or calls exactly
    [_dbus_watch_list_free], once, with the watch list it had created
    and in the state in which [_dbus_timeout_list_new] had just returned
    NULL.  And it does make that call: when everything up to the watch
    list is allocated and the timeout list is not, and
    [_dbus_watch_list_free] returns, the constructor returns FALSE after
    that one call. *)
Theorem _dbus_server_init_base_failure (the_vtable : DBusServerVTable)
  (the_address : string) (w : World Ext) :
  (forall args w1 r w2,
      invoke _dbus_watch_list_free args w1 = Some (r, w2) ->
      mutex (srv w2) = mutex (srv w1) /\ timeouts (srv w2) = timeouts (srv w1)) ->
  (forall (t : list (Event (World Ext))) (w' : World Ext),
      mutex (srv w) = None ->
      _dbus_server_init_base the_vtable the_address w = Done t false w' ->
      (mutex (srv w') = None
       /\ watches (srv w') = None
       /\ timeouts (srv w') = None
       /\ address (srv w') = None)
      /\ (t = []
          \/ exists the_watches before e,
               t = [EvCall _dbus_watch_list_free [the_watches] before]
               /\ watches (srv before) = Some the_watches
               /\ have_server_lock (srv before) = have_server_lock (srv w)
               /\ _dbus_timeout_list_new e = (None, ext before)))
  /\
  (forall (e1 e2 e3 e4 e5 e6 : Ext) (uuid : DBusGUID) (m the_watches : Ptr),
      (forall args w1, invoke _dbus_watch_list_free args w1 <> None) ->
      dbus_malloc (ext w) = (true, e1) ->
      _dbus_generate_uuid e1 = (uuid, e2) ->
      allocations 6 e2 = Some e3 ->
      _dbus_mutex_new e3 = (Some m, e4) ->
      _dbus_watch_list_new e4 = (Some the_watches, e5) ->
      _dbus_timeout_list_new e5 = (None, e6) ->
      exists before w',
        _dbus_server_init_base the_vtable the_address w
        = Done [EvCall _dbus_watch_list_free [the_watches] before] false w'
        /\ watches (srv before) = Some the_watches
        /\ have_server_lock (srv before) = have_server_lock (srv w)
        /\ ext before = e6).
Proof.
  intros Hfree. split.
  - intros t w' Hmutex Hrun.
    exact (_dbus_server_init_base_failed_run the_vtable the_address w w' t Hmutex Hfree Hrun).
  - intros e1 e2 e3 e4 e5 e6 uuid m the_watches Hreturns.
    exact (_dbus_server_init_base_frees_watches the_vtable the_address w e1 e2 e3 e4 e5 e6
             uuid m the_watches Hfree Hreturns).
Qed.

(** X3: when [_dbus_server_init_base] returns TRUE, the server has one
    reference, the vtable it was given, a mutex, both registries and an
    address, and an empty slot list.  It does not initialize
    [disconnected], [have_server_lock], the new-connection handler or
    [auth_mechanisms]: they keep what the memory held. *)
Theorem _dbus_server_init_base_initializes (the_vtable : DBusServerVTable)
  (the_address : string) (w w' : World Ext) (t : list (Event (World Ext))) :
  _dbus_server_init_base the_vtable the_address w = Done t true w' ->
  refcount (srv w') = 1
  /\ vtable (srv w') = the_vtable
  /\ (exists m wl tl a,
         mutex (srv w') = Some m /\ watches (srv w') = Some wl
         /\ timeouts (srv w') = Some tl /\ address (srv w') = Some a)
  /\ slot_list (srv w') = []
  /\ disconnected (srv w') = disconnected (srv w)
  /\ have_server_lock (srv w') = have_server_lock (srv w)
  /\ handler (srv w') = handler (srv w)
  /\ auth_mechanisms (srv w') = auth_mechanisms (srv w)
  /\ t = [].
Proof.
  intros Hrun.
  unfold _dbus_server_init_base, init_base_failed, _dbus_string_init, _dbus_uuid_encode
    in Hrun.
  destruct w as [s e].
  exec_inv Hrun.
  apply copy_address_with_guid_appended_frame in Hm as [Hsrv ->].
  destruct w as [sc ec]. cbn in *. subst sc. cbn.
  repeat split. eauto 8.
Qed.

(** One call that returns, in a symbolic execution of
    [_dbus_server_finalize_base]. *)
Ltac returning_call Hquiet :=
  match goal with
  | |- context [invoke ?f ?a ?w] =>
      let r := fresh "r" in
      let w' := fresh "w" in
      let Hcall := fresh "Hcall" in
      let Hview := fresh "Hview" in
      destruct (Hquiet f a w) as (r & w' & Hcall & Hview);
      rewrite Hcall;
      destruct w' as [[? ? ? ? ? ? ? ? ? ? ? ? ? ? ?] ?];
      unfold finalize_view, handler in Hview; cbn in Hview;
      injection Hview as -> -> -> -> -> ->;
      cbn
  end.

(** X4: [_dbus_server_finalize_base].  With assertions compiled in it
    stops at once, before calling anything, on a server that is not
    disconnected or (with checks compiled in) whose lock is held.  On a
    disconnected, unlocked server, when every function called returns
    and leaves the lock flag, the handler and the registries alone, it
    calls, in this order and never with the lock held:
    [_dbus_data_slot_list_free], the free function of the new-connection
    data with that data if there is one, [_dbus_watch_list_free] with the
    watch list and [_dbus_timeout_list_free] with the timeout list; it
    returns with the new-connection handler cleared and the lock free. *)
Theorem _dbus_server_finalize_base_result (cfg : BuildConfig) (w : World Ext) :
  (DBUS_DISABLE_ASSERT cfg = false ->
   disconnected (srv w) = false
   \/ (DBUS_DISABLE_CHECKS cfg = false /\ have_server_lock (srv w) = true) ->
   _dbus_server_finalize_base cfg w = Stuck [] AssertionFailed)
  /\
  (callees_return_to_finalize ->
   have_server_lock (srv w) = false ->
   disconnected (srv w) = true ->
   exists t w',
     _dbus_server_finalize_base cfg w = Done t tt w'
     /\ called t
        = (_dbus_data_slot_list_free, [])
            :: match new_connection_free_data_function (srv w) with
               | Some old_free_function =>
                   [(old_free_function, [new_connection_data (srv w)])]
               | None => []
               end
            ++ [(_dbus_watch_list_free, [ptr_arg (watches (srv w))]);
                (_dbus_timeout_list_free, [ptr_arg (timeouts (srv w))])]
     /\ calls_outside_lock false t = true
     /\ handler (srv w') = (None, 0, None)
     /\ have_server_lock (srv w') = false).
Proof.
  split.
  - intros Hassert Hwhy.
    destruct w as [[rc vt mx gd gh wls tls adr ncf ncd ncfr am sl dis lk] e]. cbn in Hwhy.
    unfold _dbus_server_finalize_base.
    flags cfg; try discriminate Hassert; cbn;
      destruct Hwhy as [Hd|[Hc Hl]]; try discriminate Hc;
      destruct lk, dis; try discriminate; reflexivity.
  - intros Hquiet Hlock Hdis. open_server w.
    unfold _dbus_server_finalize_base, dbus_server_set_new_connection_function.
    destruct ncfr as [old_free_function|]; flags cfg; cbn;
      repeat returning_call Hquiet;
      do 2 eexists; repeat split.
Qed.

(** *** The watch and timeout operations *)

Lemma HAVE_LOCK_CHECK_holds (cfg : BuildConfig) (w : World Ext) :
  have_server_lock (srv w) = true -> HAVE_LOCK_CHECK cfg w = Done [] tt w.
Proof. intros Hlock. open_server w. flags cfg; reflexivity. Qed.

(** X5: the watch operations, called with the lock held.  When the
    watch list is detached, [_dbus_server_add_watch] returns FALSE, and
    [_dbus_server_remove_watch] and [_dbus_server_toggle_watch] return
    without a sign that nothing was done; none calls anything or changes
    the world.  When it is attached, each calls exactly one function,
    its own list function with the list, the watch and (for toggle) the
    flag; add returns what [_dbus_watch_list_add_watch] returned.
    [_dbus_server_toggle_watch] with a NULL watch fails its assertion
    before anything else. *)
Theorem watch_operations (cfg : BuildConfig) (w : World Ext) (watch : Ptr)
  (enabled : bool) :
  have_server_lock (srv w) = true ->
  0 < refcount (srv w) < 2147483647 ->
  (DBUS_DISABLE_ASSERT cfg = false ->
   _dbus_server_toggle_watch cfg None enabled w = Stuck [] AssertionFailed)
  /\
  match watches (srv w) with
  | None =>
      _dbus_server_add_watch cfg watch w = Done [] FALSE w
      /\ _dbus_server_remove_watch cfg watch w = Done [] tt w
      /\ _dbus_server_toggle_watch cfg (Some watch) enabled w = Done [] tt w
  | Some wl =>
      let detached :=
        mkWorld (set_have_server_lock false
                   (set_refcount (refcount (srv w) + 1) (set_watches None (srv w))))
          (ext w) in
      forall (r : Z) (w2 : World Ext),
        have_server_lock (srv w2) = false ->
        refcount (srv w2) = refcount (srv w) + 1 ->
        let reattached :=
          mkWorld (set_refcount (refcount (srv w))
                     (set_watches (Some wl) (set_have_server_lock true (srv w2))))
            (ext w2) in
        (invoke _dbus_watch_list_add_watch [wl; watch] detached = Some (r, w2) ->
         exists t, _dbus_server_add_watch cfg watch w = Done t r reattached
                   /\ called t = [(_dbus_watch_list_add_watch, [wl; watch])])
        /\ (invoke _dbus_watch_list_remove_watch [wl; watch] detached = Some (r, w2) ->
            exists t, _dbus_server_remove_watch cfg watch w = Done t tt reattached
                      /\ called t = [(_dbus_watch_list_remove_watch, [wl; watch])])
        /\ (invoke _dbus_watch_list_toggle_watch [wl; watch; of_bool enabled] detached
            = Some (r, w2) ->
            exists t, _dbus_server_toggle_watch cfg (Some watch) enabled w
                      = Done t tt reattached
                      /\ called t
                         = [(_dbus_watch_list_toggle_watch, [wl; watch; of_bool enabled])])
  end.
Proof.
  intros Hlock Hrc.
  split.
  { intros Hassert. unfold _dbus_server_toggle_watch. cbn. rewrite Hassert. reflexivity. }
  pose proof (HAVE_LOCK_CHECK_holds cfg w Hlock) as Hcheck.
  unfold _dbus_server_add_watch, _dbus_server_remove_watch, _dbus_server_toggle_watch.
  cbn [bind Monad_Exec].
  rewrite (bind_assert_holds cfg true) by reflexivity.
  rewrite !(exec_bind_run _ _ _ _ Hcheck), !after_nil.
  destruct (watches (srv w)) as [wl|] eqn:Hw.
  - intros r w2 Hlock2 Hrc2. repeat split.
    + intros Hcall. eexists. split.
      * exact (protected_change_watch_attached cfg w watch (Some _dbus_watch_list_add_watch)
                 None None false wl _dbus_watch_list_add_watch r w2
                 Hw Hlock Hrc eq_refl Hcall Hlock2 Hrc2).
      * reflexivity.
    + intros Hcall. eexists. split.
      * rewrite (exec_bind_run _ _ _ _
                   (protected_change_watch_attached cfg w watch None
                      (Some _dbus_watch_list_remove_watch) None false wl
                      _dbus_watch_list_remove_watch r w2
                      Hw Hlock Hrc eq_refl Hcall Hlock2 Hrc2)).
        cbn. reflexivity.
      * reflexivity.
    + intros Hcall. eexists. split.
      * rewrite (exec_bind_run _ _ _ _
                   (protected_change_watch_attached cfg w watch None None
                      (Some _dbus_watch_list_toggle_watch) enabled wl
                      _dbus_watch_list_toggle_watch r w2
                      Hw Hlock Hrc eq_refl Hcall Hlock2 Hrc2)).
        cbn. reflexivity.
      * reflexivity.
  - rewrite (protected_change_watch_detached cfg w watch _ _ _ _ Hw Hlock).
    rewrite !(exec_bind_run _ _ _ _
                (protected_change_watch_detached cfg w _ _ _ _ _ Hw Hlock)).
    repeat split.
Qed.

(** X6: the timeout operations, called with the lock held.  When the
    timeout list is detached, [_dbus_server_add_timeout] returns FALSE
    and [_dbus_server_remove_timeout] and [_dbus_server_toggle_timeout]
    return silently, without calling anything or changing the world.
    When it is attached, each calls exactly one function, its own list
    function with the list, the timeout and (for toggle) the flag; add
    returns what [_dbus_timeout_list_add_timeout] returned. *)
Theorem timeout_operations (cfg : BuildConfig) (w : World Ext) (timeout : Ptr)
  (enabled : bool) :
  have_server_lock (srv w) = true ->
  0 < refcount (srv w) < 2147483647 ->
  match timeouts (srv w) with
  | None =>
      _dbus_server_add_timeout cfg timeout w = Done [] FALSE w
      /\ _dbus_server_remove_timeout cfg timeout w = Done [] tt w
      /\ _dbus_server_toggle_timeout cfg timeout enabled w = Done [] tt w
  | Some tl =>
      let detached :=
        mkWorld (set_have_server_lock false
                   (set_refcount (refcount (srv w) + 1) (set_timeouts None (srv w))))
          (ext w) in
      forall (r : Z) (w2 : World Ext),
        have_server_lock (srv w2) = false ->
        refcount (srv w2) = refcount (srv w) + 1 ->
        let reattached :=
          mkWorld (set_refcount (refcount (srv w))
                     (set_timeouts (Some tl) (set_have_server_lock true (srv w2))))
            (ext w2) in
        (invoke _dbus_timeout_list_add_timeout [tl; timeout] detached = Some (r, w2) ->
         exists t, _dbus_server_add_timeout cfg timeout w = Done t r reattached
                   /\ called t = [(_dbus_timeout_list_add_timeout, [tl; timeout])])
        /\ (invoke _dbus_timeout_list_remove_timeout [tl; timeout] detached = Some (r, w2) ->
            exists t, _dbus_server_remove_timeout cfg timeout w = Done t tt reattached
                      /\ called t = [(_dbus_timeout_list_remove_timeout, [tl; timeout])])
        /\ (invoke _dbus_timeout_list_toggle_timeout [tl; timeout; of_bool enabled] detached
            = Some (r, w2) ->
            exists t, _dbus_server_toggle_timeout cfg timeout enabled w
                      = Done t tt reattached
                      /\ called t
                         = [(_dbus_timeout_list_toggle_timeout,
                             [tl; timeout; of_bool enabled])])
  end.
Proof.
  intros Hlock Hrc.
  unfold _dbus_server_add_timeout, _dbus_server_remove_timeout, _dbus_server_toggle_timeout.
  cbn [bind Monad_Exec].
  destruct (timeouts (srv w)) as [tl|] eqn:Hw.
  - intros r w2 Hlock2 Hrc2. repeat split.
    + intros Hcall. eexists. split.
      * exact (protected_change_timeout_attached cfg w timeout
                 (Some _dbus_timeout_list_add_timeout) None None false tl
                 _dbus_timeout_list_add_timeout r w2
                 Hw Hlock Hrc eq_refl Hcall Hlock2 Hrc2).
      * reflexivity.
    + intros Hcall. eexists. split.
      * rewrite (exec_bind_run _ _ _ _
                   (protected_change_timeout_attached cfg w timeout None
                      (Some _dbus_timeout_list_remove_timeout) None false tl
                      _dbus_timeout_list_remove_timeout r w2
                      Hw Hlock Hrc eq_refl Hcall Hlock2 Hrc2)).
        cbn. reflexivity.
      * reflexivity.
    + intros Hcall. eexists. split.
      * rewrite (exec_bind_run _ _ _ _
                   (protected_change_timeout_attached cfg w timeout None None
                      (Some _dbus_timeout_list_toggle_timeout) enabled tl
                      _dbus_timeout_list_toggle_timeout r w2
                      Hw Hlock Hrc eq_refl Hcall Hlock2 Hrc2)).
        cbn. reflexivity.
      * reflexivity.
  - rewrite (protected_change_timeout_detached cfg w timeout _ _ _ _ Hw Hlock).
    rewrite !(exec_bind_run _ _ _ _
                (protected_change_timeout_detached cfg w _ _ _ _ _ Hw Hlock)).
    repeat split.
Qed.

(** *** Reference counting *)

(** X7: taking a reference and dropping it again changes nothing.  On
    a server with a reference count between 1 and [INT32_MAX - 1],
    [dbus_server_ref] followed by [dbus_server_unref] (lock free)
    returns the server and leaves the world exactly as it was, and
    [_dbus_server_ref_unlocked] followed by [_dbus_server_unref_unlocked]
    (lock held) does the same without touching the lock; neither calls
    [finalize], in any build. *)
Theorem dbus_server_ref_unref_round_trip (cfg : BuildConfig) (w : World Ext) :
  0 < refcount (srv w) < 2147483647 ->
  (have_server_lock (srv w) = false ->
   exists t,
     (r <- dbus_server_ref cfg ;; dbus_server_unref cfg ;; ret r) w = Done t true w
     /\ calls t = [])
  /\
  (have_server_lock (srv w) = true ->
   (_dbus_server_ref_unlocked cfg ;; _dbus_server_unref_unlocked cfg) w
   = Done [EvRef (refcount (srv w) + 1); EvUnref (refcount (srv w))] tt w).
Proof.
  intros Hrc. split; intros Hlock.
  - open_server w. refcount_facts rc.
    unfold_refs.
    flags cfg; eexists; (split; [run_with_facts; reflexivity|reflexivity]).
  - open_server w. refcount_facts rc.
    unfold_refs.
    flags cfg; run_with_facts; reflexivity.
Qed.

(** X8: dropping a reference that is not the last one only decrements
    the count.  With more than one reference, [dbus_server_unref] and
    [_dbus_server_unref_unlocked] leave the count one lower and
    everything else as it was, and call nothing, whether the server is
    disconnected or not. *)
Theorem unref_with_references_left (cfg : BuildConfig) (w : World Ext) :
  1 < refcount (srv w) <= 2147483647 ->
  let dropped := mkWorld (set_refcount (refcount (srv w) - 1) (srv w)) (ext w) in
  (have_server_lock (srv w) = false ->
   exists t, dbus_server_unref cfg w = Done t tt dropped /\ calls t = [])
  /\
  (have_server_lock (srv w) = true ->
   _dbus_server_unref_unlocked cfg w = Done [EvUnref (refcount (srv w) - 1)] tt dropped).
Proof.
  intros Hrc dropped. subst dropped. split; intros Hlock.
  - open_server w.
    assert ((0 <? rc) = true) by (apply Z.ltb_lt; lia).
    assert (wrap_int32 (rc - 1) = rc - 1) by (apply wrap_int32_small; lia).
    assert ((rc =? 1) = false) by (apply Z.eqb_neq; lia).
    assert ((rc - 1 =? 0) = false) by (apply Z.eqb_neq; lia).
    unfold_refs.
    flags cfg; eexists; (split; [run_with_facts; reflexivity|reflexivity]).
  - open_server w.
    assert ((0 <? rc) = true) by (apply Z.ltb_lt; lia).
    assert (wrap_int32 (rc - 1) = rc - 1) by (apply wrap_int32_small; lia).
    assert ((rc =? 1) = false) by (apply Z.eqb_neq; lia).
    assert ((rc - 1 =? 0) = false) by (apply Z.eqb_neq; lia).
    unfold_refs.
    flags cfg; run_with_facts; reflexivity.
Qed.

(** X9: with checks compiled in, [dbus_server_ref], [dbus_server_unref]
    and [dbus_server_disconnect] refuse a server whose reference count
    is not positive: they report the failed check and return (NULL for
    [dbus_server_ref]) without taking the lock, calling anything or
    changing the server. *)
Theorem server_without_references_is_refused (cfg : BuildConfig) (w : World Ext) :
  DBUS_DISABLE_CHECKS cfg = false ->
  refcount (srv w) <= 0 ->
  dbus_server_ref cfg w = Done [EvCheckFailed "server->refcount.value > 0"] false w
  /\ dbus_server_unref cfg w = Done [EvCheckFailed "server->refcount.value > 0"] tt w
  /\ dbus_server_disconnect cfg w = Done [EvCheckFailed "server->refcount.value > 0"] tt w.
Proof.
  intros Hchecks Hrc. open_server w.
  assert (E : (0 <? rc) = false) by (apply Z.ltb_ge; exact Hrc).
  unfold dbus_server_ref, dbus_server_unref, dbus_server_disconnect.
  flags cfg; try discriminate Hchecks; cbn; rewrite E; repeat split.
Qed.


(** *** Connected or not *)

Lemma dbus_server_get_is_connected_unlocked (cfg : BuildConfig) (w : World Ext) :
  have_server_lock (srv w) = false ->
  dbus_server_get_is_connected cfg w
  = Done [EvLock; EvUnlock] (negb (disconnected (srv w))) w.
Proof.
  intros Hlock. open_server w. unfold dbus_server_get_is_connected.
  flags cfg; reflexivity.
Qed.

(** X10: [dbus_server_get_is_connected] answers TRUE on a server that
    has not been disconnected and FALSE after [dbus_server_disconnect]
    has returned, provided the transport's [disconnect] returns with the
    lock, the reference count and the [disconnected] flag as it found
    them; asking does not change the world. *)
Theorem connected_until_disconnect (cfg : BuildConfig) (w : World Ext)
  (f : FnPtr) (r : Z) (w2 : World Ext) :
  0 < refcount (srv w) < 2147483647 ->
  have_server_lock (srv w) = false ->
  disconnect (vtable (srv w)) = Some f ->
  disconnected (srv w) = false ->
  let under_lock :=
    mkWorld (set_disconnected true
               (set_refcount (refcount (srv w) + 1)
                  (set_have_server_lock true (srv w)))) (ext w) in
  invoke f [] under_lock = Some (r, w2) ->
  have_server_lock (srv w2) = true ->
  refcount (srv w2) = refcount (srv w) + 1 ->
  disconnected (srv w2) = true ->
  dbus_server_get_is_connected cfg w = Done [EvLock; EvUnlock] true w
  /\ exists t w',
       dbus_server_disconnect cfg w = Done t tt w'
       /\ dbus_server_get_is_connected cfg w' = Done [EvLock; EvUnlock] false w'.
Proof.
  intros Hrc Hlock Hdis Hconn under_lock Hcall Hlock2 Hrc2 Hdis2.
  split.
  - rewrite (dbus_server_get_is_connected_unlocked cfg w Hlock), Hconn. reflexivity.
  - do 2 eexists. split.
    + exact (dbus_server_disconnect_first cfg w f r w2 Hrc Hlock Hdis Hconn
               Hcall Hlock2 Hrc2).
    + rewrite dbus_server_get_is_connected_unlocked by reflexivity.
      cbn. rewrite Hdis2. reflexivity.
Qed.

(** *** What the operations leave as it is *)

Section Preservation.
Variable R : DBusServer -> DBusServer -> Prop.
Hypothesis R_refl : forall s, R s s.
Hypothesis R_trans : forall s1 s2 s3, R s1 s2 -> R s2 s3 -> R s1 s3.

Lemma rel_ret {A : Type} (a : A) : keeps_relation (Ext := Ext) R (ret a).
Proof. intros w t a' w' Hrun. exec_inv Hrun. apply R_refl. Qed.

Lemma rel_bind {A B : Type} (m : Exec (World Ext) A) (k : A -> Exec (World Ext) B) :
  keeps_relation R m -> (forall a, keeps_relation R (k a)) ->
  keeps_relation (Ext := Ext) R (bind m k).
Proof.
  intros Hm Hk w t b w' Hrun.
  apply bind_done in Hrun as (t1 & a & w1 & t2 & H1 & H2 & ->).
  exact (R_trans _ _ _ (Hm w t1 a w1 H1) (Hk a w1 t2 b w' H2)).
Qed.

Lemma rel_server_get {A : Type} (f : DBusServer -> A) :
  keeps_relation (Ext := Ext) R (server_get f).
Proof. intros w t a w' Hrun. exec_inv Hrun. apply R_refl. Qed.

Lemma rel_server_set (f : DBusServer -> DBusServer) :
  (forall s, R s (f s)) -> keeps_relation (Ext := Ext) R (server_set f).
Proof. intros Hf w t a w' Hrun. exec_inv Hrun. apply Hf. Qed.

Lemma rel_emit (e : Event (World Ext)) : keeps_relation (Ext := Ext) R (emit e).
Proof. intros w t a w' Hrun. exec_inv Hrun. apply R_refl. Qed.

Lemma rel_stuck {A : Type} (f : Fault) :
  keeps_relation (Ext := Ext) R (stuck f : Exec (World Ext) A).
Proof. intros w t a w' Hrun. discriminate Hrun. Qed.

Lemma rel_outside {A : Type} (f : Ext -> A * Ext) :
  keeps_relation (Ext := Ext) R (outside f).
Proof. intros w t a w' Hrun. exec_inv Hrun. apply R_refl. Qed.

Lemma rel_assert (cfg : BuildConfig) (condition : bool) :
  keeps_relation (Ext := Ext) R (_dbus_assert cfg condition : Exec (World Ext) unit).
Proof.
  intros w t a w'. unfold _dbus_assert.
  destruct (DBUS_DISABLE_ASSERT cfg); [|destruct condition];
    intros Hrun; exec_inv Hrun; apply R_refl.
Qed.

Lemma rel_return_val_if_fail {A : Type} (cfg : BuildConfig) (condition : bool)
  (what : string) (val : A) (body : Exec (World Ext) A) :
  keeps_relation R body ->
  keeps_relation (Ext := Ext) R (_dbus_return_val_if_fail cfg condition what val body).
Proof.
  intros Hbody. unfold _dbus_return_val_if_fail.
  destruct (DBUS_DISABLE_CHECKS cfg); [exact Hbody|].
  destruct condition; [exact Hbody|].
  apply rel_bind; [apply rel_emit|intros; apply rel_ret].
Qed.

Lemma rel_call_out (f : option FnPtr) (args : list Z) :
  callees_keep R -> keeps_relation (Ext := Ext) R (call_out f args).
Proof.
  intros Hkeep w t a w'. unfold call_out.
  destruct f as [fp|]; [|discriminate].
  destruct (invoke fp args w) as [[r w1]|] eqn:Hcall; [|discriminate].
  intros Hrun. exec_inv Hrun. exact (Hkeep fp args w a w' Hcall).
Qed.

(** A sequence of operations that each keep [R] keeps [R]. *)
Lemma run_calls_keep_relation (cfg : BuildConfig) (allowed : ServerCall -> bool) :
  (forall c, allowed c = true -> keeps_relation R (run_call cfg c)) ->
  forall cs, forallb allowed cs = true -> keeps_relation (Ext := Ext) R (run_calls cfg cs).
Proof.
  intros Hone. induction cs as [|c cs IH]; intros Hall.
  - apply rel_ret.
  - cbn in Hall. apply andb_true_iff in Hall as [Hc Hcs].
    cbn [run_calls]. apply rel_bind; [exact (Hone c Hc)|intros _; exact (IH Hcs)].
Qed.

End Preservation.

(** Follows the structure of a function: every step keeps the relation;
    [step] proves that an assignment does. *)
Ltac preserves Hrefl Htrans Hkeep step :=
  lazymatch goal with
  | |- keeps_relation _ (bind _ _) =>
      apply (rel_bind _ Htrans);
      [preserves Hrefl Htrans Hkeep step | intro; preserves Hrefl Htrans Hkeep step]
  | |- keeps_relation _ (ret _) => apply (rel_ret _ Hrefl)
  | |- keeps_relation _ (server_get _) => apply (rel_server_get _ Hrefl)
  | |- keeps_relation _ (server_set _) => apply rel_server_set; step
  | |- keeps_relation _ (emit _) => apply (rel_emit _ Hrefl)
  | |- keeps_relation _ (stuck _) => apply rel_stuck
  | |- keeps_relation _ (outside _) => apply (rel_outside _ Hrefl)
  | |- keeps_relation _ (call_out _ _) => apply rel_call_out; exact Hkeep
  | |- keeps_relation _ (_dbus_assert _ _) => apply (rel_assert _ Hrefl)
  | |- keeps_relation _ (_dbus_return_val_if_fail _ _ _ _ _) =>
      apply (rel_return_val_if_fail _ Hrefl Htrans); preserves Hrefl Htrans Hkeep step
  | |- keeps_relation _ (match ?x with _ => _ end) =>
      destruct x; preserves Hrefl Htrans Hkeep step
  | |- keeps_relation _ (let _ := _ in _) => cbv zeta; preserves Hrefl Htrans Hkeep step
  | |- keeps_relation _ ?m =>
      let h := head_of m in unfold h; preserves Hrefl Htrans Hkeep step
  end.

Lemma stays_disconnected_refl (s : DBusServer) : stays_disconnected s s.
Proof. intros Hd. exact Hd. Qed.

Lemma stays_disconnected_trans (s1 s2 s3 : DBusServer) :
  stays_disconnected s1 s2 -> stays_disconnected s2 s3 -> stays_disconnected s1 s3.
Proof. unfold stays_disconnected. auto. Qed.

Lemma same_field_refl {A : Type} (field : DBusServer -> A) (s : DBusServer) :
  same_field field s s.
Proof. reflexivity. Qed.

Lemma same_field_trans {A : Type} (field : DBusServer -> A) (s1 s2 s3 : DBusServer) :
  same_field field s1 s2 -> same_field field s2 s3 -> same_field field s1 s3.
Proof. unfold same_field. congruence. Qed.

Lemma run_call_stays_disconnected (cfg : BuildConfig) (c : ServerCall) :
  callees_keep stays_disconnected ->
  keeps_relation (Ext := Ext) stays_disconnected (run_call cfg c).
Proof.
  intros Hkeep.
  destruct c;
    preserves stays_disconnected_refl stays_disconnected_trans Hkeep
      ltac:(intros s Hd; first [exact Hd | reflexivity]).
Qed.

(** X11: no operation of the file reconnects a server.  After any
    sequence of operations on a disconnected server that returns, the
    server is still disconnected and [dbus_server_get_is_connected]
    answers FALSE, as long as the code called out to does not clear the
    flag. *)
Theorem disconnect_is_permanent (cfg : BuildConfig) (cs : list ServerCall)
  (w w' : World Ext) (t : list (Event (World Ext))) :
  callees_keep stays_disconnected ->
  disconnected (srv w) = true ->
  run_calls cfg cs w = Done t tt w' ->
  disconnected (srv w') = true
  /\ (have_server_lock (srv w') = false ->
      dbus_server_get_is_connected cfg w' = Done [EvLock; EvUnlock] false w').
Proof.
  intros Hkeep Hd Hrun.
  assert (Hd' : disconnected (srv w') = true).
  { refine (run_calls_keep_relation stays_disconnected stays_disconnected_refl
              stays_disconnected_trans cfg (fun _ => true) _ cs _ w t tt w' Hrun Hd).
    - intros c _. apply run_call_stays_disconnected. exact Hkeep.
    - clear. induction cs; [reflexivity|assumption]. }
  split; [exact Hd'|].
  intros Hlock.
  rewrite (dbus_server_get_is_connected_unlocked cfg w' Hlock), Hd'. reflexivity.
Qed.

Lemma run_call_same_field {A : Type} (field : DBusServer -> A) (cfg : BuildConfig)
  (writes : ServerCall -> bool) (c : ServerCall) :
  (forall v s, field (set_refcount v s) = field s) ->
  (forall v s, field (set_watches v s) = field s) ->
  (forall v s, field (set_timeouts v s) = field s) ->
  (forall v s, field (set_have_server_lock v s) = field s) ->
  (forall v s, writes call_dbus_server_disconnect = false ->
               field (set_disconnected v s) = field s) ->
  (forall m v s, writes (call_dbus_server_set_auth_mechanisms m) = false ->
                 field (set_auth_mechanisms v s) = field s) ->
  (forall f d fr v s, writes (call_dbus_server_set_new_connection_function f d fr) = false ->
                      field (set_new_connection_function v s) = field s) ->
  (forall f d fr v s, writes (call_dbus_server_set_new_connection_function f d fr) = false ->
                      field (set_new_connection_data v s) = field s) ->
  (forall f d fr v s, writes (call_dbus_server_set_new_connection_function f d fr) = false ->
                      field (set_new_connection_free_data_function v s) = field s) ->
  (forall slot d fr v s, writes (call_dbus_server_set_data slot d fr) = false ->
                         field (set_slot_list v s) = field s) ->
  callees_keep (same_field field) ->
  writes c = false ->
  keeps_relation (Ext := Ext) (same_field field) (run_call cfg c).
Proof.
  intros Hrc Hwl Htl Hlk Hdis Ham Hf Hd Hfr Hsl Hkeep Hc.
  destruct c;
    preserves (same_field_refl field) (same_field_trans field) Hkeep
      ltac:(intros s; unfold same_field;
            first [ apply Hrc | apply Hwl | apply Htl | apply Hlk
                  | apply Hdis; exact Hc
                  | eapply Ham; exact Hc
                  | eapply Hf; exact Hc
                  | eapply Hd; exact Hc
                  | eapply Hfr; exact Hc
                  | eapply Hsl; exact Hc ]).
Qed.

Ltac field_facts := intros; first [reflexivity | discriminate].

(** X12: after construction each of these fields is written by one
    operation only.  Over any sequence of operations that returns,
    [vtable] and [mutex] keep their values; [disconnected] keeps its
    value unless [dbus_server_disconnect] is among them;
    [auth_mechanisms] unless [dbus_server_set_auth_mechanisms] is; the
    new-connection handler unless
    [dbus_server_set_new_connection_function] is; the slot list unless
    [dbus_server_set_data] is; each as long as the code called out to
    leaves the field alone. *)
Theorem fields_have_one_writer (cfg : BuildConfig) (cs : list ServerCall)
  (w w' : World Ext) (t : list (Event (World Ext))) :
  run_calls cfg cs w = Done t tt w' ->
  (callees_keep (same_field vtable) -> vtable (srv w') = vtable (srv w))
  /\ (callees_keep (same_field mutex) -> mutex (srv w') = mutex (srv w))
  /\ (callees_keep (same_field disconnected) ->
      forallb (fun c => negb (writes_disconnected c)) cs = true ->
      disconnected (srv w') = disconnected (srv w))
  /\ (callees_keep (same_field auth_mechanisms) ->
      forallb (fun c => negb (writes_auth_mechanisms c)) cs = true ->
      auth_mechanisms (srv w') = auth_mechanisms (srv w))
  /\ (callees_keep (same_field handler) ->
      forallb (fun c => negb (writes_handler c)) cs = true ->
      handler (srv w') = handler (srv w))
  /\ (callees_keep (same_field slot_list) ->
      forallb (fun c => negb (writes_slot_list c)) cs = true ->
      slot_list (srv w') = slot_list (srv w)).
Proof.
  intros Hrun.
  assert (Hall : forallb (fun _ : ServerCall => negb false) cs = true).
  { clear. induction cs; [reflexivity|assumption]. }
  repeat split.
  - intros Hkeep.
    refine (run_calls_keep_relation _ (same_field_refl vtable) (same_field_trans vtable)
              cfg (fun c => negb false) _ cs Hall w t tt w' Hrun).
    intros c _.
    apply (run_call_same_field vtable cfg (fun _ => false)); try exact Hkeep; field_facts.
  - intros Hkeep.
    refine (run_calls_keep_relation _ (same_field_refl mutex) (same_field_trans mutex)
              cfg (fun c => negb false) _ cs Hall w t tt w' Hrun).
    intros c _.
    apply (run_call_same_field mutex cfg (fun _ => false)); try exact Hkeep; field_facts.
  - intros Hkeep Hcs.
    refine (run_calls_keep_relation _ (same_field_refl disconnected)
              (same_field_trans disconnected)
              cfg (fun c => negb (writes_disconnected c)) _ cs Hcs w t tt w' Hrun).
    intros c Hc. apply negb_true_iff in Hc.
    apply (run_call_same_field disconnected cfg writes_disconnected);
      try exact Hkeep; try exact Hc; field_facts.
  - intros Hkeep Hcs.
    refine (run_calls_keep_relation _ (same_field_refl auth_mechanisms)
              (same_field_trans auth_mechanisms)
              cfg (fun c => negb (writes_auth_mechanisms c)) _ cs Hcs w t tt w' Hrun).
    intros c Hc. apply negb_true_iff in Hc.
    apply (run_call_same_field auth_mechanisms cfg writes_auth_mechanisms);
      try exact Hkeep; try exact Hc; field_facts.
  - intros Hkeep Hcs.
    refine (run_calls_keep_relation _ (same_field_refl handler) (same_field_trans handler)
              cfg (fun c => negb (writes_handler c)) _ cs Hcs w t tt w' Hrun).
    intros c Hc. apply negb_true_iff in Hc.
    apply (run_call_same_field handler cfg writes_handler);
      try exact Hkeep; try exact Hc; field_facts.
  - intros Hkeep Hcs.
    refine (run_calls_keep_relation _ (same_field_refl slot_list) (same_field_trans slot_list)
              cfg (fun c => negb (writes_slot_list c)) _ cs Hcs w t tt w' Hrun).
    intros c Hc. apply negb_true_iff in Hc.
    apply (run_call_same_field slot_list cfg writes_slot_list);
      try exact Hkeep; try exact Hc; field_facts.
Qed.

(** *** From state to state: one field through a function *)

Section FieldGoes.
Context {B : Type}.
Variable field : DBusServer -> B.

Lemma field_ret {A : Type} (p : B) (a : A) : field_goes (Ext := Ext) field p p (ret a).
Proof. intros w t a' w' Hp Hrun. exec_inv Hrun. reflexivity. Qed.

Lemma field_bind {A C : Type} (p q r : B)
  (m : Exec (World Ext) A) (k : A -> Exec (World Ext) C) :
  field_goes field p q m -> (forall a, field_goes field q r (k a)) ->
  field_goes (Ext := Ext) field p r (bind m k).
Proof.
  intros Hm Hk w t b w' Hp Hrun.
  apply bind_done in Hrun as (t1 & a & w1 & t2 & H1 & H2 & ->).
  exact (Hk a w1 t2 b w' (Hm w t1 a w1 Hp H1) H2).
Qed.

(** Reading the field gives the value it is known to have. *)
Lemma field_bind_get {C : Type} (p r : B) (k : B -> Exec (World Ext) C) :
  field_goes field p r (k p) ->
  field_goes (Ext := Ext) field p r (bind (server_get field) k).
Proof.
  intros Hk w t b w' Hp Hrun.
  apply bind_done in Hrun as (t1 & a & w1 & t2 & H1 & H2 & ->).
  exec_inv H1. exact (Hk w1 t2 b w' eq_refl H2).
Qed.

Lemma field_server_get {A : Type} (p : B) (f : DBusServer -> A) :
  field_goes (Ext := Ext) field p p (server_get f).
Proof. intros w t a w' Hp Hrun. exec_inv Hrun. reflexivity. Qed.

Lemma field_server_set_other (p : B) (f : DBusServer -> DBusServer) :
  (forall s, field (f s) = field s) ->
  field_goes (Ext := Ext) field p p (server_set f).
Proof. intros Hf w t a w' Hp Hrun. exec_inv Hrun. cbn. apply Hf. Qed.

Lemma field_server_set_this (p v : B) (f : DBusServer -> DBusServer) :
  (forall s, field (f s) = v) ->
  field_goes (Ext := Ext) field p v (server_set f).
Proof. intros Hf w t a w' Hp Hrun. exec_inv Hrun. cbn. apply Hf. Qed.

Lemma field_emit (p : B) (e : Event (World Ext)) :
  field_goes (Ext := Ext) field p p (emit e).
Proof. intros w t a w' Hp Hrun. exec_inv Hrun. reflexivity. Qed.

Lemma field_stuck {A : Type} (p q : B) (f : Fault) :
  field_goes (Ext := Ext) field p q (stuck f : Exec (World Ext) A).
Proof. intros w t a w' Hp Hrun. discriminate Hrun. Qed.

Lemma field_outside {A : Type} (p : B) (f : Ext -> A * Ext) :
  field_goes (Ext := Ext) field p p (outside f).
Proof. intros w t a w' Hp Hrun. exec_inv Hrun. reflexivity. Qed.

Lemma field_assert (cfg : BuildConfig) (p : B) (condition : bool) :
  field_goes (Ext := Ext) field p p (_dbus_assert cfg condition : Exec (World Ext) unit).
Proof.
  intros w t a w' Hp. unfold _dbus_assert.
  destruct (DBUS_DISABLE_ASSERT cfg); [|destruct condition];
    intros Hrun; exec_inv Hrun; reflexivity.
Qed.

Lemma field_return_val_if_fail {A : Type} (cfg : BuildConfig) (p : B) (condition : bool)
  (what : string) (val : A) (body : Exec (World Ext) A) :
  field_goes field p p body ->
  field_goes (Ext := Ext) field p p (_dbus_return_val_if_fail cfg condition what val body).
Proof.
  intros Hbody. unfold _dbus_return_val_if_fail.
  destruct (DBUS_DISABLE_CHECKS cfg); [exact Hbody|].
  destruct condition; [exact Hbody|].
  eapply field_bind; [apply field_emit|intros; apply field_ret].
Qed.

Lemma field_call_out (p : B) (f : option FnPtr) (args : list Z) :
  callees_keep (same_field field) ->
  field_goes (Ext := Ext) field p p (call_out f args).
Proof.
  intros Hkeep w t a w' Hp. unfold call_out.
  destruct f as [fp|]; [|discriminate].
  destruct (invoke fp args w) as [[r w1]|] eqn:Hcall; [|discriminate].
  intros Hrun. exec_inv Hrun. exact (Hkeep fp args w a w' Hcall).
Qed.

(** A sequence of operations that each leave the field where it was. *)
Lemma run_calls_field (cfg : BuildConfig) (allowed : ServerCall -> bool) (p : B) :
  (forall c, allowed c = true -> field_goes field p p (run_call cfg c)) ->
  forall cs, forallb allowed cs = true ->
             field_goes (Ext := Ext) field p p (run_calls cfg cs).
Proof.
  intros Hone. induction cs as [|c cs IH]; intros Hall.
  - apply field_ret.
  - cbn in Hall. apply andb_true_iff in Hall as [Hc Hcs].
    cbn [run_calls]. eapply field_bind; [exact (Hone c Hc)|intros _; exact (IH Hcs)].
Qed.

End FieldGoes.

(** Follows the structure of a function from the value of the field
    before it to the value after it; [special] is tried first at every
    step. *)
Ltac field_steps Hkeep special :=
  cbv beta iota;
  first
    [ special
    | lazymatch goal with
      | |- field_goes _ _ _ (bind (server_get _) _) =>
          first
            [ apply field_bind_get; field_steps Hkeep special
            | eapply field_bind;
              [apply field_server_get | intro; field_steps Hkeep special] ]
      | |- field_goes _ _ _ (bind _ _) =>
          eapply field_bind; [field_steps Hkeep special | intro; field_steps Hkeep special]
      | |- field_goes _ _ _ (ret _) => apply field_ret
      | |- field_goes _ _ _ (server_get _) => apply field_server_get
      | |- field_goes _ _ _ (server_set _) =>
          first [ apply field_server_set_other; intro; reflexivity
                | apply field_server_set_this; intro; cbv -[wrap_int32 Z.add Z.sub]; reflexivity ]
      | |- field_goes _ _ _ (emit _) => apply field_emit
      | |- field_goes _ _ _ (stuck _) => apply field_stuck
      | |- field_goes _ _ _ (outside _) => apply field_outside
      | |- field_goes _ _ _ (call_out _ _) => apply field_call_out; exact Hkeep
      | |- field_goes _ _ _ (_dbus_assert _ _) => apply field_assert
      | |- field_goes _ _ _ (_dbus_return_val_if_fail _ _ _ _ _) =>
          apply field_return_val_if_fail; field_steps Hkeep special
      | |- field_goes _ _ _ (match ?x with _ => _ end) =>
          destruct x; field_steps Hkeep special
      | |- field_goes _ _ _ (let _ := _ in _) => cbv zeta; field_steps Hkeep special
      | |- field_goes _ _ _ ?m =>
          let h := head_of m in unfold h; field_steps Hkeep special
      end ].

(** *** The lock *)

Lemma run_call_releases_lock (cfg : BuildConfig) (c : ServerCall) :
  callees_keep (same_field have_server_lock) ->
  releases_lock c = true ->
  field_goes (Ext := Ext) have_server_lock false false (run_call cfg c).
Proof.
  intros Hkeep Hc.
  destruct c; try discriminate Hc; field_steps Hkeep fail.
Qed.

(** X13: the public operations other than
    [dbus_server_set_auth_mechanisms] release the lock on every path.
    After any sequence of [dbus_server_ref], [dbus_server_unref],
    [dbus_server_disconnect], [dbus_server_get_is_connected],
    [dbus_server_get_address], [dbus_server_set_new_connection_function],
    [dbus_server_set_watch_functions], [dbus_server_set_timeout_functions],
    [dbus_server_set_data] and [dbus_server_get_data] that starts with the
    lock free and returns, the lock is free, in every build, as long as
    the code called out to returns with the lock as it found it. *)
Theorem public_operations_release_the_lock (cfg : BuildConfig) (cs : list ServerCall)
  (w w' : World Ext) (t : list (Event (World Ext))) :
  callees_keep (same_field have_server_lock) ->
  forallb releases_lock cs = true ->
  have_server_lock (srv w) = false ->
  run_calls cfg cs w = Done t tt w' ->
  have_server_lock (srv w') = false.
Proof.
  intros Hkeep Hcs Hlock Hrun.
  refine (run_calls_field have_server_lock cfg releases_lock false _ cs Hcs
            w t tt w' Hlock Hrun).
  intros c Hc. apply run_call_releases_lock; assumption.
Qed.

(** *** Calls under the lock *)

Lemma run_call_calls_unlocked (cfg : BuildConfig) (c : ServerCall) (w : World Ext) :
  writes_disconnected c = false ->
  have_server_lock (srv w) = called_with_lock c ->
  calls_outside_lock (have_server_lock (srv w)) (trace (run_call cfg c w)) = true.
Proof.
  intros Hc Hlock. destruct w as [s e]; destruct s. cbn in Hlock. subst.
  destruct c; try discriminate Hc; cbn [called_with_lock run_call];
    unfold dbus_server_get_is_connected, dbus_server_get_address, _dbus_strdup,
      dbus_server_set_new_connection_function, dbus_server_set_watch_functions,
      dbus_server_set_timeout_functions, dbus_server_set_auth_mechanisms,
      _dbus_dup_string_array, dbus_server_set_data, dbus_server_get_data,
      _dbus_server_add_watch, _dbus_server_remove_watch, _dbus_server_toggle_watch,
      _dbus_server_add_timeout, _dbus_server_remove_timeout, _dbus_server_toggle_timeout,
      protected_change_watch, protected_change_timeout;
    unfold_refs; flags cfg; crunch.
Qed.

(** X24: the only call the file makes with the lock held is the call of
    the transport's [disconnect].  Every other operation, started in the
    lock state it is meant for (held for the [_unlocked] functions and
    the watch and timeout operations, free for the public ones), makes
    each of its calls between an unlock and the next lock, in a state
    whose lock flag is clear, whatever the code called does.
    [dbus_server_disconnect] on a connected server calls the vtable's
    [disconnect] after taking the lock and a reference and before
    releasing either. *)
Theorem only_disconnect_calls_under_the_lock (cfg : BuildConfig) (w : World Ext) :
  (forall c,
      writes_disconnected c = false ->
      have_server_lock (srv w) = called_with_lock c ->
      calls_outside_lock (have_server_lock (srv w)) (trace (run_call cfg c w)) = true)
  /\
  (forall f,
      0 < refcount (srv w) < 2147483647 ->
      have_server_lock (srv w) = false ->
      disconnect (vtable (srv w)) = Some f ->
      disconnected (srv w) = false ->
      calls_outside_lock false (trace (dbus_server_disconnect cfg w)) = false
      /\ exists t',
           trace (dbus_server_disconnect cfg w)
           = [EvLock; EvRef (refcount (srv w) + 1);
              EvCall f []
                (mkWorld (set_disconnected true
                            (set_refcount (refcount (srv w) + 1)
                               (set_have_server_lock true (srv w)))) (ext w))]
             ++ t').
Proof.
  split.
  - intros c. apply run_call_calls_unlocked.
  - intros f Hrc Hlock Hdis Hconn.
    open_server w. destruct vt as [fin dis']. cbn in *. subst.
    refcount_facts rc.
    unfold dbus_server_disconnect; unfold_refs.
    flags cfg; run_with_facts;
      destruct (invoke f [] _) as [[r w']|]; repeat (rewrite trace_after; cbn);
      (split; [reflexivity|eexists; reflexivity]).
Qed.

(** *** The reference count over the other operations *)

Section CountKept.
Variable cfg : BuildConfig.
Variable n : Z.
Hypothesis n_live : 0 < n < 2147483647.

Lemma count__dbus_server_ref_unlocked :
  field_goes (Ext := Ext) refcount n (n + 1) (_dbus_server_ref_unlocked cfg).
Proof.
  assert (E : wrap_int32 (n + 1) = n + 1) by (apply wrap_int32_small; lia).
  intros w t a w' Hn. open_server w.
  unfold _dbus_server_ref_unlocked, refcount_inc, _dbus_atomic_inc.
  flags cfg; repeat (cbn; branch); cbn; intros Hrun; exec_inv Hrun; exact E.
Qed.

Lemma count__dbus_server_unref_unlocked :
  field_goes (Ext := Ext) refcount (n + 1) n (_dbus_server_unref_unlocked cfg).
Proof.
  assert (E1 : wrap_int32 (n + 1 - 1) = n) by (rewrite wrap_int32_small; lia).
  assert (E2 : (n + 1 =? 1) = false) by (apply Z.eqb_neq; lia).
  assert (E3 : (n =? 0) = false) by (apply Z.eqb_neq; lia).
  intros w t a w' Hn. open_server w.
  unfold _dbus_server_unref_unlocked, refcount_dec, _dbus_atomic_dec.
  flags cfg; repeat (cbn; rewrite ?E1, ?E2, ?E3; try branch); cbn;
    intros Hrun; exec_inv Hrun; reflexivity.
Qed.

Lemma count_dbus_server_unref :
  field_goes (Ext := Ext) refcount (n + 1) n (dbus_server_unref cfg).
Proof.
  assert (E1 : wrap_int32 (n + 1 - 1) = n) by (rewrite wrap_int32_small; lia).
  assert (E2 : (n + 1 =? 1) = false) by (apply Z.eqb_neq; lia).
  assert (E3 : (n =? 0) = false) by (apply Z.eqb_neq; lia).
  assert (E4 : (0 <? n + 1) = true) by (apply Z.ltb_lt; lia).
  intros w t a w' Hn. open_server w.
  unfold dbus_server_unref, refcount_dec, _dbus_atomic_dec.
  flags cfg; repeat (cbn; rewrite ?E1, ?E2, ?E3, ?E4; try branch); cbn;
    intros Hrun; exec_inv Hrun; reflexivity.
Qed.

End CountKept.

(** The steps that take a reference or drop one. *)
Ltac count_special Hlive :=
  first [ apply count__dbus_server_ref_unlocked; exact Hlive
        | apply count__dbus_server_unref_unlocked; exact Hlive
        | apply count_dbus_server_unref; exact Hlive ].

Lemma run_call_keeps_count (cfg : BuildConfig) (c : ServerCall) (n : Z) :
  0 < n < 2147483647 ->
  callees_keep (same_field refcount) ->
  counts_references c = false ->
  field_goes (Ext := Ext) refcount n n (run_call cfg c).
Proof.
  intros Hlive Hkeep Hc.
  destruct c; try discriminate Hc; field_steps Hkeep ltac:(count_special Hlive).
Qed.

(** X25: only the four reference-counting functions change the
    reference count.  Over any sequence of the other operations on a
    server with a count between 1 and [INT32_MAX - 1] that returns, the
    count ends where it started: [dbus_server_disconnect] and the watch
    and timeout operations take a reference and drop it again, and the
    rest never touch the count; this holds in every build, as long as
    the code called out to leaves the count as it found it. *)
Theorem only_ref_and_unref_change_the_count (cfg : BuildConfig) (cs : list ServerCall)
  (w w' : World Ext) (t : list (Event (World Ext))) :
  0 < refcount (srv w) < 2147483647 ->
  callees_keep (same_field refcount) ->
  forallb (fun c => negb (counts_references c)) cs = true ->
  run_calls cfg cs w = Done t tt w' ->
  refcount (srv w') = refcount (srv w).
Proof.
  intros Hlive Hkeep Hcs Hrun.
  refine (run_calls_field refcount cfg (fun c => negb (counts_references c))
            (refcount (srv w)) _ cs Hcs w t tt w' eq_refl Hrun).
  intros c Hc. apply negb_true_iff in Hc.
  apply run_call_keeps_count; assumption.
Qed.

(** *** The registries over all operations *)

Lemma run_call_keeps_watches (cfg : BuildConfig) (c : ServerCall) (p : option Ptr) :
  callees_keep (same_field watches) ->
  field_goes (Ext := Ext) watches p p (run_call cfg c).
Proof.
  intros Hkeep. destruct c; field_steps Hkeep fail.
Qed.

Lemma run_call_keeps_timeouts (cfg : BuildConfig) (c : ServerCall) (p : option Ptr) :
  callees_keep (same_field timeouts) ->
  field_goes (Ext := Ext) timeouts p p (run_call cfg c).
Proof.
  intros Hkeep. destruct c; field_steps Hkeep fail.
Qed.

(** X26: every operation returns with the registries it found.  Over any
    sequence of operations that returns, [watches] and [timeouts] hold
    the lists they held at the start: the operations that detach a list
    to call out put the same list back before they return, as long as
    the code called out to leaves the field as it found it (NULL, while
    the list is detached). *)
Theorem registries_are_put_back (cfg : BuildConfig) (cs : list ServerCall)
  (w w' : World Ext) (t : list (Event (World Ext))) :
  run_calls cfg cs w = Done t tt w' ->
  (callees_keep (same_field watches) -> watches (srv w') = watches (srv w))
  /\ (callees_keep (same_field timeouts) -> timeouts (srv w') = timeouts (srv w)).
Proof.
  intros Hrun.
  assert (Hall : forallb (fun _ : ServerCall => true) cs = true).
  { clear. induction cs; [reflexivity|assumption]. }
  split; intros Hkeep.
  - refine (run_calls_field watches cfg (fun _ => true) (watches (srv w)) _ cs Hall
              w t tt w' eq_refl Hrun).
    intros c _. apply run_call_keeps_watches. exact Hkeep.
  - refine (run_calls_field timeouts cfg (fun _ => true) (timeouts (srv w)) _ cs Hall
              w t tt w' eq_refl Hrun).
    intros c _. apply run_call_keeps_timeouts. exact Hkeep.
Qed.

(** *** Handler, data slots, mechanisms *)


(** X15: [dbus_server_set_data].  When [_dbus_data_slot_list_set] fails,
    the function returns FALSE, calls nothing and leaves the server as it
    was.  When it succeeds, the function returns TRUE with the slot list
    updated, and the destructor of the value that was in the slot, if
    there is one, is called once on that value, after the lock has been
    released. *)
Theorem dbus_server_set_data_result (cfg : BuildConfig) (w : World Ext)
  (slot : Z) (data : Ptr) (free_data_func : option FnPtr)
  (r : option (DBusDataSlotList * option FnPtr * Ptr)) (e' : Ext) :
  have_server_lock (srv w) = false ->
  _dbus_data_slot_list_set (slot_list (srv w)) slot data free_data_func (ext w) = (r, e') ->
  dbus_server_set_data cfg slot data free_data_func w
  = match r with
    | None => Done [EvLock; EvUnlock] false (mkWorld (srv w) e')
    | Some (slots, None, _) =>
        Done [EvLock; EvUnlock] true (mkWorld (set_slot_list slots (srv w)) e')
    | Some (slots, Some old_free_func, old_data) =>
        let stored := mkWorld (set_slot_list slots (srv w)) e' in
        match invoke old_free_func [old_data] stored with
        | Some (_, w') =>
            Done [EvLock; EvUnlock; EvCall old_free_func [old_data] stored] true w'
        | None =>
            Stuck [EvLock; EvUnlock; EvCall old_free_func [old_data] stored] NoReturn
        end
    end.
Proof.
  intros Hlock Hset. open_server w.
  unfold dbus_server_set_data.
  flags cfg; cbn; rewrite Hset; destruct r as [[[slots [f|]] old_data]|]; cbn; setters;
    try (destruct (invoke f [old_data] _) as [[r' w']|]); reflexivity.
Qed.

(** X16: what [dbus_server_set_data] stores in a slot,
    [dbus_server_get_data] returns: after a successful store that
    replaced no destructor, reading the same slot gives the data back,
    provided [_dbus_data_slot_list_get] finds what
    [_dbus_data_slot_list_set] stored; both take and release the lock. *)
Theorem dbus_server_set_data_get_data (cfg : BuildConfig) (w : World Ext)
  (slot : Z) (data : Ptr) (free_data_func : option FnPtr)
  (slots : DBusDataSlotList) (old_data : Ptr) (e' : Ext) :
  have_server_lock (srv w) = false ->
  _dbus_data_slot_list_set (slot_list (srv w)) slot data free_data_func (ext w)
  = (Some (slots, None, old_data), e') ->
  _dbus_data_slot_list_get slots slot e' = data ->
  (stored <- dbus_server_set_data cfg slot data free_data_func ;;
   res <- dbus_server_get_data cfg slot ;;
   ret (stored, res)) w
  = Done [EvLock; EvUnlock; EvLock; EvUnlock] (true, data)
      (mkWorld (set_slot_list slots (srv w)) e').
Proof.
  intros Hlock Hset Hget. open_server w.
  unfold dbus_server_set_data, dbus_server_get_data.
  flags cfg; cbn; rewrite Hset; cbn; setters; reflexivity.
Qed.

(** X17: when memory is available, [dbus_server_set_auth_mechanisms]
    replaces the list of mechanisms by a copy of the one given (NULL for
    all mechanisms), returns TRUE and releases the lock; of two calls in
    a row only the second list remains. *)
Theorem dbus_server_set_auth_mechanisms_last_wins (cfg : BuildConfig) (w : World Ext)
  (first second : option (list string)) (e1 e2 : Ext) :
  have_server_lock (srv w) = false ->
  match first with
  | Some _ => dbus_malloc (ext w) = (true, e1)
  | None => e1 = ext w
  end ->
  match second with
  | Some _ => dbus_malloc e1 = (true, e2)
  | None => e2 = e1
  end ->
  dbus_server_set_auth_mechanisms cfg first w
  = Done [EvLock; EvUnlock] true (mkWorld (set_auth_mechanisms first (srv w)) e1)
  /\ (dbus_server_set_auth_mechanisms cfg first ;;
      dbus_server_set_auth_mechanisms cfg second) w
     = Done [EvLock; EvUnlock; EvLock; EvUnlock] true
         (mkWorld (set_auth_mechanisms second (srv w)) e2).
Proof.
  intros Hlock H1 H2.
  pose proof (dbus_server_set_auth_mechanisms_installs cfg w first e1 Hlock H1) as Hfirst.
  split; [exact Hfirst|].
  cbn [bind Monad_Exec]. rewrite (exec_bind_run _ _ _ _ Hfirst).
  rewrite (dbus_server_set_auth_mechanisms_installs cfg _ second e2);
    [|open_server w; reflexivity|exact H2].
  open_server w. reflexivity.
Qed.

End ServerProperties.

(** ** [dbus_server_listen]: every run *)

Section ListenRuns.
Variable cfg : BuildConfig.
Context {Ext : Type} `{Transports Ext}.

Lemma listen_attempt_trace (j : nat) (func : ListenFunc Ext) (entry : DBusAddressEntry)
  (l : ListenFrame) (w : Ext) :
  trace (listen_attempt cfg j func entry l w) = [EvListen j entry].
Proof.
  unfold listen_attempt, call_listen_func, _DBUS_ASSERT_ERROR_IS_CLEAR,
    _DBUS_ASSERT_ERROR_IS_SET.
  cbn. destruct (func entry w) as [r w1].
  destruct l as [s e f h].
  destruct r, (DBUS_DISABLE_ASSERT cfg), s, e as [[?|]|], f; reflexivity.
Qed.

Lemma try_attempts_trace (atts : list (Attempt Ext)) :
  forall (l : ListenFrame) (w : Ext),
    exists rest, listen_events atts = trace (try_attempts cfg atts l w) ++ rest.
Proof.
  induction atts as [|[[j func] entry] atts IH]; intros l w.
  - exists []. reflexivity.
  - cbn [try_attempts bind Monad_Exec listen_events map fst snd]. unfold exec_bind.
    pose proof (listen_attempt_trace j func entry l w) as Hstep.
    destruct (listen_attempt cfg j func entry l w) as [t1 [[|] l1] w1|t1 f];
      cbn [trace] in Hstep; subst t1.
    + destruct (IH l1 w1) as [rest Hrest].
      exists rest. rewrite trace_after. cbn [app]. f_equal. exact Hrest.
    + exists (listen_events atts). reflexivity.
    + exists (listen_events atts). reflexivity.
Qed.

Lemma listen_out_trace (a : string) (entries : list DBusAddressEntry) (l : ListenFrame)
  (w : Ext) :
  trace (listen_out cfg a entries l w) = [].
Proof.
  unfold listen_out, _DBUS_ASSERT_ERROR_IS_CLEAR, _DBUS_ASSERT_ERROR_IS_SET.
  destruct l as [s e f h].
  destruct (DBUS_DISABLE_ASSERT cfg) eqn:Hassert, s, e as [[?|]|], f, h, entries;
    cbn; rewrite ?Hassert; reflexivity.
Qed.

Lemma attempts_length (entries : list DBusAddressEntry) :
  List.length (attempts cfg entries)
  = (List.length entries * List.length (listen_funcs cfg))%nat.
Proof.
  assert (Hnum : forall (A : Type) (l : list A) (j : nat),
             List.length (number_from j l) = List.length l).
  { intros A l. induction l as [|x l IH]; intros j; cbn; [reflexivity|].
    rewrite IH. reflexivity. }
  induction entries as [|entry entries IH]; [reflexivity|].
  change (attempts cfg (entry :: entries))
    with (map (fun jf => (fst jf, snd jf, entry)) (number_from 0 (listen_funcs cfg))
          ++ attempts cfg entries).
  rewrite length_app, length_map, Hnum.
  exact (f_equal (Nat.add _) IH).
Qed.

(** X18: [dbus_server_listen] calls the listen functions in scan order
    only: whatever they answer, and whether the function returns or
    stops at an assertion, the listen calls made are an initial part of
    the calls of a full scan (entry by entry, the table in order within
    each entry).  So no function is called twice for an entry, and at
    most [len] times the size of the table calls are made: two per
    entry, three in a build with the tests. *)
Theorem dbus_server_listen_calls_in_scan_order (a : string)
  (err : option (option DBusError)) (w0 w1 : Ext) (entries : list DBusAddressEntry) :
  error_is_set_at err = false ->
  dbus_parse_address a w0 = (inr entries, w1) ->
  (exists rest,
      listen_events (attempts cfg entries)
      = trace (dbus_server_listen cfg (Some a) err w0) ++ rest)
  /\ (List.length (trace (dbus_server_listen cfg (Some a) err w0))
      <= List.length entries * (if DBUS_BUILD_TESTS cfg then 3 else 2))%nat.
Proof.
  intros Herr Hparse.
  assert (Hprefix : exists rest,
             listen_events (attempts cfg entries)
             = trace (dbus_server_listen cfg (Some a) err w0) ++ rest).
  { rewrite (dbus_server_listen_parsed cfg a err w0 w1 entries Herr Hparse).
    unfold exec_bind.
    destruct (try_attempts_trace (attempts cfg entries)
                (mkListenFrame None err None false) w1) as [rest Hrest].
    destruct (try_attempts cfg (attempts cfg entries) _ w1) as [t r w2|t f];
      cbn [trace] in Hrest.
    - exists rest. rewrite trace_after, listen_out_trace, app_nil_r. exact Hrest.
    - exists rest. exact Hrest. }
  split; [exact Hprefix|].
  destruct Hprefix as [rest Hrest].
  apply (f_equal (@List.length _)) in Hrest.
  unfold listen_events in Hrest.
  rewrite length_map, attempts_length, length_app in Hrest.
  replace (if DBUS_BUILD_TESTS cfg then 3 else 2)%nat with (List.length (listen_funcs cfg))
    by (unfold listen_funcs; destruct (DBUS_BUILD_TESTS cfg); reflexivity).
  lia.
Qed.

(** Either every answer of a scan keeps it going, or there is a first
    answer that decides it. *)
Lemma replay_first_decisive (atts : list (Attempt Ext)) :
  forall (w : Ext),
    (exists rs w', replay atts w = (rs, w') /\ forallb keeps_trying rs = true)
    \/ (exists pre j func entry post rs w2 r w3,
           atts = pre ++ (j, func, entry) :: post
           /\ replay pre w = (rs, w2)
           /\ forallb keeps_trying rs = true
           /\ func entry w2 = (r, w3)
           /\ keeps_trying r = false).
Proof.
  induction atts as [|[[j func] entry] atts IH]; intros w.
  - left. exists [], w. split; reflexivity.
  - destruct (func entry w) as [r w1] eqn:Hf.
    destruct (keeps_trying r) eqn:Hr.
    + destruct (IH w1) as [(rs & w' & Hre & Hrs)
                          |(pre & j' & func' & entry' & post & rs & w2 & r' & w3
                            & Hsplit & Hre & Hrs & Hf' & Hr')].
      * left. exists (r :: rs), w'. cbn. rewrite Hf, Hre, Hr, Hrs. split; reflexivity.
      * right. exists ((j, func, entry) :: pre), j', func', entry', post, (r :: rs), w2, r', w3.
        cbn. rewrite Hf, Hre, Hr, Hrs, Hsplit. repeat split; assumption.
    + right. exists [], j, func, entry, atts, [], w, r, w1.
      repeat split; assumption.
Qed.

(** X19: with a parser and listen functions that keep the contract of
    their interface, a call of [dbus_server_listen] that returns gives
    back either a server or an error, never both and never neither: if
    it returns a server, the caller's error is as it was (clear); if it
    returns NULL and the caller gave an error location, the error is
    set.  The contract is the one the types of [dbus_parse_address] and
    [DBusServerListenResult] state: the parser gives entries or an
    error, and a listen function leaves a server exactly when it answers
    OK and an error exactly when it answers bad-address or
    did-not-connect.  Within it the statement holds in every build and
    whatever the parser and the listen functions answer. *)
Theorem dbus_server_listen_server_or_error (a : string) (err : option (option DBusError))
  (w0 w' : Ext) (t : list (Event Ext)) (result : option Ptr)
  (err' : option (option DBusError)) :
  error_is_set_at err = false ->
  dbus_server_listen cfg (Some a) err w0 = Done t (result, err') w' ->
  match result, err with
  | Some _, _ => err' = err
  | None, Some _ => exists e, err' = Some (Some e)
  | None, None => err' = None
  end.
Proof.
  intros Herr Hrun.
  destruct (dbus_parse_address a w0) as [[parse_error|entries] w1] eqn:Hparse.
  - rewrite (proj1 (dbus_server_listen_nothing_handled cfg a err w0 Herr)
               parse_error w1 Hparse) in Hrun.
    injection Hrun as _ <- <- _.
    destruct err as [e|]; cbn; eauto.
  - destruct (replay_first_decisive (attempts cfg entries) w1)
      as [(rs & w2 & Hre & Hrs)
         |(pre & j & func & entry & post & rs & w2 & r & w3
           & Hsplit & Hre & Hrs & Hf & Hr)].
    + rewrite (dbus_server_listen_none_decides cfg a err w0 w1 w2 entries rs
                 Herr Hparse Hre Hrs) in Hrun.
      injection Hrun as _ <- <- _.
      destruct err as [e|]; destruct (first_did_not_connect rs); destruct entries;
        cbn; eauto.
    + destruct r as [|new_server|tmp_error|tmp_error]; try discriminate Hr.
      * rewrite (dbus_server_listen_first_ok cfg a err w0 w1 w2 w3 entries pre post
                   j func entry rs new_server Herr Hparse Hsplit Hre Hrs Hf) in Hrun.
        injection Hrun as _ <- <- _. reflexivity.
      * rewrite (dbus_server_listen_first_bad_address cfg a err w0 w1 w2 w3 entries pre post
                   j func entry rs tmp_error Herr Hparse Hsplit Hre Hrs Hf) in Hrun.
        destruct (negb (DBUS_DISABLE_ASSERT cfg) && _ && _); [discriminate|].
        injection Hrun as _ <- <- _.
        destruct err as [e|]; cbn; eauto.
Qed.


(** X20: with checks compiled in, [dbus_server_listen] refuses a NULL
    address and an error that is already set: it reports the failed
    check and returns NULL without calling the parser or any listen
    function, and leaves the caller's error as it was. *)
Theorem dbus_server_listen_checks_arguments (address : option string)
  (err : option (option DBusError)) (w0 : Ext) :
  DBUS_DISABLE_CHECKS cfg = false ->
  address = None \/ error_is_set_at err = true ->
  exists what,
    dbus_server_listen cfg address err w0 = Done [EvCheckFailed what] (None, err) w0.
Proof.
  intros Hchecks Hbad. unfold dbus_server_listen, _dbus_return_val_if_fail.
  rewrite Hchecks.
  destruct address as [a|].
  - destruct Hbad as [Hnull|Hset]; [discriminate|]. rewrite Hset. cbn. eauto.
  - cbn. eauto.
Qed.

(** X21: the first listen function, in scan order, that answers OK ends
    the scan: [dbus_server_listen] returns its server, leaves the error
    clear and calls nothing after it, whatever did-not-connect answers
    came before. *)
Theorem dbus_server_listen_stops_at_first_ok (a : string) (err : option (option DBusError))
  (w0 w1 w2 w3 : Ext) (entries : list DBusAddressEntry)
  (pre post : list (Attempt Ext)) (j : nat) (func : ListenFunc Ext)
  (entry : DBusAddressEntry) (rs : list DBusServerListenResult) (new_server : Ptr) :
  error_is_set_at err = false ->
  dbus_parse_address a w0 = (inr entries, w1) ->
  attempts cfg entries = pre ++ (j, func, entry) :: post ->
  replay pre w1 = (rs, w2) ->
  forallb keeps_trying rs = true ->
  func entry w2 = (DBUS_SERVER_LISTEN_OK new_server, w3) ->
  dbus_server_listen cfg (Some a) err w0
  = Done (listen_events pre ++ [EvListen j entry]) (Some new_server, err) w3.
Proof. apply dbus_server_listen_first_ok. Qed.

(** X22: the first listen function, in scan order, that answers
    bad-address ends the scan, and [dbus_server_listen] returns NULL with
    that error, in every case but one: if a did-not-connect answer came
    earlier, the caller gave an error location and assertions are
    compiled in, the assertion that [first_connect_error] is clear fails
    and the function does not return. *)
Theorem dbus_server_listen_stops_at_first_bad_address (a : string)
  (err : option (option DBusError))
  (w0 w1 w2 w3 : Ext) (entries : list DBusAddressEntry)
  (pre post : list (Attempt Ext)) (j : nat) (func : ListenFunc Ext)
  (entry : DBusAddressEntry) (rs : list DBusServerListenResult) (tmp_error : DBusError) :
  error_is_set_at err = false ->
  dbus_parse_address a w0 = (inr entries, w1) ->
  attempts cfg entries = pre ++ (j, func, entry) :: post ->
  replay pre w1 = (rs, w2) ->
  forallb keeps_trying rs = true ->
  func entry w2 = (DBUS_SERVER_LISTEN_BAD_ADDRESS tmp_error, w3) ->
  dbus_server_listen cfg (Some a) err w0
  = if negb (DBUS_DISABLE_ASSERT cfg)
       && match err with Some _ => true | None => false end
       && dbus_error_is_set (first_did_not_connect rs)
    then Stuck (listen_events pre ++ [EvListen j entry]) AssertionFailed
    else Done (listen_events pre ++ [EvListen j entry])
           (None, match err with Some _ => Some (Some tmp_error) | None => None end) w3.
Proof.
  intros Herr Hparse Hsplit Hre Hrs Hf.
  rewrite (dbus_server_listen_first_bad_address cfg a err w0 w1 w2 w3 entries pre post
             j func entry rs tmp_error Herr Hparse Hsplit Hre Hrs Hf).
  destruct err; reflexivity.
Qed.

(** X23: when every listen function answers not-handled or
    did-not-connect for every entry, and at least one answers
    did-not-connect, [dbus_server_listen] tries them all, returns NULL
    and reports the error of the first did-not-connect answer in scan
    order. *)
Theorem dbus_server_listen_reports_first_connect_failure (a : string)
  (err : option (option DBusError)) (w0 w1 w2 : Ext) (entries : list DBusAddressEntry)
  (rs : list DBusServerListenResult) (first_error : DBusError) :
  error_is_set_at err = false ->
  dbus_parse_address a w0 = (inr entries, w1) ->
  replay (attempts cfg entries) w1 = (rs, w2) ->
  forallb keeps_trying rs = true ->
  first_did_not_connect rs = Some first_error ->
  dbus_server_listen cfg (Some a) err w0
  = Done (listen_events (attempts cfg entries))
      (None, match err with Some _ => Some (Some first_error) | None => None end) w2.
Proof.
  intros Herr Hparse Hre Hrs Hfirst.
  rewrite (dbus_server_listen_none_decides cfg a err w0 w1 w2 entries rs
             Herr Hparse Hre Hrs).
  rewrite Hfirst. destruct err; reflexivity.
Qed.

End ListenRuns.

(** C3 on the example server: the last [dbus_server_unref] after a
    disconnect, the last [_dbus_server_unref_unlocked] under the lock,
    and the last [dbus_server_unref] of a server still connected. *)
Lemma unref_to_zero_finalizes_once_witness :
  calls (trace (dbus_server_unref (H := example_collaborators) checked_build
                  (mkWorld disconnected_server [])))
  = [(100, [], mkWorld (set_refcount 0 disconnected_server) [])]
  /\ calls (trace (_dbus_server_unref_unlocked (H := example_collaborators) checked_build
                     (mkWorld (set_have_server_lock true disconnected_server) [])))
     = [(100, [], mkWorld (set_refcount 0 disconnected_server) [])]
  /\ exists t, dbus_server_unref (H := example_collaborators) checked_build
                 (mkWorld example_server [])
               = Stuck t AssertionFailed /\ calls t = [].
Proof.
  split; [|split].
  - exact (proj1 (proj1 (proj1 (unref_to_zero_finalizes_once (H := example_collaborators)
                                  checked_build (mkWorld disconnected_server []) 100
                                  eq_refl eq_refl) eq_refl) eq_refl)).
  - exact (proj1 (proj1 (proj2 (unref_to_zero_finalizes_once (H := example_collaborators)
                                  checked_build
                                  (mkWorld (set_have_server_lock true disconnected_server) [])
                                  100 eq_refl eq_refl) eq_refl) eq_refl)).
  - exact (proj2 (proj1 (unref_to_zero_finalizes_once (H := example_collaborators)
                           checked_build (mkWorld example_server []) 100
                           eq_refl eq_refl) eq_refl) eq_refl eq_refl).
Defined.

(** C4 on the example server.  An application function that calls
    [dbus_server_set_watch_functions] from inside
    [dbus_server_set_watch_functions] is told FALSE and changes nothing,
    and the outer call puts the registry back; a watch operation that
    finds the registry detached returns FALSE; a watch operation that
    finds it attached detaches it, calls out and reattaches it. *)
Lemma reentrancy_guard_witness :
  dbus_server_set_watch_functions (H := reentrant_collaborators) checked_build
    (Some 300) None None 0 None (mkWorld example_server [])
  = Done [EvLock; EvUnlock;
          EvCall 203 [501; 300; 0; 0; 0; 0] (mkWorld (set_watches None example_server) []);
          EvLock; EvUnlock]
      FALSE (mkWorld example_server [])
  /\ protected_change_watch (H := example_collaborators) checked_build
       7 (Some 200) None None false (mkWorld (set_watches None locked_server) [])
     = Done [] FALSE (mkWorld (set_watches None locked_server) [])
  /\ protected_change_watch (H := example_collaborators) checked_build
       7 None None (Some 202) true (mkWorld locked_server [])
     = Done [EvRef 2; EvUnlock;
             EvCall 202 [501; 7; 1]
               (mkWorld (set_refcount 2 (set_watches None example_server)) []);
             EvLock; EvUnref 1]
         TRUE (mkWorld locked_server []).
Proof.
  split; [|split].
  - destruct (reentrancy_guard (H := reentrant_collaborators) checked_build
                (mkWorld example_server [])) as (_ & _ & _ & _ & _ & G & _).
    exact (G (Some 300) None None 0 None 501 FALSE
             (mkWorld (set_watches None example_server) [])
             eq_refl eq_refl eq_refl eq_refl).
  - destruct (reentrancy_guard (H := example_collaborators) checked_build
                (mkWorld (set_watches None locked_server) [])) as (G & _).
    exact (G 7 (Some 200) None None false eq_refl eq_refl).
  - destruct (reentrancy_guard (H := example_collaborators) checked_build
                (mkWorld locked_server [])) as (_ & G & _).
    exact (G 7 None None (Some 202) true 501 202 TRUE
             (mkWorld (set_refcount 2 (set_watches None example_server)) [])
             eq_refl eq_refl (conj eq_refl eq_refl) eq_refl eq_refl eq_refl eq_refl).
Defined.

(** C5, where the code falls short of it.
    [dbus_server_set_watch_functions] and
    [dbus_server_set_timeout_functions] release the lock, call into the
    registry and take the lock again without ever touching the reference
    count, in any build and whatever is called.  On the example server
    they call the registry with the count at 1, where
    [protected_change_watch], the sibling path, calls it with the count
    at 2 and drops its reference once it has the lock back.  When the
    application gives up its reference inside the call, the setter goes
    on to take the lock of, and to write, a server whose count is 0;
    [protected_change_watch] still holds its own reference then, and the
    count reaches 0 only in its last step, after which it calls
    [finalize]. *)
Theorem set_functions_unlock_without_reference :
  (forall (Ext : Type) (H : Collaborators Ext) (cfg : BuildConfig)
          (add_function remove_function toggled_function : option FnPtr)
          (data : Ptr) (free_data_function : option FnPtr) (w : World Ext),
      leaves_refcount_alone
        (trace (dbus_server_set_watch_functions cfg add_function remove_function
                  toggled_function data free_data_function w)) = true
      /\ leaves_refcount_alone
           (trace (dbus_server_set_timeout_functions cfg add_function remove_function
                     toggled_function data free_data_function w)) = true)
  /\
  dbus_server_set_watch_functions (H := example_collaborators) checked_build
    (Some 300) (Some 301) None 0 None (mkWorld example_server [])
  = Done [EvLock; EvUnlock;
          EvCall 203 [501; 300; 301; 0; 0; 0]
            (mkWorld (set_watches None example_server) []);
          EvLock; EvUnlock]
      TRUE (mkWorld example_server [])
  /\
  dbus_server_set_timeout_functions (H := example_collaborators) checked_build
    (Some 310) (Some 311) None 0 None (mkWorld example_server [])
  = Done [EvLock; EvUnlock;
          EvCall 213 [502; 310; 311; 0; 0; 0]
            (mkWorld (set_timeouts None example_server) []);
          EvLock; EvUnlock]
      TRUE (mkWorld example_server [])
  /\
  protected_change_watch (H := example_collaborators) checked_build
    7 (Some 200) None None false (mkWorld locked_server [])
  = Done [EvRef 2; EvUnlock;
          EvCall 200 [501; 7]
            (mkWorld (set_refcount 2 (set_watches None example_server)) []);
          EvLock; EvUnref 1]
      TRUE (mkWorld locked_server [])
  /\
  dbus_server_set_watch_functions (H := releasing_collaborators) checked_build
    (Some 300) (Some 301) None 0 None (mkWorld disconnected_server [])
  = Done [EvLock; EvUnlock;
          EvCall 203 [501; 300; 301; 0; 0; 0]
            (mkWorld (set_watches None disconnected_server) []);
          EvLock; EvUnlock]
      TRUE (mkWorld (set_refcount 0 disconnected_server) [])
  /\
  protected_change_watch (H := releasing_collaborators) checked_build
    7 (Some 200) None None false
    (mkWorld (set_have_server_lock true disconnected_server) [])
  = Done [EvRef 2; EvUnlock;
          EvCall 200 [501; 7]
            (mkWorld (set_refcount 2 (set_watches None disconnected_server)) []);
          EvLock; EvUnref 0; EvUnlock;
          EvCall 100 [] (mkWorld (set_refcount 0 disconnected_server) [])]
      TRUE (mkWorld (set_refcount 0 disconnected_server) []).
Proof.
  split; [|repeat split].
  intros Ext H cfg add_function remove_function toggled_function data free_data_function w.
  split.
  - apply set_watch_functions_leaves_refcount_alone.
  - apply set_timeout_functions_leaves_refcount_alone.
Qed.

(** C6 on the example server: the first call disconnects it, the second
    call changes nothing. *)
Lemma dbus_server_disconnect_idempotent_witness :
  (exists t,
      dbus_server_disconnect (H := example_collaborators) checked_build
        (mkWorld example_server [])
      = Done t tt (mkWorld disconnected_server [])
      /\ calls t
         = [(101, [], mkWorld (set_refcount 2 (set_have_server_lock true disconnected_server))
                        [])])
  /\
  (exists t,
      dbus_server_disconnect (H := example_collaborators) checked_build
        (mkWorld disconnected_server [])
      = Done t tt (mkWorld disconnected_server []) /\ calls t = []).
Proof.
  split.
  - exact (proj1 (dbus_server_disconnect_idempotent (H := example_collaborators)
                    checked_build (mkWorld example_server []) 101
                    (conj eq_refl eq_refl) eq_refl eq_refl)
             eq_refl TRUE
             (mkWorld (set_refcount 2 (set_have_server_lock true disconnected_server)) [])
             eq_refl eq_refl eq_refl).
  - exact (proj2 (dbus_server_disconnect_idempotent (H := example_collaborators)
                    checked_build (mkWorld disconnected_server []) 101
                    (conj eq_refl eq_refl) eq_refl eq_refl)
             eq_refl).
Defined.


(** C10 on the example server, with and without memory. *)
Lemma dbus_server_get_address_result_witness :
  dbus_server_get_address (H := example_collaborators) checked_build
    (mkWorld example_server [])
  = Done [EvLock; EvUnlock]
      (Some "tcp:port=1234,guid=00112233445566778899aabbccddeeff"%string)
      (mkWorld example_server [])
  /\ dbus_server_get_address (H := example_collaborators) checked_build
       (mkWorld example_server [false])
     = Done [EvLock; EvUnlock] None (mkWorld example_server []).
Proof.
  split.
  - exact (dbus_server_get_address_result (H := example_collaborators) checked_build
             (mkWorld example_server [])
             "tcp:port=1234,guid=00112233445566778899aabbccddeeff" true []
             eq_refl eq_refl eq_refl).
  - exact (dbus_server_get_address_result (H := example_collaborators) checked_build
             (mkWorld example_server [false])
             "tcp:port=1234,guid=00112233445566778899aabbccddeeff" false []
             eq_refl eq_refl eq_refl).
Defined.

(** C9, where the code falls short of it: when the copy of the
    mechanisms cannot be allocated, [dbus_server_set_auth_mechanisms]
    returns FALSE with the list unchanged, but without releasing the
    lock it took; the next operation on the server cannot take it. *)
Theorem dbus_server_set_auth_mechanisms_returns_locked :
  dbus_server_set_auth_mechanisms (H := example_collaborators) checked_build
    (Some ["EXTERNAL"%string]) (mkWorld example_server [false])
  = Done [EvLock] false (mkWorld locked_server [])
  /\ auth_mechanisms locked_server = auth_mechanisms example_server
  /\ have_server_lock locked_server = true
  /\ run_calls (H := example_collaborators) checked_build
       [call_dbus_server_set_auth_mechanisms (Some ["EXTERNAL"%string]);
        call_dbus_server_get_is_connected]
       (mkWorld example_server [false])
     = Stuck [EvLock] Deadlock.
Proof. repeat split. Qed.

(** ** The properties on the example worlds *)

(** In the example world whatever is called leaves the server as it is. *)
Lemma example_callees_keep (R : DBusServer -> DBusServer -> Prop) :
  (forall s, R s s) -> callees_keep (H := example_collaborators) R.
Proof.
  intros Hrefl f args w r w' Hcall. cbn in Hcall. unfold example_invoke in Hcall.
  injection Hcall as _ <-. apply Hrefl.
Qed.

(** X2 on blank memory: when the watch list cannot be allocated nothing
    is called, and when the timeout list cannot be allocated the watch
    list is freed. *)
Lemma _dbus_server_init_base_failure_witness :
  ((mutex unconstructed_server = None
    /\ watches unconstructed_server = None
    /\ timeouts unconstructed_server = None
    /\ address unconstructed_server = None)
   /\ (@nil (Event (World (list bool))) = []
       \/ exists the_watches before e,
            [] = [EvCall 204 [the_watches] before]
            /\ watches (srv before) = Some the_watches
            /\ have_server_lock (srv before) = false
            /\ example_new 502 e = (None, ext before)))
  /\
  ((mutex unconstructed_server = None
    /\ watches unconstructed_server = None
    /\ timeouts unconstructed_server = None
    /\ address unconstructed_server = None)
   /\ ([EvCall 204 [501] (mkWorld half_constructed_server ([] : list bool))] = []
       \/ exists the_watches before e,
            [EvCall 204 [501] (mkWorld half_constructed_server ([] : list bool))]
            = [EvCall 204 [the_watches] before]
            /\ watches (srv before) = Some the_watches
            /\ have_server_lock (srv before) = false
            /\ example_new 502 e = (None, ext before)))
  /\
  (exists before w',
      _dbus_server_init_base (H := example_collaborators)
        {| finalize := Some 100; disconnect := Some 101 |} "tcp:port=1234"
        (mkWorld blank_server no_memory_for_timeouts)
      = Done [EvCall 204 [501] before] false w'
      /\ watches (srv before) = Some 501
      /\ have_server_lock (srv before) = false
      /\ ext before = []).
Proof.
  assert (Hfree : forall args w1 r w2,
             invoke (Collaborators := example_collaborators) 204 args w1 = Some (r, w2) ->
             mutex (srv w2) = mutex (srv w1) /\ timeouts (srv w2) = timeouts (srv w1)).
  { intros args w1 r w2 Hcall. cbn in Hcall. unfold example_invoke in Hcall.
    injection Hcall as _ <-. split; reflexivity. }
  assert (Hreturns : forall args w1,
             invoke (Collaborators := example_collaborators) 204 args w1 <> None)
    by (intros args w1; discriminate).
  destruct (_dbus_server_init_base_failure (H := example_collaborators)
              {| finalize := Some 100; disconnect := Some 101 |} "tcp:port=1234"
              (mkWorld blank_server no_memory_for_watches) Hfree) as [Hwatches _].
  destruct (_dbus_server_init_base_failure (H := example_collaborators)
              {| finalize := Some 100; disconnect := Some 101 |} "tcp:port=1234"
              (mkWorld blank_server no_memory_for_timeouts) Hfree) as [Htimeouts Hcall].
  split; [|split].
  - exact (Hwatches [] (mkWorld unconstructed_server []) eq_refl eq_refl).
  - exact (Htimeouts [EvCall 204 [501] (mkWorld half_constructed_server [])]
             (mkWorld unconstructed_server []) eq_refl eq_refl).
  - exact (Hcall [true; true; true; true; true; true; true; true; false]
             [true; true; true; true; true; true; true; true; false]
             [true; true; false] [true; false] [false] [] example_guid 500 501
             Hreturns eq_refl eq_refl eq_refl eq_refl eq_refl eq_refl).
Defined.

(** X3 on blank memory, with enough memory. *)
Lemma _dbus_server_init_base_initializes_witness :
  refcount constructed_server = 1
  /\ vtable constructed_server = {| finalize := Some 100; disconnect := Some 101 |}
  /\ (exists m wl tl a,
         mutex constructed_server = Some m /\ watches constructed_server = Some wl
         /\ timeouts constructed_server = Some tl /\ address constructed_server = Some a)
  /\ slot_list constructed_server = []
  /\ disconnected constructed_server = disconnected blank_server
  /\ have_server_lock constructed_server = have_server_lock blank_server
  /\ handler constructed_server = handler blank_server
  /\ auth_mechanisms constructed_server = auth_mechanisms blank_server
  /\ @nil (Event (World (list bool))) = [].
Proof.
  exact (_dbus_server_init_base_initializes (H := example_collaborators)
           {| finalize := Some 100; disconnect := Some 101 |} "tcp:port=1234"
           (mkWorld blank_server []) (mkWorld constructed_server []) [] eq_refl).
Defined.

(** X4 on the example server while it is still connected, and on the
    disconnected server with a new-connection handler installed. *)
Lemma _dbus_server_finalize_base_result_witness :
  _dbus_server_finalize_base (H := example_collaborators) checked_build
    (mkWorld example_server [])
  = Stuck [] AssertionFailed
  /\ exists t w',
       _dbus_server_finalize_base (H := example_collaborators) checked_build
         (mkWorld (set_disconnected true handled_server) [])
       = Done t tt w'
       /\ called t = [(220, []); (401, [55]); (204, [501]); (214, [502])]
       /\ calls_outside_lock false t = true
       /\ handler (srv w') = (None, 0, None)
       /\ have_server_lock (srv w') = false.
Proof.
  split.
  - exact (proj1 (_dbus_server_finalize_base_result (H := example_collaborators)
                    checked_build (mkWorld example_server []))
             eq_refl (or_introl eq_refl)).
  - refine (proj2 (_dbus_server_finalize_base_result (H := example_collaborators)
                     checked_build (mkWorld (set_disconnected true handled_server) []))
              _ eq_refl eq_refl).
    intros f args w. exists TRUE, w. split; reflexivity.
Defined.

(** X5 on the example server: adding a watch with the list attached,
    removing one with the list detached. *)
Lemma watch_operations_witness :
  (exists t,
      _dbus_server_add_watch (H := example_collaborators) checked_build 7
        (mkWorld locked_server [])
      = Done t TRUE (mkWorld locked_server [])
      /\ called t = [(200, [501; 7])])
  /\ _dbus_server_remove_watch (H := example_collaborators) checked_build 7
       (mkWorld (set_watches None locked_server) [])
     = Done [] tt (mkWorld (set_watches None locked_server) []).
Proof.
  split.
  - exact (proj1 (proj2 (watch_operations (H := example_collaborators) checked_build
                           (mkWorld locked_server []) 7 true eq_refl (conj eq_refl eq_refl))
                    TRUE (mkWorld (set_refcount 2 (set_watches None example_server)) [])
                    eq_refl eq_refl)
             eq_refl).
  - exact (proj1 (proj2 (proj2 (watch_operations (H := example_collaborators) checked_build
                                  (mkWorld (set_watches None locked_server) []) 7 true
                                  eq_refl (conj eq_refl eq_refl))))).
Defined.

(** X6 on the example server: toggling a timeout with the list attached,
    adding one with the list detached. *)
Lemma timeout_operations_witness :
  (exists t,
      _dbus_server_toggle_timeout (H := example_collaborators) checked_build 9 true
        (mkWorld locked_server [])
      = Done t tt (mkWorld locked_server [])
      /\ called t = [(212, [502; 9; 1])])
  /\ _dbus_server_add_timeout (H := example_collaborators) checked_build 9
       (mkWorld (set_timeouts None locked_server) [])
     = Done [] FALSE (mkWorld (set_timeouts None locked_server) []).
Proof.
  split.
  - exact (proj2 (proj2 (timeout_operations (H := example_collaborators) checked_build
                           (mkWorld locked_server []) 9 true eq_refl (conj eq_refl eq_refl)
                           TRUE (mkWorld (set_refcount 2 (set_timeouts None example_server)) [])
                           eq_refl eq_refl))
             eq_refl).
  - exact (proj1 (timeout_operations (H := example_collaborators) checked_build
                    (mkWorld (set_timeouts None locked_server) []) 9 true
                    eq_refl (conj eq_refl eq_refl))).
Defined.

(** X7 on the example server, without and with the lock. *)
Lemma dbus_server_ref_unref_round_trip_witness :
  (exists t,
      (r <- dbus_server_ref checked_build ;;
       dbus_server_unref (H := example_collaborators) checked_build ;;
       ret r) (mkWorld example_server [])
      = Done t true (mkWorld example_server [])
      /\ calls t = [])
  /\ (_dbus_server_ref_unlocked checked_build ;;
      _dbus_server_unref_unlocked (H := example_collaborators) checked_build)
       (mkWorld locked_server [])
     = Done [EvRef 2; EvUnref 1] tt (mkWorld locked_server []).
Proof.
  split.
  - exact (proj1 (dbus_server_ref_unref_round_trip (H := example_collaborators)
                    checked_build (mkWorld example_server []) (conj eq_refl eq_refl))
             eq_refl).
  - exact (proj2 (dbus_server_ref_unref_round_trip (H := example_collaborators)
                    checked_build (mkWorld locked_server []) (conj eq_refl eq_refl))
             eq_refl).
Defined.

(** X8 on the example server with two references. *)
Lemma unref_with_references_left_witness :
  (exists t,
      dbus_server_unref (H := example_collaborators) checked_build
        (mkWorld (set_refcount 2 example_server) [])
      = Done t tt (mkWorld example_server [])
      /\ calls t = [])
  /\ _dbus_server_unref_unlocked (H := example_collaborators) checked_build
       (mkWorld (set_refcount 2 locked_server) [])
     = Done [EvUnref 1] tt (mkWorld locked_server []).
Proof.
  split.
  - refine (proj1 (unref_with_references_left (H := example_collaborators) checked_build
                     (mkWorld (set_refcount 2 example_server) []) _)
              eq_refl).
    cbn. lia.
  - refine (proj2 (unref_with_references_left (H := example_collaborators) checked_build
                     (mkWorld (set_refcount 2 locked_server) []) _)
              eq_refl).
    cbn. lia.
Defined.

(** X9 on the example server with its reference count at zero. *)
Lemma server_without_references_is_refused_witness :
  dbus_server_ref checked_build (mkWorld (set_refcount 0 example_server) ([] : list bool))
  = Done [EvCheckFailed "server->refcount.value > 0"] false
      (mkWorld (set_refcount 0 example_server) [])
  /\ dbus_server_unref (H := example_collaborators) checked_build
       (mkWorld (set_refcount 0 example_server) [])
     = Done [EvCheckFailed "server->refcount.value > 0"] tt
         (mkWorld (set_refcount 0 example_server) [])
  /\ dbus_server_disconnect (H := example_collaborators) checked_build
       (mkWorld (set_refcount 0 example_server) [])
     = Done [EvCheckFailed "server->refcount.value > 0"] tt
         (mkWorld (set_refcount 0 example_server) []).
Proof.
  refine (server_without_references_is_refused (H := example_collaborators) checked_build
            (mkWorld (set_refcount 0 example_server) []) eq_refl _).
  cbn. lia.
Defined.

(** X10 on the example server. *)
Lemma connected_until_disconnect_witness :
  dbus_server_get_is_connected checked_build (mkWorld example_server ([] : list bool))
  = Done [EvLock; EvUnlock] true (mkWorld example_server [])
  /\ exists t w',
       dbus_server_disconnect (H := example_collaborators) checked_build
         (mkWorld example_server [])
       = Done t tt w'
       /\ dbus_server_get_is_connected checked_build w'
          = Done [EvLock; EvUnlock] false w'.
Proof.
  exact (connected_until_disconnect (H := example_collaborators) checked_build
           (mkWorld example_server []) 101 TRUE
           (mkWorld (set_refcount 2 (set_have_server_lock true disconnected_server)) [])
           (conj eq_refl eq_refl) eq_refl eq_refl eq_refl eq_refl eq_refl eq_refl eq_refl).
Defined.

(** X11 on the disconnected example server, over a reference, a change
    of mechanisms, a second disconnect and an unref. *)
Lemma disconnect_is_permanent_witness :
  disconnected disconnected_server = true
  /\ (have_server_lock disconnected_server = false ->
      dbus_server_get_is_connected checked_build
        (mkWorld disconnected_server ([] : list bool))
      = Done [EvLock; EvUnlock] false (mkWorld disconnected_server [])).
Proof.
  exact (disconnect_is_permanent (H := example_collaborators) checked_build
           [call_dbus_server_ref; call_dbus_server_set_auth_mechanisms None;
            call_dbus_server_disconnect; call_dbus_server_unref]
           (mkWorld disconnected_server []) (mkWorld disconnected_server [])
           [EvLock; EvRef 2; EvUnlock; EvLock; EvUnlock;
            EvLock; EvRef 3; EvUnlock; EvLock; EvUnref 2; EvUnlock;
            EvLock; EvUnref 1; EvUnlock]
           (example_callees_keep stays_disconnected stays_disconnected_refl)
           eq_refl eq_refl).
Defined.

(** X12 on the example server, over [example_reading_calls]. *)
Lemma fields_have_one_writer_witness :
  match run_calls (H := example_collaborators) checked_build
          example_reading_calls (mkWorld example_server []) with
  | Done _ _ w' =>
      vtable (srv w') = vtable example_server
      /\ mutex (srv w') = mutex example_server
      /\ disconnected (srv w') = disconnected example_server
      /\ auth_mechanisms (srv w') = auth_mechanisms example_server
      /\ handler (srv w') = handler example_server
      /\ slot_list (srv w') = slot_list example_server
  | Stuck _ _ => False
  end.
Proof.
  destruct (run_calls (H := example_collaborators) checked_build example_reading_calls
              (mkWorld example_server [])) as [t [] w'|t f] eqn:Hrun.
  - destruct (fields_have_one_writer (H := example_collaborators) checked_build
                example_reading_calls (mkWorld example_server []) w' t Hrun)
      as (Hv & Hm & Hd & Ha & Hh & Hs).
    repeat split.
    + apply Hv, example_callees_keep, same_field_refl.
    + apply Hm, example_callees_keep, same_field_refl.
    + apply Hd; [apply example_callees_keep, same_field_refl|reflexivity].
    + apply Ha; [apply example_callees_keep, same_field_refl|reflexivity].
    + apply Hh; [apply example_callees_keep, same_field_refl|reflexivity].
    + apply Hs; [apply example_callees_keep, same_field_refl|reflexivity].
  - vm_compute in Hrun. discriminate Hrun.
Defined.

(** X13 on the example server, over [example_public_calls]. *)
Lemma public_operations_release_the_lock_witness :
  match run_calls (H := example_collaborators) checked_build
          example_public_calls (mkWorld example_server []) with
  | Done _ _ w' => have_server_lock (srv w') = false
  | Stuck _ _ => False
  end.
Proof.
  destruct (run_calls (H := example_collaborators) checked_build example_public_calls
              (mkWorld example_server [])) as [t [] w'|t f] eqn:Hrun.
  - exact (public_operations_release_the_lock (H := example_collaborators) checked_build
             example_public_calls (mkWorld example_server []) w' t
             (example_callees_keep (same_field have_server_lock)
                (same_field_refl have_server_lock))
             eq_refl eq_refl Hrun).
  - vm_compute in Hrun. discriminate Hrun.
Defined.


(** X15 on the example server with slot 0 holding 77 and its destructor
    302: with and without memory. *)
Lemma dbus_server_set_data_result_witness :
  let stored := mkWorld (set_slot_list [(88, None)] example_server) ([] : list bool) in
  dbus_server_set_data (H := example_collaborators) checked_build 0 88 None
    (mkWorld (set_slot_list [(77, Some 302)] example_server) [])
  = Done [EvLock; EvUnlock; EvCall 302 [77] stored] true stored
  /\ dbus_server_set_data (H := example_collaborators) checked_build 0 88 None
       (mkWorld (set_slot_list [(77, Some 302)] example_server) [false])
     = Done [EvLock; EvUnlock] false
         (mkWorld (set_slot_list [(77, Some 302)] example_server) []).
Proof.
  split.
  - exact (dbus_server_set_data_result (H := example_collaborators) checked_build
             (mkWorld (set_slot_list [(77, Some 302)] example_server) []) 0 88 None
             (Some ([(88, None)], Some 302, 77)) [] eq_refl eq_refl).
  - exact (dbus_server_set_data_result (H := example_collaborators) checked_build
             (mkWorld (set_slot_list [(77, Some 302)] example_server) [false]) 0 88 None
             None [] eq_refl eq_refl).
Defined.

(** X16 on the example server: slot 0, data 77. *)
Lemma dbus_server_set_data_get_data_witness :
  (stored <- dbus_server_set_data (H := example_collaborators) checked_build 0 77 (Some 302) ;;
   res <- dbus_server_get_data (H := example_collaborators) checked_build 0 ;;
   ret (stored, res)) (mkWorld example_server [])
  = Done [EvLock; EvUnlock; EvLock; EvUnlock] (true, 77)
      (mkWorld (set_slot_list [(77, Some 302)] example_server) []).
Proof.
  exact (dbus_server_set_data_get_data (H := example_collaborators) checked_build
           (mkWorld example_server []) 0 77 (Some 302) [(77, Some 302)] 0 []
           eq_refl eq_refl eq_refl).
Defined.

(** X17 on the example server: EXTERNAL, then all mechanisms again. *)
Lemma dbus_server_set_auth_mechanisms_last_wins_witness :
  dbus_server_set_auth_mechanisms (H := example_collaborators) checked_build
    (Some ["EXTERNAL"%string]) (mkWorld example_server [])
  = Done [EvLock; EvUnlock] true
      (mkWorld (set_auth_mechanisms (Some ["EXTERNAL"%string]) example_server) [])
  /\ (dbus_server_set_auth_mechanisms (H := example_collaborators) checked_build
        (Some ["EXTERNAL"%string]) ;;
      dbus_server_set_auth_mechanisms (H := example_collaborators) checked_build None)
       (mkWorld example_server [])
     = Done [EvLock; EvUnlock; EvLock; EvUnlock] true (mkWorld example_server []).
Proof.
  exact (dbus_server_set_auth_mechanisms_last_wins (H := example_collaborators) checked_build
           (mkWorld example_server []) (Some ["EXTERNAL"%string]) None [] []
           eq_refl eq_refl eq_refl).
Defined.

(** X20: a NULL address, and an error that is already set. *)
Lemma dbus_server_listen_checks_arguments_witness :
  (exists what,
      dbus_server_listen checked_build None (Some None) 0%nat
      = Done [EvCheckFailed what] (None, Some None) 0%nat)
  /\ (exists what,
         dbus_server_listen checked_build (Some "tcp:port=1234"%string)
           (Some (Some (mkDBusError "org.freedesktop.DBus.Error.Failed" "earlier failure")))
           0%nat
         = Done [EvCheckFailed what]
             (None,
              Some (Some (mkDBusError "org.freedesktop.DBus.Error.Failed" "earlier failure")))
             0%nat).
Proof.
  split.
  - exact (dbus_server_listen_checks_arguments checked_build None (Some None) 0%nat
             eq_refl (or_introl eq_refl)).
  - exact (dbus_server_listen_checks_arguments checked_build (Some "tcp:port=1234"%string)
             (Some (Some (mkDBusError "org.freedesktop.DBus.Error.Failed" "earlier failure")))
             0%nat eq_refl (or_intror eq_refl)).
Defined.

(** X21: port 80 is taken, port 1234 is free. *)
Lemma dbus_server_listen_stops_at_first_ok_witness :
  dbus_server_listen checked_build (Some "tcp:port=80;tcp:port=1234"%string) (Some None) 0%nat
  = Done [EvListen 0 tcp_port_80; EvListen 1 tcp_port_80; EvListen 0 tcp_port_1234]
      (Some 1000, Some None) 3%nat.
Proof.
  exact (dbus_server_listen_stops_at_first_ok checked_build "tcp:port=80;tcp:port=1234"
           (Some None) 0%nat 0%nat 2%nat 3%nat [tcp_port_80; tcp_port_1234]
           [(0%nat, example_listen_socket, tcp_port_80);
            (1%nat, example_listen_platform_specific, tcp_port_80)]
           [(1%nat, example_listen_platform_specific, tcp_port_1234)]
           0%nat example_listen_socket tcp_port_1234
           [DBUS_SERVER_LISTEN_DID_NOT_CONNECT
              (mkDBusError "org.freedesktop.DBus.Error.AddressInUse"
                 "Failed to bind socket: Address already in use");
            DBUS_SERVER_LISTEN_NOT_HANDLED]
           1000 eq_refl eq_refl eq_refl eq_refl eq_refl eq_refl).
Defined.

(** X22: an entry without a port alone, and after an entry whose port is
    taken. *)
Lemma dbus_server_listen_stops_at_first_bad_address_witness :
  dbus_server_listen (H := busy_transports) checked_build (Some "tcp:host=localhost"%string)
    (Some None) 0%nat
  = Done [EvListen 0 tcp_no_port]
      (None, Some (Some (mkDBusError "org.freedesktop.DBus.Error.BadAddress"
                           "Must specify port"))) 1%nat
  /\ dbus_server_listen checked_build (Some "tcp:port=80;tcp:host=localhost"%string)
       (Some None) 0%nat
     = Stuck [EvListen 0 tcp_port_80; EvListen 1 tcp_port_80; EvListen 0 tcp_no_port]
         AssertionFailed.
Proof.
  split.
  - exact (dbus_server_listen_stops_at_first_bad_address (H := busy_transports) checked_build
             "tcp:host=localhost" (Some None) 0%nat 0%nat 0%nat 1%nat [tcp_no_port]
             [] [(1%nat, example_listen_platform_specific, tcp_no_port)]
             0%nat busy_listen_socket tcp_no_port []
             (mkDBusError "org.freedesktop.DBus.Error.BadAddress" "Must specify port")
             eq_refl eq_refl eq_refl eq_refl eq_refl eq_refl).
  - exact (dbus_server_listen_stops_at_first_bad_address checked_build
             "tcp:port=80;tcp:host=localhost" (Some None) 0%nat 0%nat 2%nat 3%nat
             [tcp_port_80; tcp_no_port]
             [(0%nat, example_listen_socket, tcp_port_80);
              (1%nat, example_listen_platform_specific, tcp_port_80)]
             [(1%nat, example_listen_platform_specific, tcp_no_port)]
             0%nat example_listen_socket tcp_no_port
             [DBUS_SERVER_LISTEN_DID_NOT_CONNECT
                (mkDBusError "org.freedesktop.DBus.Error.AddressInUse"
                   "Failed to bind socket: Address already in use");
              DBUS_SERVER_LISTEN_NOT_HANDLED]
             (mkDBusError "org.freedesktop.DBus.Error.BadAddress" "Must specify port")
             eq_refl eq_refl eq_refl eq_refl eq_refl eq_refl).
Defined.

(** X23: port 22 may not be bound and port 80 is taken; the error for
    port 22 is the one reported. *)
Lemma dbus_server_listen_reports_first_connect_failure_witness :
  dbus_server_listen (H := busy_transports) checked_build
    (Some "tcp:port=22;tcp:port=80"%string) (Some None) 0%nat
  = Done [EvListen 0 tcp_port_22; EvListen 1 tcp_port_22;
          EvListen 0 tcp_port_80; EvListen 1 tcp_port_80]
      (None, Some (Some (mkDBusError "org.freedesktop.DBus.Error.AccessDenied"
                           "Failed to bind socket: Permission denied"))) 4%nat.
Proof.
  exact (dbus_server_listen_reports_first_connect_failure (H := busy_transports)
           checked_build "tcp:port=22;tcp:port=80" (Some None) 0%nat 0%nat 4%nat
           [tcp_port_22; tcp_port_80]
           [DBUS_SERVER_LISTEN_DID_NOT_CONNECT
              (mkDBusError "org.freedesktop.DBus.Error.AccessDenied"
                 "Failed to bind socket: Permission denied");
            DBUS_SERVER_LISTEN_NOT_HANDLED;
            DBUS_SERVER_LISTEN_DID_NOT_CONNECT
              (mkDBusError "org.freedesktop.DBus.Error.AddressInUse"
                 "Failed to bind socket: Address already in use");
            DBUS_SERVER_LISTEN_NOT_HANDLED]
           (mkDBusError "org.freedesktop.DBus.Error.AccessDenied"
              "Failed to bind socket: Permission denied")
           eq_refl eq_refl eq_refl eq_refl eq_refl).
Defined.

(** X18: port 80 is taken, port 1234 is free; the scan stops one call
    before its end. *)
Lemma dbus_server_listen_calls_in_scan_order_witness :
  (exists rest,
      [EvListen 0 tcp_port_80; EvListen 1 tcp_port_80;
       EvListen 0 tcp_port_1234; EvListen 1 tcp_port_1234]
      = trace (dbus_server_listen checked_build (Some "tcp:port=80;tcp:port=1234"%string)
                 (Some None) 0%nat) ++ rest)
  /\ (List.length
        (trace (dbus_server_listen checked_build (Some "tcp:port=80;tcp:port=1234"%string)
                  (Some None) 0%nat)) <= 4)%nat.
Proof.
  exact (dbus_server_listen_calls_in_scan_order checked_build "tcp:port=80;tcp:port=1234"
           (Some None) 0%nat 0%nat [tcp_port_80; tcp_port_1234] eq_refl eq_refl).
Defined.

(** X19 at an address that can be bound, where the error stays clear,
    and at one that no transport knows, where the error is set. *)
Lemma dbus_server_listen_server_or_error_witness :
  (Some None : option (option DBusError)) = Some None
  /\ exists e,
       Some (Some (mkDBusError "org.freedesktop.DBus.Error.BadAddress"
                     "Unknown address type 'bogus'"))
       = Some (Some e).
Proof.
  split.
  - exact (dbus_server_listen_server_or_error checked_build "tcp:port=1234" (Some None)
             0%nat 1%nat [EvListen 0 tcp_port_1234] (Some 1000) (Some None)
             eq_refl eq_refl).
  - exact (dbus_server_listen_server_or_error checked_build "bogus:foo=bar" (Some None)
             0%nat 2%nat [EvListen 0 bogus_entry; EvListen 1 bogus_entry] None
             (Some (Some (mkDBusError "org.freedesktop.DBus.Error.BadAddress"
                            "Unknown address type 'bogus'")))
             eq_refl eq_refl).
Defined.

(** X24 on the example server: the last unref calls [finalize] without
    the lock, a disconnect calls the transport with it. *)
Lemma only_disconnect_calls_under_the_lock_witness :
  calls_outside_lock false
    (trace (run_call (H := example_collaborators) checked_build call_dbus_server_unref
              (mkWorld disconnected_server [])))
  = true
  /\ calls_outside_lock false
       (trace (dbus_server_disconnect (H := example_collaborators) checked_build
                 (mkWorld example_server [])))
     = false.
Proof.
  split.
  - exact (proj1 (only_disconnect_calls_under_the_lock (H := example_collaborators)
                    checked_build (mkWorld disconnected_server []))
             call_dbus_server_unref eq_refl eq_refl).
  - exact (proj1 (proj2 (only_disconnect_calls_under_the_lock (H := example_collaborators)
                           checked_build (mkWorld example_server []))
                    101 (conj eq_refl eq_refl) eq_refl eq_refl eq_refl)).
Defined.

(** X25 on the example server, over [example_other_calls]. *)
Lemma only_ref_and_unref_change_the_count_witness :
  match run_calls (H := example_collaborators) checked_build
          example_other_calls (mkWorld example_server []) with
  | Done _ _ w' => refcount (srv w') = refcount example_server
  | Stuck _ _ => False
  end.
Proof.
  destruct (run_calls (H := example_collaborators) checked_build example_other_calls
              (mkWorld example_server [])) as [t [] w'|t f] eqn:Hrun.
  - exact (only_ref_and_unref_change_the_count (H := example_collaborators) checked_build
             example_other_calls (mkWorld example_server []) w' t
             (conj eq_refl eq_refl)
             (example_callees_keep (same_field refcount) (same_field_refl refcount))
             eq_refl Hrun).
  - vm_compute in Hrun. discriminate Hrun.
Defined.

(** X26 on the example server, over [example_other_calls]. *)
Lemma registries_are_put_back_witness :
  match run_calls (H := example_collaborators) checked_build
          example_other_calls (mkWorld example_server []) with
  | Done _ _ w' =>
      watches (srv w') = watches example_server
      /\ timeouts (srv w') = timeouts example_server
  | Stuck _ _ => False
  end.
Proof.
  destruct (run_calls (H := example_collaborators) checked_build example_other_calls
              (mkWorld example_server [])) as [t [] w'|t f] eqn:Hrun.
  - destruct (registries_are_put_back (H := example_collaborators) checked_build
                example_other_calls (mkWorld example_server []) w' t Hrun) as [Hw Ht].
    split.
    + apply Hw, example_callees_keep, same_field_refl.
    + apply Ht, example_callees_keep, same_field_refl.
  - vm_compute in Hrun. discriminate Hrun.
Defined.
